(** * Settlement-report ingestion: the column normaliser and record extractor
    of [upload/tasks.py], embedded in Rocq.

    The development follows the Python module top to bottom:
    - exceptions, and a small monad for code that raises and leaves a trace
      (log records, calls of the models);
    - [PyStr]: the [str] operations the module relies on ([split], [join],
      [strip]), then header cleaning;
    - [PyFloat]: the built-in [float(str)] and [int(float)] conversions, with
      binary64 rounding taken from the Standard Library's [SpecFloat];
    - the tables, rows and records of the module, its two configuration
      tables, and its functions: [clean_column_name], [convert_to_int] and
      [process_uploaded_files] with its row loop and its two levels of
      exception handlers;
    - the upload view of [upload/views.py], which enqueues the task;
    - the properties, from strings up to whole invocations.

    A Python [str] is a Rocq [string]; the character with code [n] stands for
    the code point [n], so the strings covered are those over code points
    below 256. *)

From Stdlib Require Import ZArith NArith Ascii String List Bool Lia.
From Stdlib Require Import Floats.SpecFloat.
From stdpp Require Import base list strings gmap.

Local Open Scope string_scope.
Local Open Scope list_scope.

(** ** Python exceptions and the result of a call that may raise *)

(** The exceptions the module can meet.  A [ValueError] carries a structured
    description of its message rather than the formatted text. *)
Inductive value_error : Type :=
  | CouldNotConvertStringToFloat (s : string)
  | CannotConvertFloatNaNToInteger
  | TruthValueOfSeriesIsAmbiguous
  | UnsupportedFileFormat
  | MissingColumnsAfterCleaning (names : list string)
  | MixedTimezones.

Inductive exn : Type :=
  | ValueError (why : value_error)
  | OverflowError
  | KeyError (key : string)
  | TypeError
  | ReaderError (what : string).

Inductive py (A : Type) : Type :=
  | Ret (a : A)
  | Raise (e : exn).
Arguments Ret {A} a.
Arguments Raise {A} e.

#[global] Instance py_ret : MRet py := fun A a => Ret a.

#[global] Instance py_bind : MBind py := fun A B k m =>
  match m with
  | Ret a => k a
  | Raise e => Raise e
  end.

Definition raises {A : Type} (m : py A) : bool :=
  match m with Ret _ => false | Raise _ => true end.

(** A computation that also leaves a trace of events (log records, calls to
    collaborators).  The trace of what ran before an exception is kept. *)
Record Py (E A : Type) : Type := MkPy { result : py A; trace : list E }.
Arguments MkPy {E A} result trace.
Arguments result {E A} _.
Arguments trace {E A} _.

#[global] Instance Py_ret {E} : MRet (Py E) := fun A a => MkPy (Ret a) [].

#[global] Instance Py_bind {E} : MBind (Py E) := fun A B k m =>
  match result m with
  | Ret a => let rest := k a in MkPy (result rest) (trace m ++ trace rest)
  | Raise e => MkPy (Raise e) (trace m)
  end.

Definition emit {E} (ev : E) : Py E unit := MkPy (Ret tt) [ev].
Definition raise {E A} (e : exn) : Py E A := MkPy (Raise e) [].
Definition lift {E A} (m : py A) : Py E A := MkPy m [].

(** [try: m  except ...: handler]; [handler e = None] when no clause of the
    statement matches [e]. *)
Definition try_except {E A} (m : Py E A) (handler : exn -> option (Py E A)) : Py E A :=
  match result m with
  | Ret _ => m
  | Raise e =>
      match handler e with
      | Some h => MkPy (result h) (trace m ++ trace h)
      | None => m
      end
  end.

(** ** Strings *)

Module PyStr.

(** [str.isspace] on one character, as used by [str.split()] and
    [str.strip()]: TAB..CR, FS..US, SPACE, NEL and NBSP. *)
Definition isspace (c : ascii) : bool :=
  let n := N_of_ascii c in
  ((9 <=? n) && (n <=? 13) || (28 <=? n) && (n <=? 32) || (n =? 133) || (n =? 160))%N.

Definition isdigit (c : ascii) : bool :=
  let n := N_of_ascii c in ((48 <=? n) && (n <=? 57))%N.

Fixpoint filter (keep : ascii -> bool) (s : string) : string :=
  match s with
  | EmptyString => EmptyString
  | String c s' => if keep c then String c (filter keep s') else filter keep s'
  end.

Fixpoint drop_while (p : ascii -> bool) (s : string) : string :=
  match s with
  | EmptyString => EmptyString
  | String c s' => if p c then drop_while p s' else s
  end.

Fixpoint rev_onto (s acc : string) : string :=
  match s with
  | EmptyString => acc
  | String c s' => rev_onto s' (String c acc)
  end.

Definition rev (s : string) : string := rev_onto s EmptyString.

Definition lstrip_by (p : ascii -> bool) (s : string) : string := drop_while p s.
Definition rstrip_by (p : ascii -> bool) (s : string) : string :=
  rev (drop_while p (rev s)).
Definition strip_by (p : ascii -> bool) (s : string) : string :=
  rstrip_by p (lstrip_by p s).

(** [s.strip()] *)
Definition strip (s : string) : string := strip_by isspace s.

(** A text none of whose characters satisfies [p]. *)
Fixpoint free_of (p : ascii -> bool) (s : string) : Prop :=
  match s with
  | EmptyString => True
  | String c s' => p c = false /\ free_of p s'
  end.

(** [s.split()]: the scanning loop of the no-argument split.  [w] is the word
    being collected; a whitespace character closes it, and empty words are
    never produced. *)
Fixpoint split_from (w : string) (s : string) : list string :=
  match s with
  | EmptyString => match w with EmptyString => [] | _ => [w] end
  | String c s' =>
      if isspace c
      then match w with
           | EmptyString => split_from EmptyString s'
           | _ => w :: split_from EmptyString s'
           end
      else split_from (w ++ String c EmptyString)%string s'
  end.

Definition split (s : string) : list string := split_from EmptyString s.

Definition nonempty (s : string) : bool :=
  match s with EmptyString => false | _ => true end.

(** [sep.join(parts)] *)
Fixpoint join (sep : string) (parts : list string) : string :=
  match parts with
  | [] => EmptyString
  | [p] => p
  | p :: ps => (p ++ sep ++ join sep ps)%string
  end.

End PyStr.

(** ** Header cleaning *)

Definition is_dot_or_underscore (c : ascii) : bool :=
  (Ascii.eqb c "." || Ascii.eqb c "_")%bool.

(** The value [clean_column_name] computes, line by line: the local
    [cleaned_name] at the [return]. *)
Definition cleaned_name (column_name : string) : string :=
  let parts := PyStr.split column_name in
  let cleaned_name := PyStr.join "" (List.filter PyStr.nonempty parts) in
  let cleaned_name :=
    PyStr.strip
      (PyStr.filter (fun char => negb (is_dot_or_underscore char)) cleaned_name) in
  cleaned_name.

(** The definition the words of the specification give: drop every
    whitespace character and every '.' and '_', keep the rest in place. *)
Definition removable (c : ascii) : bool := PyStr.isspace c || is_dot_or_underscore c.

Definition clean_reference (s : string) : string :=
  PyStr.filter (fun c => negb (removable c)) s.

(** Two headers that differ only in removable characters. *)
Inductive differ_only_in_removable : string -> string -> Prop :=
  | dor_nil : differ_only_in_removable EmptyString EmptyString
  | dor_keep c s t :
      differ_only_in_removable s t ->
      differ_only_in_removable (String c s) (String c t)
  | dor_left c s t :
      removable c = true ->
      differ_only_in_removable s t ->
      differ_only_in_removable (String c s) t
  | dor_right c s t :
      removable c = true ->
      differ_only_in_removable s t ->
      differ_only_in_removable s (String c t).

(** ** The built-in conversions [float(str)] and [int(float)] *)

Module PyFloat.

(** A Python [float] is an IEEE binary64 value. *)
Definition prec : Z := 53.
Definition emax : Z := 1024.

Definition zero : spec_float := S754_zero false.

(** The whitespace [float] strips from both ends of its argument: the C
    locale's TAB..CR and SPACE, and the non-ASCII spaces NEL and NBSP, which
    it first rewrites to SPACE.  FS..US are whitespace for [str.split] but
    are not stripped here. *)
Definition isspace_float (c : ascii) : bool :=
  let n := N_of_ascii c in
  ((9 <=? n) && (n <=? 13) || (n =? 32) || (n =? 133) || (n =? 160))%N.

(** Underscores may group digits: each one needs a digit on both sides.
    [prev] is the previous character.  The result is the text without them,
    or [None] where one is misplaced. *)
Fixpoint remove_underscores (prev : option ascii) (s : string) : option string :=
  match s with
  | EmptyString =>
      match prev with
      | Some "_"%char => None
      | _ => Some EmptyString
      end
  | String c s' =>
      if Ascii.eqb c "_"
      then match prev with
           | Some p => if PyStr.isdigit p then remove_underscores (Some c) s' else None
           | None => None
           end
      else
        let ok := match prev with
                  | Some "_"%char => PyStr.isdigit c
                  | _ => true
                  end in
        if ok then String c <$> remove_underscores (Some c) s' else None
  end.

(** The longest prefix of decimal digits, and what follows it. *)
Fixpoint span_digits (s : string) : string * string :=
  match s with
  | EmptyString => (EmptyString, EmptyString)
  | String c s' =>
      if PyStr.isdigit c
      then let '(d, r) := span_digits s' in (String c d, r)
      else (EmptyString, s)
  end.

Definition digit_value (c : ascii) : N := (N_of_ascii c - 48)%N.

Fixpoint digits_value_from (acc : N) (s : string) : N :=
  match s with
  | EmptyString => acc
  | String c s' => digits_value_from (10 * acc + digit_value c)%N s'
  end.

Definition digits_value (s : string) : N := digits_value_from 0%N s.

(** An optional sign: [true] for '-'. *)
Definition take_sign (s : string) : bool * string :=
  match s with
  | String "-"%char s' => (true, s')
  | String "+"%char s' => (false, s')
  | _ => (false, s)
  end.

Definition tolower (c : ascii) : ascii :=
  let n := N_of_ascii c in
  if ((65 <=? n) && (n <=? 90))%N then ascii_of_N (n + 32) else c.

Fixpoint lower (s : string) : string :=
  match s with
  | EmptyString => EmptyString
  | String c s' => String (tolower c) (lower s')
  end.

(** The value [m * 10^e] rounded to the nearest binary64 value, ties to even;
    an overflow gives an infinity. *)
Definition decimal_to_float (neg : bool) (m : N) (e : Z) : spec_float :=
  match m with
  | N0 => S754_zero neg
  | Npos p =>
      if (0 <=? e)%Z
      then binary_round prec emax neg (p * Z.to_pos (10 ^ e))%positive 0
      else SFdiv prec emax (S754_finite neg p 0)
                           (S754_finite false (Z.to_pos (10 ^ (- e))) 0)
  end.

(** The text of a number, sign included, whitespace and underscores already
    removed: [inf], [infinity] or [nan] in any case, or a decimal numeral
    with at least one digit and an optional exponent.  Nothing may follow. *)
Definition parse_number (s : string) : option spec_float :=
  let '(neg, body) := take_sign s in
  let l := lower body in
  if (String.eqb l "inf" || String.eqb l "infinity")%bool then Some (S754_infinity neg)
  else if String.eqb l "nan" then Some S754_nan
  else
    let '(ip, r1) := span_digits body in
    let '(fp, r2) :=
      match r1 with
      | String "."%char r => span_digits r
      | _ => (EmptyString, r1)
      end in
    if (negb (PyStr.nonempty ip) && negb (PyStr.nonempty fp))%bool then None
    else
      let m := digits_value (ip ++ fp)%string in
      let fl := Z.of_nat (String.length fp) in
      match r2 with
      | EmptyString => Some (decimal_to_float neg m (- fl))
      | String c r3 =>
          if (Ascii.eqb c "e" || Ascii.eqb c "E")%bool
          then
            let '(eneg, r4) := take_sign r3 in
            let '(ed, r5) := span_digits r4 in
            if (PyStr.nonempty ed && negb (PyStr.nonempty r5))%bool
            then
              let ev := Z.of_N (digits_value ed) in
              Some (decimal_to_float neg m ((if eneg then - ev else ev) - fl))
            else None
          else None
      end.

(** [float(s)] for a [str] argument. *)
Definition float_of_str (s : string) : py spec_float :=
  let body := PyStr.strip_by isspace_float s in
  match remove_underscores None body ≫= parse_number with
  | Some f => Ret f
  | None => Raise (ValueError (CouldNotConvertStringToFloat s))
  end.

(** [int(x)] for a [float] argument: truncation towards zero. *)
Definition int_of_float (x : spec_float) : py Z :=
  match x with
  | S754_zero _ => Ret 0%Z
  | S754_infinity _ => Raise OverflowError
  | S754_nan => Raise (ValueError CannotConvertFloatNaNToInteger)
  | S754_finite neg m e =>
      let a := match e with
               | Zneg k => Z.shiftr (Zpos m) (Zpos k)
               | _ => Z.shiftl (Zpos m) e
               end in
      Ret (if neg then - a else a)%Z
  end.

End PyFloat.

(** ** The data of [upload/tasks.py] *)

(** A cell of a table read with [dtype=str]: text, or the missing-value
    marker NaN. *)
Inductive cell : Type :=
  | NaN
  | Str (s : string).

(** What [row.get(key)] can return: [None] when no column has that label, the
    cell when exactly one has, and a [Series] of the cells when several
    columns share the label. *)
Inductive pyval : Type :=
  | VNone
  | VNaN
  | VStr (s : string)
  | VSeries (cells : list cell).

Definition val_of_cell (c : cell) : pyval :=
  match c with NaN => VNaN | Str s => VStr s end.

(** A column label as a reader hands it over.  [pd.read_csv] gives text
    labels only; [pd.read_excel] keeps a numeric or date header cell as an
    object that is not a [str] ([dtype=str] converts the cells, not the
    labels); [type_name] is the name of that object's type. *)
Inductive label : Type :=
  | Text (s : string)
  | NotText (type_name : string).

(** The table a reader returns: its labels and its rows of cells. *)
Record ParsedTable : Type := {
  parsed_labels : list label;
  parsed_rows : list (list cell) }.

(** [', '.join(df.columns)] on line 83 accepts [str] items only: it raises
    [TypeError] when a label is not text, and gives the labels otherwise (the
    log record keeps the list rather than the joined text). *)
Fixpoint text_labels (ls : list label) : py (list string) :=
  match ls with
  | [] => Ret []
  | Text s :: rest => texts ← text_labels rest; Ret (s :: texts)
  | NotText _ :: _ => Raise TypeError
  end.

Definition is_text (l : label) : bool :=
  match l with Text _ => true | NotText _ => false end.

(** The table from line 83 on, where every label is known to be text: the
    labels and the rows of cells. *)
Record DataFrame : Type := { columns : list string; data : list (list cell) }.

(** The table [df], whose labels are all text, as a reader hands it over. *)
Definition parsed (df : DataFrame) : ParsedTable :=
  {| parsed_labels := map Text (columns df); parsed_rows := data df |}.


(** The rows [df.iterrows()] yields: each cell under its column label. *)
Definition Row : Type := list (string * cell).

Definition iterrows (df : DataFrame) : list Row :=
  map (fun cells => zip (columns df) cells) (data df).

Definition row_get (key : string) (row : Row) : pyval :=
  match List.filter (fun kc => String.eqb (fst kc) key) row with
  | [] => VNone
  | [kc] => val_of_cell (snd kc)
  | kcs => VSeries (map snd kcs)
  end.

(** [pd.isna] / [pd.notnull]: a truth value for a scalar, an element-wise
    [Series] for a [Series]. *)
Inductive na_mask : Type :=
  | Truth (b : bool)
  | BoolSeries (bs : list bool).

Definition cell_isna (c : cell) : bool :=
  match c with NaN => true | Str _ => false end.

Definition isna (v : pyval) : na_mask :=
  match v with
  | VNone | VNaN => Truth true
  | VStr _ => Truth false
  | VSeries cs => BoolSeries (map cell_isna cs)
  end.

Definition notnull (v : pyval) : na_mask :=
  match isna v with
  | Truth b => Truth (negb b)
  | BoolSeries bs => BoolSeries (map negb bs)
  end.

(** [bool(x)], which [if], [and] and [or] apply: a [Series] has none. *)
Definition truth (m : na_mask) : py bool :=
  match m with
  | Truth b => Ret b
  | BoolSeries _ => Raise (ValueError TruthValueOfSeriesIsAmbiguous)
  end.

(** [val == ''] *)
Definition is_empty_str (v : pyval) : bool :=
  match v with VStr s => String.eqb s "" | _ => false end.

(** [float(val)] *)
Definition float_ (v : pyval) : py spec_float :=
  match v with
  | VStr s => PyFloat.float_of_str s
  | VNaN => Ret S754_nan
  | VNone | VSeries _ => Raise TypeError
  end.

(** The [transaction_data] dict of a booking row and of a refund row, with
    the keys the code gives it.  [T] is the type of [pd.to_datetime]'s
    results. *)
Module Booking.
Record t (T : Type) : Type := mk {
  bank_code : Z;
  transaction_date : T;
  credited_date : T;
  booking_amount : spec_float;
  irctc_order_no : option Z;
  bank_booking_ref_no : option Z }.
Arguments mk {T}.
Arguments bank_code {T}.
Arguments transaction_date {T}.
Arguments credited_date {T}.
Arguments booking_amount {T}.
Arguments irctc_order_no {T}.
Arguments bank_booking_ref_no {T}.
End Booking.

Module Refund.
Record t (T : Type) : Type := mk {
  bank_code : Z;
  refund_date : T;
  bank_booking_ref_no : option Z;
  bank_refund_ref_no : option Z;
  refund_amount : spec_float;
  debited_date : T;
  irctc_order_no : option Z }.
Arguments mk {T}.
Arguments bank_code {T}.
Arguments refund_date {T}.
Arguments bank_booking_ref_no {T}.
Arguments bank_refund_ref_no {T}.
Arguments refund_amount {T}.
Arguments debited_date {T}.
Arguments irctc_order_no {T}.
End Refund.

(** The entries of [BANK_MAPPINGS]: the required raw labels and the dict
    from cleaned label to field name, in insertion order. *)
Record Schema : Type := {
  schema_columns : list string;
  column_mapping : list (string * string) }.

(** The module's two global tables. *)
Record Globals : Type := {
  BANK_CODE_MAPPING : gmap string Z;
  BANK_MAPPINGS : gmap string (gmap string Schema) }.

Definition karur_vysya_booking : Schema := {|
  schema_columns :=
    ["TXN DATE"; "IRCTC ORDER NO."; "BANK BOOKING REF.NO."; "BOOKING AMOUNT"; "CREDITED ON"];
  column_mapping :=
    [("IRCTCORDERNO", "irctc_order_no");
     ("BANKBOOKINGREFNO", "bank_booking_ref_no");
     ("BOOKINGAMOUNT", "booking_amount");
     ("TXNDATE", "transaction_date");
     ("CREDITEDON", "credited_date")] |}.

Definition karur_vysya_refund : Schema := {|
  schema_columns :=
    ["REFUND DATE"; "IRCTC ORDER NO."; "BANK BOOKING REF.NO."; "BANK REFUND REF.NO.";
     "REFUND AMOUNT"; "DEBITED ON"];
  column_mapping :=
    [("IRCTCORDERNO", "irctc_order_no");
     ("REFUNDAMOUNT", "refund_amount");
     ("DEBITEDON", "debited_date");
     ("REFUNDDATE", "refund_date");
     ("BANKBOOKINGREFNO", "bank_booking_ref_no");
     ("BANKREFUNDREFNO", "bank_refund_ref_no")] |}.

(** The tables as the module ships them. *)
Definition shipped : Globals := {|
  BANK_CODE_MAPPING :=
    <["hdfc" := 101%Z]> (<["icici" := 102%Z]> (<["karur_vysya" := 40%Z]> ∅));
  BANK_MAPPINGS :=
    <["karur_vysya" :=
        <["booking" := karur_vysya_booking]> (<["refund" := karur_vysya_refund]> ∅)]> ∅ |}.

(** ** Log records and collaborator calls *)

Inductive level : Type := DEBUG | INFO | WARNING | ERROR.

(** One constructor per [logger] call of the module, holding the values its
    message is formatted from. *)
Inductive log_msg (T : Type) : Type :=
  | CleanedColumnName (column_name cleaned_name : string)
  | ErrorConvertingValueToInt (val : pyval) (e : exn)
  | ReceivedTask (file_name transaction_type : string)
  | ReadingExcel
  | ReadingCsv
  | UnsupportedFormat (file_format : string)
  | InitialColumns (file_name : string) (cols : list string)
  | CleanedColumns (cols : list string)
  | ExpectedColumns (cols : list string)
  | MissingColumns (file_name : string) (names : list string)
  | RenamedColumns (cols : list string)
  | BankCodeNotFound (bank_name : string)
  | RowBooking (index : nat) (d : Booking.t T)
  | AddingBooking (d : Booking.t T)
  | RowRefund (index : nat) (d : Refund.t T)
  | AddingRefund (d : Refund.t T)
  | MissingKeyInRow (index : nat) (row : Row) (key : string)
  | UnexpectedRowError (index : nat) (row : Row) (e : exn)
  | PreparedBookings (n : nat)
  | PreparedRefunds (n : nat)
  | BulkInsertingBookings
  | StoredBookings (n : nat) (file_name : string)
  | BulkInsertingRefunds
  | StoredRefunds (n : nat) (file_name : string)
  | Finished
  | ErrorProcessingFile (file_name : string) (e : exn)
  | FullTraceback (e : exn).
Arguments CleanedColumnName {T}.
Arguments ErrorConvertingValueToInt {T}.
Arguments ReceivedTask {T}.
Arguments ReadingExcel {T}.
Arguments ReadingCsv {T}.
Arguments UnsupportedFormat {T}.
Arguments InitialColumns {T}.
Arguments CleanedColumns {T}.
Arguments ExpectedColumns {T}.
Arguments MissingColumns {T}.
Arguments RenamedColumns {T}.
Arguments BankCodeNotFound {T}.
Arguments RowBooking {T}.
Arguments AddingBooking {T}.
Arguments RowRefund {T}.
Arguments AddingRefund {T}.
Arguments MissingKeyInRow {T}.
Arguments UnexpectedRowError {T}.
Arguments PreparedBookings {T}.
Arguments PreparedRefunds {T}.
Arguments BulkInsertingBookings {T}.
Arguments StoredBookings {T}.
Arguments BulkInsertingRefunds {T}.
Arguments StoredRefunds {T}.
Arguments Finished {T}.
Arguments ErrorProcessingFile {T}.
Arguments FullTraceback {T}.

(** What an invocation does to the outside: a log record, or a call of one
    of the two bulk-insert operations of the models. *)
Inductive event (T : Type) : Type :=
  | Log (lvl : level) (msg : log_msg T)
  | BulkCreateBookingTransactions (records : list (Booking.t T))
  | BulkCreateRefundTransactions (records : list (Refund.t T)).
Arguments Log {T}.
Arguments BulkCreateBookingTransactions {T}.
Arguments BulkCreateRefundTransactions {T}.

Definition is_error_record {T} (ev : event T) : bool :=
  match ev with Log ERROR _ => true | _ => false end.

Definition is_persistence_call {T} (ev : event T) : bool :=
  match ev with
  | BulkCreateBookingTransactions _ | BulkCreateRefundTransactions _ => true
  | Log _ _ => false
  end.

Definition is_refund_call {T} (ev : event T) : bool :=
  match ev with BulkCreateRefundTransactions _ => true | _ => false end.

Definition is_booking_call {T} (ev : event T) : bool :=
  match ev with BulkCreateBookingTransactions _ => true | _ => false end.

(** ** The functions of [upload/tasks.py] *)

Section Tasks.

(** What the module takes from outside.  [pd.to_datetime(_, errors='coerce')]
    as it answers during one invocation: it gives NaT where it cannot parse,
    it reads the wall clock (for 'now' and 'today'), so that another
    invocation has another such function, and it can raise (on the [Series]
    of a duplicated label whose cells have mixed UTC offsets).  The two
    pandas readers applied to the uploaded bytes.  The two bulk-insert
    operations of the models, whose database effect is recorded as an event
    and whose outcome (return or raise) is theirs. *)
Context {Timestamp : Type}.
Variable to_datetime : pyval -> py Timestamp.
Variable read_excel : list Byte.byte -> py ParsedTable.
Variable read_csv : list Byte.byte -> py ParsedTable.
Variable bulk_create_booking_transactions : list (Booking.t Timestamp) -> py unit.
Variable bulk_create_refund_transactions : list (Refund.t Timestamp) -> py unit.

Abbreviation M := (Py (event Timestamp)).

Definition logger (lvl : level) (msg : log_msg Timestamp) : M unit :=
  emit (Log lvl msg).

(** [clean_column_name] with its debug line. *)
Definition clean_column_name (column_name : string) : M string :=
  let cleaned_name := cleaned_name column_name in
  _ ← logger DEBUG (CleanedColumnName column_name cleaned_name);
  mret cleaned_name.

Definition catches_value_or_overflow (e : exn) : bool :=
  match e with ValueError _ | OverflowError => true | _ => false end.

Definition convert_to_int (val : pyval) : M (option Z) :=
  try_except
    (na ← lift (truth (isna val));
     if (na || is_empty_str val)%bool then mret None
     else
       f ← lift (float_ val);
       i ← lift (PyFloat.int_of_float f);
       mret (Some i))
    (fun e =>
       if catches_value_or_overflow e
       then Some (_ ← logger ERROR (ErrorConvertingValueToInt val e); mret None)
       else None).

(** [float(x) if pd.notnull(x) else 0.0] *)
Definition amount (x : pyval) : py spec_float :=
  nn ← truth (notnull x);
  if (nn : bool) then float_ x else mret PyFloat.zero.

(** The dict the booking branch builds, its entries evaluated in the order
    they are written. *)
Definition booking_data (bank_code : Z) (row : Row) : M (Booking.t Timestamp) :=
  transaction_date ← lift (to_datetime (row_get "transaction_date" row));
  credited_date ← lift (to_datetime (row_get "credited_date" row));
  booking_amount ← lift (amount (row_get "booking_amount" row));
  irctc_order_no ← convert_to_int (row_get "irctc_order_no" row);
  bank_booking_ref_no ← convert_to_int (row_get "bank_booking_ref_no" row);
  mret (Booking.mk bank_code transaction_date credited_date booking_amount
          irctc_order_no bank_booking_ref_no).

Definition refund_data (bank_code : Z) (row : Row) : M (Refund.t Timestamp) :=
  refund_date ← lift (to_datetime (row_get "refund_date" row));
  bank_booking_ref_no ← convert_to_int (row_get "bank_booking_ref_no" row);
  bank_refund_ref_no ← convert_to_int (row_get "bank_refund_ref_no" row);
  refund_amount ← lift (amount (row_get "refund_amount" row));
  debited_date ← lift (to_datetime (row_get "debited_date" row));
  irctc_order_no ← convert_to_int (row_get "irctc_order_no" row);
  mret (Refund.mk bank_code refund_date bank_booking_ref_no bank_refund_ref_no
          refund_amount debited_date irctc_order_no).

(** Truth of an [int]-or-[None] value: [None] and [0] are false. *)
Definition truthy (v : option Z) : bool :=
  match v with
  | None => false
  | Some z => negb (z =? 0)%Z
  end.

Definition is_not_none (v : option Z) : bool :=
  match v with None => false | Some _ => true end.

(** The two lists the loop appends to. *)
Definition Bulk : Type := list (Booking.t Timestamp) * list (Refund.t Timestamp).

(** The body of the [for] loop with its [try] and its two [except] clauses. *)
Definition process_row (bank_code : Z) (transaction_type : string)
    (bulk : Bulk) (index : nat) (row : Row) : M Bulk :=
  try_except
    (if String.eqb transaction_type "booking" then
       transaction_data ← booking_data bank_code row;
       _ ← logger DEBUG (RowBooking index transaction_data);
       if (truthy (Booking.irctc_order_no transaction_data)
           && is_not_none (Booking.bank_booking_ref_no transaction_data))%bool
       then
         _ ← logger INFO (AddingBooking transaction_data);
         mret (bulk.1 ++ [transaction_data], bulk.2)
       else mret bulk
     else if String.eqb transaction_type "refund" then
       transaction_data ← refund_data bank_code row;
       _ ← logger DEBUG (RowRefund index transaction_data);
       if (truthy (Refund.irctc_order_no transaction_data)
           && is_not_none (Refund.bank_refund_ref_no transaction_data))%bool
       then
         _ ← logger INFO (AddingRefund transaction_data);
         mret (bulk.1, bulk.2 ++ [transaction_data])
       else mret bulk
     else mret bulk)
    (fun e =>
       match e with
       | KeyError key =>
           Some (_ ← logger ERROR (MissingKeyInRow index row key); mret bulk)
       | _ =>
           Some (_ ← logger ERROR (UnexpectedRowError index row e); mret bulk)
       end).

(** [for index, row in df.iterrows()], from row number [index] on. *)
Fixpoint process_rows (bank_code : Z) (transaction_type : string)
    (bulk : Bulk) (index : nat) (rows : list Row) : M Bulk :=
  match rows with
  | [] => mret bulk
  | row :: rest =>
      bulk' ← process_row bank_code transaction_type bulk index row;
      process_rows bank_code transaction_type bulk' (S index) rest
  end.

(** [d[key]] on the two levels of [BANK_MAPPINGS]. *)
Definition getitem {V} (d : gmap string V) (key : string) : py V :=
  match d !! key with
  | Some v => Ret v
  | None => Raise (KeyError key)
  end.

Definition lookup_schema (g : Globals) (bank_name transaction_type : string) : py Schema :=
  by_type ← getitem (BANK_MAPPINGS g) bank_name;
  getitem by_type transaction_type.

(** [{clean_column_name(k): v for k, v in d.items()}] *)
Fixpoint clean_keys (items : list (string * string)) (acc : gmap string string)
    : M (gmap string string) :=
  match items with
  | [] => mret acc
  | (k, v) :: rest =>
      k' ← clean_column_name k;
      clean_keys rest (<[k' := v]> acc)
  end.

(** [df.rename(columns=column_mapping)] *)
Definition rename (df : DataFrame) (mapping : gmap string string) : DataFrame :=
  {| columns := map (fun c => default c (mapping !! c)) (columns df);
     data := data df |}.

Definition missing_columns (expected_columns present : list string) : gset string :=
  list_to_set expected_columns ∖ list_to_set present.

(** Lines 73 to 81: the reader the format tag selects. *)
Definition read_file (file_content : list Byte.byte) (file_format : string)
    : M ParsedTable :=
  if String.eqb file_format "excel" then
    _ ← logger DEBUG ReadingExcel;
    lift (read_excel file_content)
  else if String.eqb file_format "csv" then
    _ ← logger DEBUG ReadingCsv;
    lift (read_csv file_content)
  else
    _ ← logger ERROR (UnsupportedFormat file_format);
    raise (ValueError UnsupportedFileFormat).

(** Lines 70 to 147: read, normalise, and walk the rows.  [None] is the early
    [return] of the bank-code guard; otherwise the two lists as they stand
    after the loop.  Line 83 joins the labels before it logs them, so from
    there on the labels are text.  The missing columns are listed in the
    order [elements] gives; Python lists them in the iteration order of the
    set. *)
Definition extract (g : Globals)
    (file_content : list Byte.byte) (file_name bank_name transaction_type file_format : string)
    : M (option Bulk) :=
  _ ← logger INFO (ReceivedTask file_name transaction_type);
  table ← read_file file_content file_format;
  initial ← lift (text_labels (parsed_labels table));
  let df := {| columns := initial; data := parsed_rows table |} in
  _ ← logger INFO (InitialColumns file_name (columns df));
  cleaned ← mapM clean_column_name (columns df);
  let df := {| columns := cleaned; data := data df |} in
  _ ← logger INFO (CleanedColumns (columns df));
  schema ← lift (lookup_schema g bank_name transaction_type);
  expected_columns ← mapM clean_column_name (schema_columns schema);
  _ ← logger DEBUG (ExpectedColumns expected_columns);
  let missing := missing_columns expected_columns (columns df) in
  if decide (missing = ∅) then
    schema ← lift (lookup_schema g bank_name transaction_type);
    mapping ← clean_keys (column_mapping schema) ∅;
    let df := rename df mapping in
    _ ← logger INFO (RenamedColumns (columns df));
    match BANK_CODE_MAPPING g !! bank_name with
    | None =>
        _ ← logger ERROR (BankCodeNotFound bank_name);
        mret None
    | Some bank_code =>
        bulk ← process_rows bank_code transaction_type ([], []) 0 (iterrows df);
        mret (Some bulk)
    end
  else
    _ ← logger WARNING (MissingColumns file_name (elements missing));
    raise (ValueError (MissingColumnsAfterCleaning (elements missing))).

(** Lines 149 to 162: hand the two lists to the models. *)
Definition persist (file_name : string) (bulk : Bulk) : M unit :=
  let '(bulk_data_bookings, bulk_data_refunds) := bulk in
  _ ← logger INFO (PreparedBookings (length bulk_data_bookings));
  _ ← logger INFO (PreparedRefunds (length bulk_data_refunds));
  _ ← match bulk_data_bookings with
      | [] => mret tt
      | _ =>
          _ ← logger DEBUG BulkInsertingBookings;
          _ ← emit (BulkCreateBookingTransactions bulk_data_bookings);
          _ ← lift (bulk_create_booking_transactions bulk_data_bookings);
          logger INFO (StoredBookings (length bulk_data_bookings) file_name)
      end;
  _ ← match bulk_data_refunds with
      | [] => mret tt
      | _ =>
          _ ← logger DEBUG BulkInsertingRefunds;
          _ ← emit (BulkCreateRefundTransactions bulk_data_refunds);
          _ ← lift (bulk_create_refund_transactions bulk_data_refunds);
          logger INFO (StoredRefunds (length bulk_data_refunds) file_name)
      end;
  logger INFO Finished.

(** The [try] block of [process_uploaded_files]. *)
Definition process_body (g : Globals)
    (file_content : list Byte.byte) (file_name bank_name transaction_type file_format : string)
    : M unit :=
  r ← extract g file_content file_name bank_name transaction_type file_format;
  match r with
  | None => mret tt
  | Some bulk => persist file_name bulk
  end.

(** [process_uploaded_files]: the file-level handler catches every
    exception, so the task itself always returns. *)
Definition process_uploaded_files (g : Globals)
    (file_content : list Byte.byte) (file_name bank_name transaction_type file_format : string)
    : M unit :=
  try_except
    (process_body g file_content file_name bank_name transaction_type file_format)
    (fun e =>
       Some (_ ← logger ERROR (ErrorProcessingFile file_name e);
             logger DEBUG (FullTraceback e))).

End Tasks.

Arguments clean_column_name {Timestamp} column_name.
Arguments convert_to_int {Timestamp} val.
Arguments logger {Timestamp} lvl msg.

(** ** What the loop computes, as plain functions

    These are the closed forms the lemmas below relate the code to. *)

(** The integer [convert_to_int] returns. *)
Definition to_int (val : pyval) : option Z :=
  match val with
  | VStr s =>
      match PyFloat.float_of_str s with
      | Ret f =>
          match PyFloat.int_of_float f with
          | Ret i => Some i
          | Raise _ => None
          end
      | Raise _ => None
      end
  | _ => None
  end.

(** The entries of the booking dict that can raise, in the order the dict
    literal evaluates them: the two dates and the amount. *)
Definition booking_values {T} (to_datetime : pyval -> py T) (row : Row)
    : py (T * T * spec_float) :=
  transaction_date ← to_datetime (row_get "transaction_date" row);
  credited_date ← to_datetime (row_get "credited_date" row);
  booking_amount ← amount (row_get "booking_amount" row);
  mret (transaction_date, credited_date, booking_amount).

(** Likewise for the refund dict: the refund date, the amount, the debit
    date. *)
Definition refund_values {T} (to_datetime : pyval -> py T) (row : Row)
    : py (T * spec_float * T) :=
  refund_date ← to_datetime (row_get "refund_date" row);
  refund_amount ← amount (row_get "refund_amount" row);
  debited_date ← to_datetime (row_get "debited_date" row);
  mret (refund_date, refund_amount, debited_date).

(** The record a booking row adds to [bulk_data_bookings], if any. *)
Definition booking_record {T} (to_datetime : pyval -> py T) (bank_code : Z) (row : Row)
    : option (Booking.t T) :=
  match booking_values to_datetime row with
  | Raise _ => None
  | Ret (transaction_date, credited_date, a) =>
      let order := to_int (row_get "irctc_order_no" row) in
      let ref := to_int (row_get "bank_booking_ref_no" row) in
      if (truthy order && is_not_none ref)%bool
      then Some (Booking.mk bank_code transaction_date credited_date a order ref)
      else None
  end.

(** The record a refund row adds to [bulk_data_refunds], if any. *)
Definition refund_record {T} (to_datetime : pyval -> py T) (bank_code : Z) (row : Row)
    : option (Refund.t T) :=
  match refund_values to_datetime row with
  | Raise _ => None
  | Ret (refund_date, a, debited_date) =>
      let order := to_int (row_get "irctc_order_no" row) in
      let ref := to_int (row_get "bank_refund_ref_no" row) in
      if (truthy order && is_not_none ref)%bool
      then Some (Refund.mk bank_code refund_date
                   (to_int (row_get "bank_booking_ref_no" row))
                   ref a debited_date order)
      else None
  end.

Definition bookings_of_row {T} (to_datetime : pyval -> py T) (bank_code : Z)
    (transaction_type : string) (row : Row) : list (Booking.t T) :=
  if String.eqb transaction_type "booking"
  then option_list (booking_record to_datetime bank_code row)
  else [].

Definition refunds_of_row {T} (to_datetime : pyval -> py T) (bank_code : Z)
    (transaction_type : string) (row : Row) : list (Refund.t T) :=
  if String.eqb transaction_type "booking" then []
  else if String.eqb transaction_type "refund"
  then option_list (refund_record to_datetime bank_code row)
  else [].

(** The dict [clean_keys] builds: later items override earlier ones. *)
Definition cleaned_mapping (items : list (string * string)) (acc : gmap string string)
    : gmap string string :=
  foldl (fun m kv => <[cleaned_name kv.1 := kv.2]> m) acc items.

(** The rows the loop walks: headers cleaned, then renamed by the schema. *)
Definition normalised_rows (df : DataFrame) (schema : Schema) : list Row :=
  iterrows
    (rename {| columns := map cleaned_name (columns df); data := data df |}
            (cleaned_mapping (column_mapping schema) ∅)).

(** The required columns missing from the table [df], both sides cleaned. *)
Definition missing_from (schema : Schema) (df : DataFrame) : gset string :=
  missing_columns (map cleaned_name (schema_columns schema))
                  (map cleaned_name (columns df)).


(** The bulk-insert calls the two lists lead to: one per non-empty list. *)
Definition calls_for {T} (bulk : list (Booking.t T) * list (Refund.t T)) : list (event T) :=
  match bulk.1 with
  | [] => []
  | _ => [BulkCreateBookingTransactions bulk.1]
  end ++
  match bulk.2 with
  | [] => []
  | _ => [BulkCreateRefundTransactions bulk.2]
  end.

(** The bulk-insert calls recorded in a trace. *)
Definition persistence_calls {T} (tr : list (event T)) : list (event T) :=
  List.filter is_persistence_call tr.

(** The reader the format tag selects returned [table]. *)
Definition reader_returned (read_excel read_csv : list Byte.byte -> py ParsedTable)
    (file_format : string) (file_content : list Byte.byte) (table : ParsedTable) : Prop :=
  (file_format = "excel" /\ read_excel file_content = Ret table) \/
  (file_format = "csv" /\ read_csv file_content = Ret table).

(** The reader the format tag selects returned the table [df], all of whose
    labels are text. *)
Definition read_as (read_excel read_csv : list Byte.byte -> py ParsedTable)
    (file_format : string) (file_content : list Byte.byte) (df : DataFrame) : Prop :=
  reader_returned read_excel read_csv file_format file_content (parsed df).

(** The field names under which the loop converts a date. *)
Definition date_fields : list string :=
  ["transaction_date"; "credited_date"; "refund_date"; "debited_date"].

(** Events that only the row loop and the persistence step produce. *)
Definition is_row_event {T} (ev : event T) : bool :=
  match ev with
  | Log _ (RowBooking _ _) | Log _ (AddingBooking _)
  | Log _ (RowRefund _ _) | Log _ (AddingRefund _)
  | Log _ (MissingKeyInRow _ _ _) | Log _ (UnexpectedRowError _ _ _)
  | Log _ (ErrorConvertingValueToInt _ _) => true
  | _ => false
  end.

Definition is_row_error {T} (ev : event T) : bool :=
  match ev with
  | Log ERROR (MissingKeyInRow _ _ _) | Log ERROR (UnexpectedRowError _ _ _) => true
  | _ => false
  end.

Definition is_guard_event {T} (ev : event T) : bool :=
  match ev with Log _ (BankCodeNotFound _) => true | _ => false end.

(** Nothing past the schema lookup happened: no row was walked, the
    bank-code guard was not reached, nothing was handed to the models. *)
Definition before_rows {T} (ev : event T) : bool :=
  negb (is_row_event ev) && negb (is_guard_event ev) && negb (is_persistence_call ev).

(** ** A small instance, for running the definitions on concrete tables

    Timestamps are kept as the value they were parsed from, and no
    conversion raises; the reader finds a fixed table, with text labels, in
    every file; the models accept every batch. *)
Module Sample.

Definition to_datetime (v : pyval) : py pyval := Ret v.

Definition reads (df : DataFrame) (content : list Byte.byte) : py ParsedTable :=
  Ret (parsed df).

Definition accept {A} (records : list A) : py unit := Ret tt.

Definition booking_row (order ref amt : cell) : Row :=
  [("transaction_date", Str "2024-10-01"); ("irctc_order_no", order);
   ("bank_booking_ref_no", ref); ("booking_amount", amt);
   ("credited_date", NaN)].


(** A booking report as karur_vysya sends it. *)
Definition booking_file : DataFrame := {|
  columns := ["TXN DATE"; "IRCTC ORDER NO."; "BANK BOOKING REF.NO."; "BOOKING AMOUNT";
              "CREDITED ON"];
  data := [[Str "2024-10-01"; Str "12345"; Str "678.0"; NaN; Str "2024-10-03"];
           [Str "2024-10-01"; Str "12346"; Str "679"; Str "150.50"; NaN];
           [Str "2024-10-01"; NaN; Str "680"; Str "10"; NaN]] |}.

(** The same report with the amount and order-number columns missing. *)
Definition short_file : DataFrame := {|
  columns := ["TXN DATE"; "BANK BOOKING REF.NO."; "CREDITED ON"];
  data := [[Str "2024-10-01"; Str "678.0"; Str "2024-10-03"]] |}.

Definition refund_file : DataFrame := {|
  columns := ["REFUND DATE"; "IRCTC ORDER NO."; "BANK BOOKING REF.NO.";
              "BANK REFUND REF.NO."; "REFUND AMOUNT"; "DEBITED ON"];
  data := [[Str "2024-10-02"; Str "12345"; Str "678"; Str "91"; Str "abc"; NaN];
           [Str "2024-10-02"; Str "12346"; Str "679"; Str "92"; Str "20.5"; NaN]] |}.

Definition run (df : DataFrame) (g : Globals) (bank_name transaction_type file_format : string)
    : Py (event pyval) unit :=
  process_uploaded_files to_datetime (reads df) (reads df) accept accept
    g [] "report.csv" bank_name transaction_type file_format.

End Sample.

(** ** More closed forms: numerals, blanks, and what the loop logs *)

(** A text made of decimal digits only. *)
Fixpoint all_digits (s : string) : bool :=
  match s with
  | EmptyString => true
  | String c s' => PyStr.isdigit c && all_digits s'
  end.

(** A text made only of the whitespace [float] strips. *)
Definition float_blank (w : string) : Prop :=
  PyStr.free_of (fun c => negb (PyFloat.isspace_float c)) w.

(** The record a row-level handler writes for the exception [e]. *)
Definition handler_record {T} (index : nat) (row : Row) (e : exn) : event T :=
  match e with
  | KeyError key => Log ERROR (MissingKeyInRow index row key)
  | _ => Log ERROR (UnexpectedRowError index row e)
  end.

(** What [convert_to_int] logs. *)
Definition int_log {T} (val : pyval) : list (event T) :=
  match val with
  | VNone | VNaN => []
  | VSeries _ =>
      [Log ERROR (ErrorConvertingValueToInt val (ValueError TruthValueOfSeriesIsAmbiguous))]
  | VStr s =>
      if String.eqb s "" then []
      else match PyFloat.float_of_str s with
           | Raise e => [Log ERROR (ErrorConvertingValueToInt val e)]
           | Ret f =>
               match PyFloat.int_of_float f with
               | Raise e => [Log ERROR (ErrorConvertingValueToInt val e)]
               | Ret _ => []
               end
           end
  end.

(** What one pass of the loop body logs for a booking row. *)
Definition booking_row_log {T} (to_datetime : pyval -> py T) (bank_code : Z)
    (index : nat) (row : Row) : list (event T) :=
  match booking_values to_datetime row with
  | Raise e => [handler_record index row e]
  | Ret (transaction_date, credited_date, a) =>
      let order := to_int (row_get "irctc_order_no" row) in
      let ref := to_int (row_get "bank_booking_ref_no" row) in
      let d := Booking.mk bank_code transaction_date credited_date a order ref in
      int_log (row_get "irctc_order_no" row)
      ++ int_log (row_get "bank_booking_ref_no" row)
      ++ Log DEBUG (RowBooking index d)
         :: (if (truthy order && is_not_none ref)%bool
             then [Log INFO (AddingBooking d)] else [])
  end.

(** What one pass of the loop body logs for a refund row: the two reference
    numbers are converted between the refund date and the amount.  Once the
    refund date is converted, [refund_values] raises exactly where the amount
    or the debit date does. *)
Definition refund_row_log {T} (to_datetime : pyval -> py T) (bank_code : Z)
    (index : nat) (row : Row) : list (event T) :=
  match to_datetime (row_get "refund_date" row) with
  | Raise e => [handler_record index row e]
  | Ret refund_date =>
      int_log (row_get "bank_booking_ref_no" row)
      ++ int_log (row_get "bank_refund_ref_no" row)
      ++ match refund_values to_datetime row with
         | Raise e => [handler_record index row e]
         | Ret (_, a, debited_date) =>
             let order := to_int (row_get "irctc_order_no" row) in
             let ref := to_int (row_get "bank_refund_ref_no" row) in
             let d := Refund.mk bank_code refund_date
                        (to_int (row_get "bank_booking_ref_no" row))
                        ref a debited_date order in
             int_log (row_get "irctc_order_no" row)
             ++ Log DEBUG (RowRefund index d)
                :: (if (truthy order && is_not_none ref)%bool
                    then [Log INFO (AddingRefund d)] else [])
         end
  end.


Definition row_log {T} (to_datetime : pyval -> py T) (bank_code : Z)
    (transaction_type : string) (index : nat) (row : Row) : list (event T) :=
  if String.eqb transaction_type "booking"
  then booking_row_log to_datetime bank_code index row
  else if String.eqb transaction_type "refund"
  then refund_row_log to_datetime bank_code index row
  else [].

Fixpoint rows_log {T} (to_datetime : pyval -> py T) (bank_code : Z)
    (transaction_type : string) (index : nat) (rows : list Row) : list (event T) :=
  match rows with
  | [] => []
  | row :: rest =>
      row_log to_datetime bank_code transaction_type index row
      ++ rows_log to_datetime bank_code transaction_type (S index) rest
  end.

(** Kinds of log records. *)
Definition is_row_debug {T} (ev : event T) : bool :=
  match ev with
  | Log DEBUG (RowBooking _ _) | Log DEBUG (RowRefund _ _) => true
  | _ => false
  end.

Definition is_adding {T} (ev : event T) : bool :=
  match ev with
  | Log INFO (AddingBooking _) | Log INFO (AddingRefund _) => true
  | _ => false
  end.

(** The records that close an invocation: "Finished", the file-level
    handler's error, the bank-code guard's error. *)
Definition is_finished {T} (ev : event T) : bool :=
  match ev with Log _ Finished => true | _ => false end.

Definition is_file_error {T} (ev : event T) : bool :=
  match ev with Log _ (ErrorProcessingFile _ _) => true | _ => false end.

Definition is_unsupported_format {T} (ev : event T) : bool :=
  match ev with Log _ (UnsupportedFormat _) => true | _ => false end.

(** A record that closes an invocation. *)
Definition is_closing {T} (ev : event T) : bool :=
  is_finished ev || is_file_error ev || is_guard_event ev.

(** The messages [extract] writes outside the reader. *)
Definition extract_stage {T} (msg : log_msg T) : bool :=
  match msg with
  | ReceivedTask _ _ | InitialColumns _ _ | CleanedColumnName _ _ | CleanedColumns _
  | ExpectedColumns _ | MissingColumns _ _ | RenamedColumns _ | BankCodeNotFound _
  | ErrorConvertingValueToInt _ _ | RowBooking _ _ | AddingBooking _
  | RowRefund _ _ | AddingRefund _ | MissingKeyInRow _ _ _ | UnexpectedRowError _ _ _ => true
  | _ => false
  end.

(** The field names the loop reads from a row. *)
Definition read_fields : list string :=
  ["transaction_date"; "credited_date"; "booking_amount"; "irctc_order_no";
   "bank_booking_ref_no"; "refund_date"; "bank_refund_ref_no"; "refund_amount";
   "debited_date"].

Definition is_read_field (key : string) : bool :=
  existsb (String.eqb key) read_fields.

(** A record the emission test lets through. *)
Definition booking_ok {T} (bank_code : Z) (d : Booking.t T) : Prop :=
  Booking.bank_code d = bank_code /\
  (exists o, Booking.irctc_order_no d = Some o /\ o <> 0%Z) /\
  (exists r, Booking.bank_booking_ref_no d = Some r).

Definition refund_ok {T} (bank_code : Z) (d : Refund.t T) : Prop :=
  Refund.bank_code d = bank_code /\
  (exists o, Refund.irctc_order_no d = Some o /\ o <> 0%Z) /\
  (exists r, Refund.bank_refund_ref_no d = Some r).

(** What cleaning a list of labels logs. *)
Definition clean_log {T} (labels : list string) : list (event T) :=
  map (fun s => Log DEBUG (CleanedColumnName s (cleaned_name s))) labels.

(** A table as pandas builds it: every row has one cell per column. *)
Definition well_formed (df : DataFrame) : Prop :=
  Forall (fun cells => length cells = length (columns df)) (data df).

(** The label a column of the file carries when the loop runs: its cleaned
    name, renamed by the schema's mapping where that has it as a key. *)
Definition field_of (schema : Schema) (column : string) : string :=
  default (cleaned_name column)
          (cleaned_mapping (column_mapping schema) ∅ !! cleaned_name column).

(** More sample data: a booking report whose headers are spelled with other
    blanks, dots and underscores and which has a column of its own; tables
    in which karur_vysya has schemas but no bank code. *)
Module Variants.

Definition loose_file : DataFrame := {|
  columns := ["REMARKS"; "TXN_DATE"; " IRCTC ORDER NO"; "BANK.BOOKING.REF.NO";
              "BOOKING  AMOUNT"; "CREDITED ON."];
  data := [[Str "late"; Str "2024-10-01"; Str "12345"; Str "678.0"; Str "10";
            Str "2024-10-03"]] |}.

(** A booking report in which two columns clean to the order-number
    label. *)
Definition twin_file : DataFrame := {|
  columns := ["TXN DATE"; "IRCTC ORDER NO."; "IRCTC_ORDER_NO"; "BANK BOOKING REF.NO.";
              "BOOKING AMOUNT"; "CREDITED ON"];
  data := [[Str "2024-10-01"; Str "12345"; Str "12345"; Str "678.0"; Str "10";
            Str "2024-10-03"]] |}.

(** A sheet whose sixth header cell holds the number 2024: the reader
    keeps it as an [int] label. *)
Definition numeric_header : ParsedTable := {|
  parsed_labels := [Text "TXN DATE"; Text "IRCTC ORDER NO."; Text "BANK BOOKING REF.NO.";
                    Text "BOOKING AMOUNT"; Text "CREDITED ON"; NotText "int"];
  parsed_rows := [[Str "2024-10-01"; Str "12345"; Str "678.0"; Str "10";
                   Str "2024-10-03"; Str "7"]] |}.

(** The same sheet without the amount column. *)
Definition numeric_header_short : ParsedTable := {|
  parsed_labels := [Text "TXN DATE"; Text "IRCTC ORDER NO."; Text "BANK BOOKING REF.NO.";
                    Text "CREDITED ON"; NotText "int"];
  parsed_rows := [[Str "2024-10-01"; Str "12345"; Str "678.0"; Str "2024-10-03";
                   Str "7"]] |}.

(** A reader that finds a fixed table, whatever its labels. *)
Definition finds (table : ParsedTable) (content : list Byte.byte) : py ParsedTable :=
  Ret table.

(** A conversion that reads a clock: the text 'now' becomes what the clock
    shows, every other value is kept. *)
Definition to_datetime_at (clock : string) (v : pyval) : py pyval :=
  match v with
  | VStr s => if String.eqb s "now" then Ret (VStr clock) else Ret v
  | _ => Ret v
  end.

(** A conversion that raises on the [Series] of a duplicated label, as
    pandas does when the cells of the [Series] carry different UTC offsets,
    and keeps every other value. *)
Definition to_datetime_strict (v : pyval) : py pyval :=
  match v with
  | VSeries _ => Raise (ValueError MixedTimezones)
  | _ => Ret v
  end.

(** A booking row with two credit-date cells of different UTC offsets, as a
    file with the columns "CREDITED ON" and "CREDITED_ON" gives. *)
Definition mixed_offsets_row : Row :=
  [("transaction_date", Str "2024-10-01"); ("irctc_order_no", Str "1");
   ("bank_booking_ref_no", Str "2"); ("booking_amount", Str "10");
   ("credited_date", Str "2024-10-03 10:00:00+05:30");
   ("credited_date", Str "2024-10-03 10:00:00+01:00")].

(** A booking report whose credit date is the text 'now'. *)
Definition clock_file : DataFrame := {|
  columns := ["TXN DATE"; "IRCTC ORDER NO."; "BANK BOOKING REF.NO."; "BOOKING AMOUNT";
              "CREDITED ON"];
  data := [[Str "2024-10-01"; Str "12345"; Str "678.0"; Str "10"; Str "now"]] |}.

Definition uncoded : Globals := {|
  BANK_CODE_MAPPING := <["hdfc" := 101%Z]> ∅;
  BANK_MAPPINGS := BANK_MAPPINGS shipped |}.

End Variants.

(** ** [upload/views.py] *)

(** [s.endswith(suffix)] *)
Fixpoint endswith (s suffix : string) : bool :=
  String.eqb s suffix
  || match s with
     | EmptyString => false
     | String _ s' => endswith s' suffix
     end.

Module Views.

(** An uploaded file: its name and what [file.read()] returns. *)
Record UploadedFile : Type := { name : string; content : list Byte.byte }.

(** The request: its method, its POST data (left abstract) and its FILES
    multi-dict. *)
Record HttpRequest (PostData : Type) : Type := {
  method : string;
  POST : PostData;
  FILES : gmap string (list UploadedFile) }.
Arguments method {PostData}.
Arguments POST {PostData}.
Arguments FILES {PostData}.

(** [UploadFileForm()] and [UploadFileForm(request.POST, request.FILES)] *)
Inductive Form (PostData : Type) : Type :=
  | Unbound
  | Bound (data : PostData) (files : gmap string (list UploadedFile)).
Arguments Unbound {PostData}.
Arguments Bound {PostData}.

Inductive HttpResponse (PostData : Type) : Type :=
  | JsonResponse (message : string) (status : Z)
  | render (template : string) (form : Form PostData).
Arguments JsonResponse {PostData}.
Arguments render {PostData}.

(** The arguments of one [process_uploaded_files.delay] call. *)
Record Task : Type := {
  file_content : list Byte.byte;
  file_name : string;
  bank_name : string;
  transaction_type : string;
  file_format : string }.

(** What the view does to the outside: the two [print]s and the enqueued
    task. *)
Inductive view_event : Type :=
  | PrintBytes (b : list Byte.byte)
  | PrintStr (s : string)
  | Delay (task : Task).

Definition is_delay (ev : view_event) : bool :=
  match ev with Delay _ => true | _ => false end.

Definition tasks_of (tr : list view_event) : list Task :=
  omap (fun ev => match ev with Delay t => Some t | _ => None end) tr.

Section View.

(** The form class lives in [forms.py], which is not among the sources:
    [cleaned_data] is [None] where [form.is_valid()] is false and the form's
    [cleaned_data] dict where it is true.  [delay] is the outcome of the
    queue's [delay] call. *)
Context {PostData : Type}.
Variable cleaned_data :
  PostData -> gmap string (list UploadedFile) -> option (gmap string string).
Variable delay : Task -> py unit.

(** [request.FILES.getlist(key)] *)
Definition getlist (files : gmap string (list UploadedFile)) (key : string)
    : list UploadedFile :=
  default [] (files !! key).

(** The task the loop body enqueues for [file]. *)
Definition task_for (bank_name transaction_type : string) (file : UploadedFile) : Task :=
  let file_content := content file in
  let file_name := name file in
  let file_format := if endswith (name file) ".xlsx" then "excel" else "csv" in
  {| file_content := file_content; file_name := file_name; bank_name := bank_name;
     transaction_type := transaction_type; file_format := file_format |}.

(** [for file in files: ...] *)
Fixpoint enqueue_all (bank_name transaction_type : string) (files : list UploadedFile)
    : Py view_event unit :=
  match files with
  | [] => mret tt
  | file :: rest =>
      _ ← emit (PrintBytes (content file));
      _ ← emit (PrintStr (name file));
      let task := task_for bank_name transaction_type file in
      _ ← emit (Delay task);
      _ ← lift (delay task);
      enqueue_all bank_name transaction_type rest
  end.

Definition upload_files (request : HttpRequest PostData)
    : Py view_event (HttpResponse PostData) :=
  if String.eqb (method request) "POST" then
    let form := Bound (POST request) (FILES request) in
    match cleaned_data (POST request) (FILES request) with
    | Some data =>
        bank_name ← lift (getitem data "bank_name");
        transaction_type ← lift (getitem data "transaction_type");
        let files := getlist (FILES request) "file" in
        _ ← enqueue_all bank_name transaction_type files;
        mret (JsonResponse "Files uploaded successfully. Processing started." 202%Z)
    | None => mret (render "upload.html" form)
    end
  else mret (render "upload.html" Unbound).

End View.

(** A sample request with two files under the key 'file', a form that
    accepts every submission, a queue that accepts every task. *)
Definition sample_files : list UploadedFile :=
  [ {| name := "march.xlsx"; content := [] |};
    {| name := "april.csv"; content := [] |} ].

Definition sample_request (m : string) : HttpRequest unit :=
  {| method := m; POST := tt; FILES := {["file" := sample_files]} |}.

Definition sample_form (data : unit) (files : gmap string (list UploadedFile))
    : option (gmap string string) :=
  Some (<["bank_name" := "karur_vysya"]> (<["transaction_type" := "booking"]> ∅)).

Definition accept_task (task : Task) : py unit := Ret tt.

End Views.

(** The sample booking report, end to end: the first row has an empty
    amount cell (read as NaN) and is stored with amount 0.0, the third has no
    order number and is left out. *)
Example booking_file_is_stored :
  persistence_calls
    (trace (Sample.run Sample.booking_file shipped "karur_vysya" "booking" "csv"))
  = [BulkCreateBookingTransactions
       [Booking.mk 40%Z (VStr "2024-10-01") (VStr "2024-10-03") PyFloat.zero
          (Some 12345%Z) (Some 678%Z);
        Booking.mk 40%Z (VStr "2024-10-01") VNaN
          (S754_finite false 5295247999369216 (-45)) (Some 12346%Z) (Some 679%Z)]].
Proof. vm_compute. reflexivity. Qed.

(** In the sample refund report the first row has the amount "abc": it is
    skipped, the second row is stored. *)
Example refund_file_is_stored :
  persistence_calls
    (trace (Sample.run Sample.refund_file shipped "karur_vysya" "refund" "csv"))
  = [BulkCreateRefundTransactions
       [Refund.mk 40%Z (VStr "2024-10-02") (Some 679%Z) (Some 92%Z)
          (S754_finite false 5770237022568448 (-48)) VNaN (Some 12346%Z)]].
Proof. vm_compute. reflexivity. Qed.


(** * Properties *)

(** ** Strings and header cleaning *)

Lemma string_app_nil_l (s : string) : ("" ++ s)%string = s.
Proof. reflexivity. Qed.

Lemma string_app_cons (c : ascii) (s t : string) :
  (String c s ++ t)%string = String c (s ++ t)%string.
Proof. reflexivity. Qed.

(** [String.append] is kept folded by [simpl]; these two equations unfold
    it one constructor at a time. *)
Ltac str_simpl := repeat (rewrite ?string_app_nil_l, ?string_app_cons; simpl).

Lemma string_app_empty_r (s : string) : (s ++ "")%string = s.
Proof. induction s as [|c s IH]; str_simpl; [reflexivity | now rewrite IH]. Qed.

Lemma string_app_assoc (a b c : string) : ((a ++ b) ++ c)%string = (a ++ b ++ c)%string.
Proof. induction a as [|x a IH]; str_simpl; [reflexivity | now rewrite IH]. Qed.

Lemma join_empty_cons (p : string) (ps : list string) :
  PyStr.join "" (p :: ps) = (p ++ PyStr.join "" ps)%string.
Proof.
  destruct ps as [|q ps]; simpl.
  - now rewrite string_app_empty_r.
  - reflexivity.
Qed.

Lemma filter_app (keep : ascii -> bool) (a b : string) :
  PyStr.filter keep (a ++ b)%string = (PyStr.filter keep a ++ PyStr.filter keep b)%string.
Proof.
  induction a as [|c a IH]; str_simpl; [reflexivity|].
  destruct (keep c); str_simpl; now rewrite IH.
Qed.

Lemma filter_filter (p q : ascii -> bool) (s : string) :
  PyStr.filter p (PyStr.filter q s) = PyStr.filter (fun c => q c && p c) s.
Proof.
  induction s as [|c s IH]; simpl; [reflexivity|].
  destruct (q c); simpl; [destruct (p c); simpl|]; now rewrite IH.
Qed.

Lemma filter_ext (p q : ascii -> bool) (s : string) :
  (forall c, p c = q c) -> PyStr.filter p s = PyStr.filter q s.
Proof.
  intros Hpq. induction s as [|c s IH]; simpl; [reflexivity|].
  now rewrite Hpq, IH.
Qed.

(** Joining the words of [split] gives back the text without its
    whitespace; [w] is the word under construction. *)
Lemma join_split_from (s w : string) :
  PyStr.join "" (List.filter PyStr.nonempty (PyStr.split_from w s))
  = (w ++ PyStr.filter (fun c => negb (PyStr.isspace c)) s)%string.
Proof.
  revert w. induction s as [|c s IH]; intros w; simpl.
  - destruct w; simpl; rewrite ?string_app_empty_r; reflexivity.
  - destruct (PyStr.isspace c); simpl.
    + destruct w as [|x w]; [apply IH|].
      cbn [List.filter PyStr.nonempty]. rewrite join_empty_cons. now rewrite IH.
    + rewrite IH, string_app_assoc. reflexivity.
Qed.

Lemma drop_while_free (p : ascii -> bool) (s : string) :
  PyStr.free_of p s -> PyStr.drop_while p s = s.
Proof. destruct s as [|c s]; simpl; [reflexivity|]. now intros [-> _]. Qed.

Lemma rev_onto_free (p : ascii -> bool) (s acc : string) :
  PyStr.free_of p s -> PyStr.free_of p acc -> PyStr.free_of p (PyStr.rev_onto s acc).
Proof.
  revert acc. induction s as [|c s IH]; intros acc; simpl; [easy|].
  intros [Hc Hs] Hacc. apply IH; simpl; auto.
Qed.

Lemma rev_onto_rev_onto (s a b : string) :
  PyStr.rev_onto (PyStr.rev_onto s a) b = PyStr.rev_onto a (s ++ b)%string.
Proof.
  revert a b. induction s as [|c s IH]; intros a b; simpl; [reflexivity|].
  now rewrite IH.
Qed.

Lemma rev_involutive (s : string) : PyStr.rev (PyStr.rev s) = s.
Proof.
  unfold PyStr.rev. rewrite rev_onto_rev_onto. simpl. apply string_app_empty_r.
Qed.

Lemma strip_by_free (p : ascii -> bool) (s : string) :
  PyStr.free_of p s -> PyStr.strip_by p s = s.
Proof.
  intros Hs. unfold PyStr.strip_by, PyStr.lstrip_by, PyStr.rstrip_by.
  rewrite (drop_while_free p s Hs).
  rewrite drop_while_free; [apply rev_involutive|].
  apply rev_onto_free; simpl; auto.
Qed.

Lemma filter_free (p keep : ascii -> bool) (s : string) :
  (forall c, keep c = true -> p c = false) -> PyStr.free_of p (PyStr.filter keep s).
Proof.
  intros Hk. induction s as [|c s IH]; simpl; [exact I|].
  destruct (keep c) eqn:E; simpl; auto.
Qed.

Lemma cleaned_name_is_reference (s : string) : cleaned_name s = clean_reference s.
Proof.
  unfold cleaned_name, clean_reference, PyStr.split, PyStr.strip.
  rewrite join_split_from, string_app_nil_l, filter_filter.
  rewrite strip_by_free.
  - apply filter_ext. intros c. unfold removable.
    destruct (PyStr.isspace c), (is_dot_or_underscore c); reflexivity.
  - apply filter_free. intros c. destruct (PyStr.isspace c); simpl; congruence.
Qed.

Lemma clean_reference_differ (s t : string) :
  differ_only_in_removable s t -> clean_reference s = clean_reference t.
Proof.
  unfold clean_reference.
  induction 1 as [|c s t _ IH|c s t Hc _ IH|c s t Hc _ IH]; simpl.
  - reflexivity.
  - now rewrite IH.
  - now rewrite Hc.
  - now rewrite Hc.
Qed.

(** ** The trace monad *)

Section PyFacts.
Context {E : Type}.

Lemma result_bind {A B} (m : Py E A) (k : A -> Py E B) :
  result (m ≫= k) = match result m with
                     | Ret a => result (k a)
                     | Raise e => Raise e
                     end.
Proof. unfold mbind, Py_bind. now destruct (result m). Qed.

Lemma trace_bind {A B} (m : Py E A) (k : A -> Py E B) :
  trace (m ≫= k) = trace m ++ match result m with
                                | Ret a => trace (k a)
                                | Raise _ => []
                                end.
Proof.
  unfold mbind, Py_bind. destruct (result m); simpl; [reflexivity|].
  now rewrite app_nil_r.
Qed.

Lemma result_try_except {A} (m : Py E A) (h : exn -> option (Py E A)) :
  result (try_except m h) = match result m with
                            | Ret a => Ret a
                            | Raise e => match h e with
                                         | Some r => result r
                                         | None => Raise e
                                         end
                            end.
Proof.
  unfold try_except. destruct (result m) as [a|e] eqn:Em; [exact Em|].
  destruct (h e); [reflexivity | exact Em].
Qed.

Lemma trace_try_except {A} (m : Py E A) (h : exn -> option (Py E A)) :
  trace (try_except m h) = trace m ++ match result m with
                                      | Ret _ => []
                                      | Raise e => match h e with
                                                   | Some r => trace r
                                                   | None => []
                                                   end
                                      end.
Proof.
  unfold try_except. destruct (result m) as [a|e]; [now rewrite app_nil_r|].
  destruct (h e); simpl; [reflexivity | now rewrite app_nil_r].
Qed.

(** A property of every event is kept by sequencing. *)
Lemma Forall_trace_bind {A B} (P : E -> Prop) (m : Py E A) (k : A -> Py E B) :
  Forall P (trace m) ->
  (forall a, result m = Ret a -> Forall P (trace (k a))) ->
  Forall P (trace (m ≫= k)).
Proof.
  intros Hm Hk. rewrite trace_bind. apply Forall_app. split; [exact Hm|].
  destruct (result m) as [a|e]; [now apply Hk | constructor].
Qed.

(** The same for a computation known to raise: only the part that ran
    matters. *)
Lemma Forall_trace_bind_raised {A B} (P : E -> Prop) (m : Py E A) (k : A -> Py E B)
    (e : exn) :
  Forall P (trace m) ->
  (forall a, result m = Ret a -> result (k a) = Raise e -> Forall P (trace (k a))) ->
  result (m ≫= k) = Raise e -> Forall P (trace (m ≫= k)).
Proof.
  intros Hm Hk. rewrite result_bind, trace_bind. intros Hr.
  apply Forall_app. split; [exact Hm|].
  destruct (result m) as [a|e']; [now apply Hk | constructor].
Qed.

Lemma Forall_trace_mapM {A B} (P : E -> Prop) (f : A -> Py E B) (l : list A) :
  (forall a, Forall P (trace (f a))) -> Forall P (trace (mapM f l)).
Proof.
  intros Hf. induction l as [|a l IH]; simpl; [constructor|].
  apply Forall_trace_bind; [apply Hf|]. intros b _.
  apply Forall_trace_bind; [exact IH|]. intros bs _. constructor.
Qed.

End PyFacts.

Ltac py_simpl :=
  repeat (rewrite ?result_bind, ?trace_bind, ?result_try_except, ?trace_try_except; simpl).

Lemma result_emit {E} (ev : E) : result (emit ev) = Ret tt.
Proof. reflexivity. Qed.

Lemma result_lift {E A} (m : py A) : result (lift (E:=E) m) = m.
Proof. reflexivity. Qed.

Lemma result_raise {E A} (e : exn) : result (raise (E:=E) (A:=A) e) = Raise e.
Proof. reflexivity. Qed.

Lemma result_mret {E A} (a : A) : result (mret (M:=Py E) a) = Ret a.
Proof. reflexivity. Qed.

(** Step through the binds at the head of a [result], without unfolding
    anything else. *)
Ltac py_step :=
  rewrite ?result_bind, ?result_emit, ?result_lift, ?result_raise, ?result_mret;
  cbv beta iota zeta.
Ltac py_steps := unfold logger; repeat progress py_step.

(** ** The built-in conversions *)

Lemma float_of_str_raises (s : string) (e : exn) :
  PyFloat.float_of_str s = Raise e -> e = ValueError (CouldNotConvertStringToFloat s).
Proof.
  unfold PyFloat.float_of_str.
  destruct (_ ≫= _); intros H; [discriminate | now inversion H].
Qed.

Lemma int_of_float_raises (x : spec_float) (e : exn) :
  PyFloat.int_of_float x = Raise e -> catches_value_or_overflow e = true.
Proof. destruct x; simpl; intros H; inversion H; reflexivity. Qed.

(** [int] truncates towards zero: the integer part of [m * 2^e], with the
    sign put back. *)
Lemma int_of_float_truncates (neg : bool) (m : positive) (e : Z) :
  PyFloat.int_of_float (S754_finite neg m e)
  = Ret (Z.quot (cond_Zopp neg (Z.pos m) * 2 ^ Z.max e 0) (2 ^ Z.max (- e) 0)).
Proof.
  unfold PyFloat.int_of_float. f_equal.
  assert (Hq : forall a b : Z, (b <> 0)%Z ->
            Z.quot (cond_Zopp neg a) b = cond_Zopp neg (Z.quot a b)).
  { intros a b Hb. destruct neg; cbn [cond_Zopp]; [now apply Z.quot_opp_l | reflexivity]. }
  assert (Hm : forall a b : Z, (cond_Zopp neg a * b = cond_Zopp neg (a * b))%Z).
  { intros a b. destruct neg; cbn [cond_Zopp]; lia. }
  assert (Hc : forall a : Z, (if neg then - a else a)%Z = cond_Zopp neg a).
  { intros a. now destruct neg. }
  rewrite Hc.
  destruct e as [|k|k].
  - change (Z.max 0 0) with 0%Z. change (Z.max (- 0) 0) with 0%Z.
    change (2 ^ 0)%Z with 1%Z. rewrite Z.quot_1_r, Z.mul_1_r, Z.shiftl_0_r.
    reflexivity.
  - rewrite Z.max_l by lia. rewrite (Z.max_r (- Z.pos k) 0) by lia.
    change (2 ^ 0)%Z with 1%Z. rewrite Z.quot_1_r, Hm, Z.shiftl_mul_pow2 by lia.
    reflexivity.
  - rewrite Z.max_r by lia. rewrite (Z.max_l (- Z.neg k) 0) by lia.
    change (2 ^ 0)%Z with 1%Z. rewrite Z.mul_1_r.
    assert (H2 : (0 < 2 ^ (- Z.neg k))%Z) by (apply Z.pow_pos_nonneg; lia).
    rewrite Hq by lia. rewrite Z.shiftr_div_pow2 by lia.
    rewrite Z.quot_div_nonneg by lia.
    reflexivity.
Qed.

(** ** [convert_to_int] *)

Lemma convert_to_int_result {T} (val : pyval) :
  result (@convert_to_int T val) = Ret (to_int val).
Proof.
  unfold convert_to_int. rewrite result_try_except.
  destruct val as [| |s|cs]; try reflexivity.
  py_simpl. unfold to_int.
  destruct (String.eqb_spec s "") as [->|Hs]; [reflexivity|].
  simpl. destruct (PyFloat.float_of_str s) as [f|e] eqn:Ef; simpl.
  - destruct (PyFloat.int_of_float f) as [i|e] eqn:Ei; simpl; [reflexivity|].
    now rewrite (int_of_float_raises _ _ Ei).
  - now rewrite (float_of_str_raises _ _ Ef).
Qed.

(** ** The row loop *)

Section RowFacts.
Context {T : Type} (to_datetime : pyval -> py T).

Lemma booking_data_result (bank_code : Z) (row : Row) :
  result (booking_data to_datetime bank_code row)
  = match booking_values to_datetime row with
    | Ret (transaction_date, credited_date, a) =>
        Ret (Booking.mk bank_code transaction_date credited_date a
               (to_int (row_get "irctc_order_no" row))
               (to_int (row_get "bank_booking_ref_no" row)))
    | Raise e => Raise e
    end.
Proof.
  unfold booking_data, booking_values.
  rewrite result_bind, result_lift.
  destruct (to_datetime (row_get "transaction_date" row)) as [td|e];
    cbn [mbind py_bind]; [|reflexivity].
  rewrite result_bind, result_lift.
  destruct (to_datetime (row_get "credited_date" row)) as [cd|e];
    cbn [mbind py_bind]; [|reflexivity].
  rewrite result_bind, result_lift.
  destruct (amount _) as [a|e]; cbn [mbind py_bind]; [|reflexivity].
  now rewrite result_bind, convert_to_int_result, result_bind, convert_to_int_result.
Qed.

Lemma refund_data_result (bank_code : Z) (row : Row) :
  result (refund_data to_datetime bank_code row)
  = match refund_values to_datetime row with
    | Ret (refund_date, a, debited_date) =>
        Ret (Refund.mk bank_code refund_date
               (to_int (row_get "bank_booking_ref_no" row))
               (to_int (row_get "bank_refund_ref_no" row))
               a debited_date
               (to_int (row_get "irctc_order_no" row)))
    | Raise e => Raise e
    end.
Proof.
  unfold refund_data, refund_values.
  rewrite result_bind, result_lift.
  destruct (to_datetime (row_get "refund_date" row)) as [rd|e];
    cbn [mbind py_bind]; [|reflexivity].
  rewrite result_bind, convert_to_int_result, result_bind, convert_to_int_result.
  rewrite result_bind, result_lift.
  destruct (amount _) as [a|e]; cbn [mbind py_bind]; [|reflexivity].
  rewrite result_bind, result_lift.
  destruct (to_datetime (row_get "debited_date" row)) as [dd|e];
    cbn [mbind py_bind]; [|reflexivity].
  now rewrite result_bind, convert_to_int_result.
Qed.

(** One pass of the loop body never raises, and appends to the two lists
    exactly the records of its own row. *)
Lemma process_row_result (bank_code : Z) (transaction_type : string)
    (bulk : Bulk) (index : nat) (row : Row) :
  result (process_row to_datetime bank_code transaction_type bulk index row)
  = Ret (bulk.1 ++ bookings_of_row to_datetime bank_code transaction_type row,
         bulk.2 ++ refunds_of_row to_datetime bank_code transaction_type row).
Proof.
  destruct bulk as [bs rs].
  unfold process_row, bookings_of_row, refunds_of_row, booking_record, refund_record.
  rewrite result_try_except.
  destruct (String.eqb transaction_type "booking").
  - rewrite result_bind, booking_data_result.
    destruct (booking_values _ _) as [[[td cd] a]|e]; simpl.
    + destruct (truthy _ && is_not_none _)%bool; simpl; now rewrite ?app_nil_r.
    + destruct e; simpl; now rewrite !app_nil_r.
  - destruct (String.eqb transaction_type "refund").
    + rewrite result_bind, refund_data_result.
      destruct (refund_values _ _) as [[[rd a] dd]|e]; simpl.
      * destruct (truthy _ && is_not_none _)%bool; simpl; now rewrite ?app_nil_r.
      * destruct e; simpl; now rewrite !app_nil_r.
    + simpl. now rewrite !app_nil_r.
Qed.

Lemma process_rows_result (bank_code : Z) (transaction_type : string)
    (rows : list Row) (bulk : Bulk) (index : nat) :
  result (process_rows to_datetime bank_code transaction_type bulk index rows)
  = Ret (bulk.1 ++ flat_map (bookings_of_row to_datetime bank_code transaction_type) rows,
         bulk.2 ++ flat_map (refunds_of_row to_datetime bank_code transaction_type) rows).
Proof.
  revert bulk index. induction rows as [|row rows IH]; intros bulk index; simpl.
  - rewrite !app_nil_r. now destruct bulk.
  - rewrite result_bind, process_row_result, IH. simpl.
    now rewrite <- !app_assoc.
Qed.


(** A row one of whose entries raises leaves the handler's error record
    with its index, and the two lists as they were. *)
Lemma trace_process_row_refund_rejected (bank_code : Z) (bulk : Bulk) (index : nat)
    (row : Row) (e : exn) :
  refund_values to_datetime row = Raise e ->
  In (handler_record index row e)
     (trace (process_row to_datetime bank_code "refund" bulk index row)).
Proof.
  intros Ha. unfold process_row. simpl.
  rewrite trace_try_except, result_bind, refund_data_result, Ha.
  apply in_or_app. right.
  destruct e; now left.
Qed.

Lemma trace_process_row_booking_rejected (bank_code : Z) (bulk : Bulk) (index : nat)
    (row : Row) (e : exn) :
  booking_values to_datetime row = Raise e ->
  In (handler_record index row e)
     (trace (process_row to_datetime bank_code "booking" bulk index row)).
Proof.
  intros Ha. unfold process_row. simpl.
  rewrite trace_try_except, result_bind, booking_data_result, Ha.
  apply in_or_app. right.
  destruct e; now left.
Qed.

(** The entries that can raise, when the date conversions return. *)
Lemma booking_values_returned (row : Row) (td cd : T) :
  to_datetime (row_get "transaction_date" row) = Ret td ->
  to_datetime (row_get "credited_date" row) = Ret cd ->
  booking_values to_datetime row
  = match amount (row_get "booking_amount" row) with
    | Ret a => Ret (td, cd, a)
    | Raise e => Raise e
    end.
Proof. intros Htd Hcd. unfold booking_values. now rewrite Htd, Hcd. Qed.

Lemma refund_values_returned (row : Row) (rd dd : T) :
  to_datetime (row_get "refund_date" row) = Ret rd ->
  to_datetime (row_get "debited_date" row) = Ret dd ->
  refund_values to_datetime row
  = match amount (row_get "refund_amount" row) with
    | Ret a => Ret (rd, a, dd)
    | Raise e => Raise e
    end.
Proof.
  intros Hrd Hdd. unfold refund_values. rewrite Hrd. cbn [mbind py_bind].
  destruct (amount _); cbn [mbind py_bind]; [now rewrite Hdd | reflexivity].
Qed.

End RowFacts.

(** [amount] raises nothing but [ValueError] on what a row can hold. *)
Lemma amount_raises (x : pyval) (e : exn) :
  amount x = Raise e -> exists why, e = ValueError why.
Proof.
  destruct x as [| |s|cs]; simpl; try discriminate.
  - unfold amount; simpl. intros H. apply float_of_str_raises in H. eauto.
  - intros H. inversion H. eauto.
Qed.

(** ** The file level *)

Lemma map_Text_inj (a b : list string) : map Text a = map Text b -> a = b.
Proof.
  revert b. induction a as [|x a IH]; intros [|y b] H; try discriminate; [reflexivity|].
  simpl in H. inversion H. f_equal. now apply IH.
Qed.

Lemma parsed_inj (df df' : DataFrame) : parsed df = parsed df' -> df = df'.
Proof.
  destruct df as [cols rows], df' as [cols' rows']. unfold parsed. simpl.
  intros H. inversion H as [[Hc Hd]]. f_equal. now apply map_Text_inj.
Qed.

Section FileFacts.
Context {T : Type} (to_datetime : pyval -> py T).
Variable read_excel read_csv : list Byte.byte -> py ParsedTable.

Abbreviation only_logs P := (forall lvl (msg : log_msg T), P (Log lvl msg)).

(** [P] holds of every log record that is neither about a row nor the
    bank-code guard. *)
Abbreviation file_logs P :=
  (forall lvl (msg : log_msg T),
     is_row_event (Log lvl msg) = false -> is_guard_event (Log lvl msg) = false ->
     P (Log lvl msg)).

Lemma result_clean_column_name (s : string) :
  result (@clean_column_name T s) = Ret (cleaned_name s).
Proof. reflexivity. Qed.

Lemma result_mapM_clean (l : list string) :
  result (mapM (@clean_column_name T) l) = Ret (map cleaned_name l).
Proof.
  induction l as [|s l IH]; simpl; [reflexivity|].
  now rewrite result_bind, IH.
Qed.

Lemma result_clean_keys (items : list (string * string)) (acc : gmap string string) :
  result (@clean_keys T items acc) = Ret (cleaned_mapping items acc).
Proof.
  revert acc. induction items as [|[k v] items IH]; intros acc; simpl; [reflexivity|].
  rewrite ?result_bind; simpl. apply IH.
Qed.

Lemma result_read_file (file_format : string) (file_content : list Byte.byte)
    (table : ParsedTable) :
  reader_returned read_excel read_csv file_format file_content table ->
  result (@read_file T read_excel read_csv file_content file_format) = Ret table.
Proof.
  unfold read_file. intros [[-> H]|[-> H]]; py_simpl; exact H.
Qed.

Lemma trace_read_file (file_format : string) (file_content : list Byte.byte)
    (table : ParsedTable) :
  reader_returned read_excel read_csv file_format file_content table ->
  trace (@read_file T read_excel read_csv file_content file_format)
  = [Log DEBUG (if String.eqb file_format "excel" then ReadingExcel else ReadingCsv)].
Proof.
  unfold read_file. intros [[-> H]|[-> H]]; reflexivity.
Qed.

(** Line 83 on the labels of a table. *)
Lemma text_labels_parsed (cols : list string) : text_labels (map Text cols) = Ret cols.
Proof.
  induction cols as [|c cols IH]; simpl; [reflexivity|]. now rewrite IH.
Qed.

Lemma text_labels_inv (ls : list label) (cols : list string) :
  text_labels ls = Ret cols -> ls = map Text cols.
Proof.
  revert cols. induction ls as [|[s|n] ls IH]; intros cols; simpl.
  - intros H. now inversion H.
  - destruct (text_labels ls) as [texts|e]; simpl; [|discriminate].
    intros H. inversion H. now rewrite (IH texts).
  - discriminate.
Qed.

Lemma text_labels_raises (ls : list label) (e : exn) :
  text_labels ls = Raise e -> e = TypeError /\ forallb is_text ls = false.
Proof.
  induction ls as [|[s|n] ls IH]; simpl.
  - discriminate.
  - destruct (text_labels ls) as [texts|e']; simpl; [discriminate|].
    intros H. inversion H. subst e'. now apply IH.
  - intros H. now inversion H.
Qed.

Lemma text_labels_not_text (ls : list label) :
  forallb is_text ls = false -> text_labels ls = Raise TypeError.
Proof.
  intros H. destruct (text_labels ls) as [cols|e] eqn:E.
  - apply text_labels_inv in E. subst ls. exfalso.
    induction cols as [|c cols IH]; simpl in H; [discriminate | auto].
  - now destruct (text_labels_raises _ _ E) as [-> _].
Qed.

(** A table all of whose labels are text is the image of a [DataFrame]. *)
Lemma table_cases (table : ParsedTable) :
  (exists df, table = parsed df) \/ forallb is_text (parsed_labels table) = false.
Proof.
  destruct (text_labels (parsed_labels table)) as [cols|e] eqn:E.
  - left. exists {| columns := cols; data := parsed_rows table |}.
    apply text_labels_inv in E. destruct table as [ls rows]. simpl in *. now subst ls.
  - right. now destruct (text_labels_raises _ _ E).
Qed.

(** [P] holds of every log record but the two a row-level handler writes. *)
Abbreviation calm_logs P :=
  (forall lvl (msg : log_msg T), is_row_error (Log lvl msg) = false -> P (Log lvl msg)).

(** Everything [extract] leaves in the trace is a log record. *)
Lemma trace_clean_column_name_logs (P : event T -> Prop) (s : string) :
  file_logs P -> Forall P (trace (@clean_column_name T s)).
Proof. intros HP. simpl. repeat constructor. now apply HP. Qed.

Lemma trace_clean_keys_logs (P : event T -> Prop)
    (items : list (string * string)) (acc : gmap string string) :
  file_logs P -> Forall P (trace (@clean_keys T items acc)).
Proof.
  intros HP. revert acc. induction items as [|[k v] items IH]; intros acc; simpl.
  - constructor.
  - constructor; [now apply HP | apply IH].
Qed.

Lemma trace_read_file_logs (P : event T -> Prop)
    (file_content : list Byte.byte) (file_format : string) :
  file_logs P ->
  Forall P (trace (@read_file T read_excel read_csv file_content file_format)).
Proof.
  intros HP. unfold read_file.
  destruct (String.eqb file_format "excel"); [|destruct (String.eqb file_format "csv")];
    (apply Forall_trace_bind; [repeat constructor; now apply HP | intros; constructor]).
Qed.

Lemma trace_convert_to_int_logs (P : event T -> Prop) (val : pyval) :
  calm_logs P -> Forall P (trace (@convert_to_int T val)).
Proof.
  intros HP. unfold convert_to_int. rewrite trace_try_except.
  apply Forall_app. split.
  - apply Forall_trace_bind; [constructor|]. intros na _.
    destruct (na || is_empty_str val)%bool; [constructor|].
    apply Forall_trace_bind; [constructor|]. intros f _.
    apply Forall_trace_bind; [constructor|]. intros i _. constructor.
  - destruct (result _) as [r|e]; [constructor|].
    destruct (catches_value_or_overflow e); [|constructor].
    simpl. repeat constructor. now apply HP.
Qed.

Lemma trace_booking_data_logs (P : event T -> Prop) (bank_code : Z) (row : Row) :
  calm_logs P -> Forall P (trace (booking_data to_datetime bank_code row)).
Proof.
  intros HP. unfold booking_data.
  apply Forall_trace_bind; [constructor|]. intros td _.
  apply Forall_trace_bind; [constructor|]. intros cd _.
  apply Forall_trace_bind; [constructor|]. intros a _.
  apply Forall_trace_bind; [now apply trace_convert_to_int_logs|]. intros o _.
  apply Forall_trace_bind; [now apply trace_convert_to_int_logs|]. intros r _.
  constructor.
Qed.

Lemma trace_refund_data_logs (P : event T -> Prop) (bank_code : Z) (row : Row) :
  calm_logs P -> Forall P (trace (refund_data to_datetime bank_code row)).
Proof.
  intros HP. unfold refund_data.
  apply Forall_trace_bind; [constructor|]. intros rd _.
  apply Forall_trace_bind; [now apply trace_convert_to_int_logs|]. intros b _.
  apply Forall_trace_bind; [now apply trace_convert_to_int_logs|]. intros r _.
  apply Forall_trace_bind; [constructor|]. intros a _.
  apply Forall_trace_bind; [constructor|]. intros dd _.
  apply Forall_trace_bind; [now apply trace_convert_to_int_logs|]. intros o _.
  constructor.
Qed.

Lemma trace_process_row_logs (P : event T -> Prop) (bank_code : Z)
    (transaction_type : string) (bulk : Bulk) (index : nat) (row : Row) :
  only_logs P ->
  Forall P (trace (process_row to_datetime bank_code transaction_type bulk index row)).
Proof.
  intros HP. assert (HP' : calm_logs P) by (intros; apply HP).
  unfold process_row. rewrite trace_try_except.
  apply Forall_app. split.
  - destruct (String.eqb transaction_type "booking");
      [|destruct (String.eqb transaction_type "refund")].
    + apply Forall_trace_bind; [now apply trace_booking_data_logs|]. intros d _.
      apply Forall_trace_bind; [repeat constructor; apply HP|]. intros _ _.
      destruct (_ && _)%bool; [|constructor].
      apply Forall_trace_bind; [repeat constructor; apply HP | intros; constructor].
    + apply Forall_trace_bind; [now apply trace_refund_data_logs|]. intros d _.
      apply Forall_trace_bind; [repeat constructor; apply HP|]. intros _ _.
      destruct (_ && _)%bool; [|constructor].
      apply Forall_trace_bind; [repeat constructor; apply HP | intros; constructor].
    + constructor.
  - destruct (result _) as [r|e]; [constructor|].
    destruct e; simpl; repeat constructor; apply HP.
Qed.

Lemma trace_process_rows_logs (P : event T -> Prop) (bank_code : Z)
    (transaction_type : string) (rows : list Row) (bulk : Bulk) (index : nat) :
  only_logs P ->
  Forall P (trace (process_rows to_datetime bank_code transaction_type bulk index rows)).
Proof.
  intros HP. revert bulk index.
  induction rows as [|row rows IH]; intros bulk index; simpl; [constructor|].
  apply Forall_trace_bind; [now apply trace_process_row_logs|].
  intros bulk' _. apply IH.
Qed.

(** The trace of [extract]: under [file_logs P] up to the point where the
    bank code is looked up, under [only_logs P] throughout. *)
Lemma trace_extract_logs (P : event T -> Prop) (g : Globals)
    (file_content : list Byte.byte) (file_name bank_name transaction_type file_format : string) :
  only_logs P ->
  Forall P (trace (extract to_datetime read_excel read_csv g file_content file_name
                     bank_name transaction_type file_format)).
Proof.
  intros HP. assert (HP' : file_logs P) by (intros; apply HP). unfold extract.
  apply Forall_trace_bind; [repeat constructor; apply HP|]. intros _ _.
  apply Forall_trace_bind; [now apply trace_read_file_logs|]. intros table _.
  apply Forall_trace_bind; [constructor|]. intros initial _.
  apply Forall_trace_bind; [repeat constructor; apply HP|]. intros _ _.
  apply Forall_trace_bind;
    [apply Forall_trace_mapM; intros; now apply trace_clean_column_name_logs|].
  intros cleaned _.
  apply Forall_trace_bind; [repeat constructor; apply HP|]. intros _ _.
  apply Forall_trace_bind; [constructor|]. intros schema _.
  apply Forall_trace_bind;
    [apply Forall_trace_mapM; intros; now apply trace_clean_column_name_logs|].
  intros expected _.
  apply Forall_trace_bind; [repeat constructor; apply HP|]. intros _ _.
  case_decide.
  - apply Forall_trace_bind; [constructor|]. intros schema' _.
    apply Forall_trace_bind; [now apply trace_clean_keys_logs|]. intros mapping _.
    apply Forall_trace_bind; [repeat constructor; apply HP|]. intros _ _.
    destruct (BANK_CODE_MAPPING g !! bank_name) as [bank_code|].
    + apply Forall_trace_bind; [now apply trace_process_rows_logs | intros; constructor].
    + apply Forall_trace_bind; [repeat constructor; apply HP | intros; constructor].
  - apply Forall_trace_bind; [repeat constructor; apply HP | intros; constructor].
Qed.

Lemma trace_extract_raised (P : event T -> Prop) (g : Globals)
    (file_content : list Byte.byte) (file_name bank_name transaction_type file_format : string)
    (e : exn) :
  file_logs P ->
  result (extract to_datetime read_excel read_csv g file_content file_name
            bank_name transaction_type file_format) = Raise e ->
  Forall P (trace (extract to_datetime read_excel read_csv g file_content file_name
                     bank_name transaction_type file_format)).
Proof.
  intros HP. unfold extract.
  apply Forall_trace_bind_raised; [repeat constructor; now apply HP|]. intros _ _.
  apply Forall_trace_bind_raised; [now apply trace_read_file_logs|]. intros table _.
  apply Forall_trace_bind_raised; [constructor|]. intros initial _.
  apply Forall_trace_bind_raised; [repeat constructor; now apply HP|]. intros _ _.
  apply Forall_trace_bind_raised;
    [apply Forall_trace_mapM; intros; now apply trace_clean_column_name_logs|].
  intros cleaned _.
  apply Forall_trace_bind_raised; [repeat constructor; now apply HP|]. intros _ _.
  apply Forall_trace_bind_raised; [constructor|]. intros schema _.
  apply Forall_trace_bind_raised;
    [apply Forall_trace_mapM; intros; now apply trace_clean_column_name_logs|].
  intros expected _.
  apply Forall_trace_bind_raised; [repeat constructor; now apply HP|]. intros _ _.
  case_decide.
  - apply Forall_trace_bind_raised; [constructor|]. intros schema' _.
    apply Forall_trace_bind_raised; [now apply trace_clean_keys_logs|]. intros mapping _.
    apply Forall_trace_bind_raised; [repeat constructor; now apply HP|]. intros _ _.
    destruct (BANK_CODE_MAPPING g !! bank_name) as [bank_code|].
    + rewrite result_bind, process_rows_result. discriminate.
    + rewrite result_bind. discriminate.
  - intros _. apply Forall_trace_bind; [repeat constructor; now apply HP | intros; constructor].
Qed.

Lemma result_read_file_inv (file_format : string) (file_content : list Byte.byte)
    (table : ParsedTable) :
  result (@read_file T read_excel read_csv file_content file_format) = Ret table ->
  reader_returned read_excel read_csv file_format file_content table.
Proof.
  unfold read_file, reader_returned.
  destruct (String.eqb_spec file_format "excel") as [->|_].
  - rewrite result_bind. simpl. auto.
  - destruct (String.eqb_spec file_format "csv") as [->|_].
    + rewrite result_bind. simpl. auto.
    + rewrite result_bind. simpl. discriminate.
Qed.

(** What [extract] returns once the file has been read. *)
Lemma extract_result (g : Globals) (file_content : list Byte.byte)
    (file_name bank_name transaction_type file_format : string) (df : DataFrame) :
  read_as read_excel read_csv file_format file_content df ->
  result (extract to_datetime read_excel read_csv g file_content file_name
            bank_name transaction_type file_format)
  = match lookup_schema g bank_name transaction_type with
    | Raise e => Raise e
    | Ret schema =>
        if decide (missing_from schema df = ∅) then
          match BANK_CODE_MAPPING g !! bank_name with
          | None => Ret None
          | Some bank_code =>
              Ret (Some
                (flat_map (bookings_of_row to_datetime bank_code transaction_type)
                          (normalised_rows df schema),
                 flat_map (refunds_of_row to_datetime bank_code transaction_type)
                          (normalised_rows df schema)))
          end
        else Raise (ValueError
                      (MissingColumnsAfterCleaning (elements (missing_from schema df))))
    end.
Proof.
  intros Hread. unfold extract. py_steps.
  rewrite (result_read_file _ _ _ Hread). py_steps.
  cbn [parsed parsed_labels parsed_rows]. rewrite text_labels_parsed. py_steps.
  rewrite result_mapM_clean. py_steps.
  destruct (lookup_schema g bank_name transaction_type) as [schema|e]; [|reflexivity].
  py_steps. rewrite result_mapM_clean. py_steps.
  unfold missing_from. cbn [columns data]. case_decide; [|now py_steps].
  py_steps. rewrite result_clean_keys. py_steps.
  destruct (BANK_CODE_MAPPING g !! bank_name) as [bank_code|].
  - py_steps. rewrite process_rows_result. reflexivity.
  - now py_steps.
Qed.

(** A read that fails is the failure of [extract]. *)
Lemma extract_read_raised (g : Globals) (file_content : list Byte.byte)
    (file_name bank_name transaction_type file_format : string) (e : exn) :
  result (@read_file T read_excel read_csv file_content file_format) = Raise e ->
  result (extract to_datetime read_excel read_csv g file_content file_name
            bank_name transaction_type file_format) = Raise e.
Proof.
  intros H. unfold extract. py_steps. now rewrite H.
Qed.

(** A table with a label that is not text fails at line 83, with nothing
    logged after the reader's line. *)
Lemma extract_not_text (g : Globals) (file_content : list Byte.byte)
    (file_name bank_name transaction_type file_format : string) (table : ParsedTable) :
  reader_returned read_excel read_csv file_format file_content table ->
  forallb is_text (parsed_labels table) = false ->
  result (extract to_datetime read_excel read_csv g file_content file_name
            bank_name transaction_type file_format) = Raise TypeError /\
  trace (extract to_datetime read_excel read_csv g file_content file_name
           bank_name transaction_type file_format)
  = [Log INFO (ReceivedTask file_name transaction_type);
     Log DEBUG (if String.eqb file_format "excel" then ReadingExcel else ReadingCsv)].
Proof.
  intros Hread Hl. unfold extract. split.
  - py_steps. rewrite (result_read_file _ _ _ Hread). py_steps.
    now rewrite (text_labels_not_text _ Hl).
  - rewrite trace_bind. unfold logger at 1. cbn [emit trace result app].
    rewrite trace_bind, (result_read_file _ _ _ Hread), (trace_read_file _ _ _ Hread).
    rewrite trace_bind, result_lift, (text_labels_not_text _ Hl). reflexivity.
Qed.

(** What [extract] returns, in every case. *)
Lemma extract_result_full (g : Globals) (file_content : list Byte.byte)
    (file_name bank_name transaction_type file_format : string) :
  result (extract to_datetime read_excel read_csv g file_content file_name
            bank_name transaction_type file_format)
  = match result (@read_file T read_excel read_csv file_content file_format) with
    | Raise e => Raise e
    | Ret table =>
        match text_labels (parsed_labels table) with
        | Raise e => Raise e
        | Ret cols =>
            let df := {| columns := cols; data := parsed_rows table |} in
            match lookup_schema g bank_name transaction_type with
            | Raise e => Raise e
            | Ret schema =>
                if decide (missing_from schema df = ∅) then
                  match BANK_CODE_MAPPING g !! bank_name with
                  | None => Ret None
                  | Some bank_code =>
                      Ret (Some
                        (flat_map (bookings_of_row to_datetime bank_code transaction_type)
                                  (normalised_rows df schema),
                         flat_map (refunds_of_row to_datetime bank_code transaction_type)
                                  (normalised_rows df schema)))
                  end
                else Raise (ValueError
                              (MissingColumnsAfterCleaning
                                 (elements (missing_from schema df))))
            end
        end
    end.
Proof.
  destruct (result (@read_file T read_excel read_csv file_content file_format))
    as [table|e] eqn:Hread.
  - pose proof (result_read_file_inv _ _ _ Hread) as Hr.
    destruct (text_labels (parsed_labels table)) as [cols|e] eqn:Hl.
    + apply text_labels_inv in Hl.
      assert (Ht : table = parsed {| columns := cols; data := parsed_rows table |})
        by (destruct table; simpl in *; now subst).
      rewrite Ht in Hr. now rewrite (extract_result _ _ _ _ _ _ _ Hr).
    + destruct (text_labels_raises _ _ Hl) as [-> Hf].
      now destruct (extract_not_text g _ file_name bank_name transaction_type _ _ Hr Hf).
  - unfold extract. py_steps. now rewrite Hread.
Qed.

(** How [extract] can go: the reader returned a table with text labels, or
    [extract] raised with nothing past line 83 done. *)
Lemma extract_cases (g : Globals) (file_content : list Byte.byte)
    (file_name bank_name transaction_type file_format : string) :
  (exists df, read_as read_excel read_csv file_format file_content df) \/
  (exists e,
     result (extract to_datetime read_excel read_csv g file_content file_name
               bank_name transaction_type file_format) = Raise e /\
     trace (extract to_datetime read_excel read_csv g file_content file_name
              bank_name transaction_type file_format)
     = Log INFO (ReceivedTask file_name transaction_type)
       :: trace (@read_file T read_excel read_csv file_content file_format)).
Proof.
  destruct (result (@read_file T read_excel read_csv file_content file_format))
    as [table|e] eqn:Hread.
  - pose proof (result_read_file_inv _ _ _ Hread) as Hr.
    destruct (table_cases table) as [[df ->]|Hl].
    + left. now exists df.
    + right. exists TypeError.
      destruct (extract_not_text g _ file_name bank_name transaction_type _ _ Hr Hl)
        as [H1 H2].
      split; [exact H1|]. rewrite H2. now rewrite (trace_read_file _ _ _ Hr).
  - right. exists e. split; [now apply extract_read_raised|].
    unfold extract. rewrite trace_bind. unfold logger at 1. cbn [emit trace result app].
    rewrite trace_bind, Hread. now rewrite app_nil_r.
Qed.

End FileFacts.

(** ** The whole task *)

Section TaskFacts.
Context {T : Type} (to_datetime : pyval -> py T).
Variable read_excel read_csv : list Byte.byte -> py ParsedTable.
Variable bulk_create_booking_transactions : list (Booking.t T) -> py unit.
Variable bulk_create_refund_transactions : list (Refund.t T) -> py unit.

Abbreviation extract' := (extract to_datetime read_excel read_csv).
Abbreviation persist' :=
  (persist bulk_create_booking_transactions bulk_create_refund_transactions).
Abbreviation process_body' :=
  (process_body to_datetime read_excel read_csv
     bulk_create_booking_transactions bulk_create_refund_transactions).
Abbreviation process_uploaded_files' :=
  (process_uploaded_files to_datetime read_excel read_csv
     bulk_create_booking_transactions bulk_create_refund_transactions).

Lemma trace_process_body (g : Globals) (file_content : list Byte.byte)
    (file_name bank_name transaction_type file_format : string) :
  trace (process_body' g file_content file_name bank_name transaction_type file_format)
  = trace (extract' g file_content file_name bank_name transaction_type file_format)
    ++ match result (extract' g file_content file_name bank_name transaction_type
                       file_format) with
       | Ret (Some bulk) => trace (persist' file_name bulk)
       | _ => []
       end.
Proof.
  unfold process_body. rewrite trace_bind.
  destruct (result _) as [[bulk|]|e]; reflexivity.
Qed.

Lemma result_process_body (g : Globals) (file_content : list Byte.byte)
    (file_name bank_name transaction_type file_format : string) :
  result (process_body' g file_content file_name bank_name transaction_type file_format)
  = match result (extract' g file_content file_name bank_name transaction_type
                    file_format) with
    | Ret (Some bulk) => result (persist' file_name bulk)
    | Ret None => Ret tt
    | Raise e => Raise e
    end.
Proof.
  unfold process_body. rewrite result_bind.
  destruct (result _) as [[bulk|]|e]; reflexivity.
Qed.

(** The file-level handler catches everything: the task returns. *)
Lemma result_process_uploaded_files (g : Globals) (file_content : list Byte.byte)
    (file_name bank_name transaction_type file_format : string) :
  result (process_uploaded_files' g file_content file_name bank_name transaction_type
            file_format) = Ret tt.
Proof.
  unfold process_uploaded_files. rewrite result_try_except.
  destruct (result _) as [[]|e]; reflexivity.
Qed.

Lemma trace_process_uploaded_files (g : Globals) (file_content : list Byte.byte)
    (file_name bank_name transaction_type file_format : string) :
  trace (process_uploaded_files' g file_content file_name bank_name transaction_type
           file_format)
  = trace (process_body' g file_content file_name bank_name transaction_type file_format)
    ++ match result (process_body' g file_content file_name bank_name transaction_type
                       file_format) with
       | Ret _ => []
       | Raise e => [Log ERROR (ErrorProcessingFile file_name e);
                     Log DEBUG (FullTraceback e)]
       end.
Proof.
  unfold process_uploaded_files. rewrite trace_try_except.
  destruct (result _) as [[]|e]; reflexivity.
Qed.

(** With one of the two lists empty, the calls [persist] makes are those of
    [calls_for], whatever the models answer. *)
Lemma persistence_calls_persist (file_name : string)
    (bs : list (Booking.t T)) (rs : list (Refund.t T)) :
  bs = [] \/ rs = [] ->
  persistence_calls (trace (persist' file_name (bs, rs))) = calls_for (bs, rs).
Proof.
  unfold persistence_calls, calls_for, persist. simpl.
  intros [-> | ->].
  - destruct rs as [|r rs]; [reflexivity|]. simpl.
    destruct (bulk_create_refund_transactions (r :: rs)); reflexivity.
  - destruct bs as [|b bs]; [reflexivity|]. simpl.
    destruct (bulk_create_booking_transactions (b :: bs)); reflexivity.
Qed.

Lemma persistence_calls_logs (tr : list (event T)) :
  Forall (fun ev => is_persistence_call ev = false) tr -> persistence_calls tr = [].
Proof.
  unfold persistence_calls. induction 1 as [|ev tr Hev _ IH]; simpl; [reflexivity|].
  now rewrite Hev.
Qed.

Lemma persistence_calls_app (tr1 tr2 : list (event T)) :
  persistence_calls (tr1 ++ tr2) = persistence_calls tr1 ++ persistence_calls tr2.
Proof. apply List.filter_app. Qed.

(** The two lists after the loop: each row's own records, in row order;
    the list of the other transaction type stays empty. *)
Lemma extract_Some_inv (g : Globals) (file_content : list Byte.byte)
    (file_name bank_name transaction_type file_format : string) (bulk : Bulk) :
  result (extract' g file_content file_name bank_name transaction_type file_format)
    = Ret (Some bulk) ->
  exists df schema bank_code,
    read_as read_excel read_csv file_format file_content df /\
    lookup_schema g bank_name transaction_type = Ret schema /\
    missing_from schema df = ∅ /\
    BANK_CODE_MAPPING g !! bank_name = Some bank_code /\
    bulk = (flat_map (bookings_of_row to_datetime bank_code transaction_type)
              (normalised_rows df schema),
            flat_map (refunds_of_row to_datetime bank_code transaction_type)
              (normalised_rows df schema)).
Proof.
  destruct (extract_cases to_datetime read_excel read_csv g file_content file_name
              bank_name transaction_type file_format) as [[df Hread]|[e [He _]]].
  - rewrite (extract_result _ _ _ _ _ _ _ _ _ _ Hread).
    destruct (lookup_schema g bank_name transaction_type) as [schema|e]; [|discriminate].
    case_decide as Hm; [|discriminate].
    destruct (BANK_CODE_MAPPING g !! bank_name) as [bank_code|] eqn:Hc; [|discriminate].
    intros H. inversion H. exists df, schema, bank_code. auto.
  - rewrite He. discriminate.
Qed.

Lemma bookings_of_row_other (bank_code : Z) (transaction_type : string) (rows : list Row) :
  transaction_type <> "booking" ->
  flat_map (bookings_of_row to_datetime bank_code transaction_type) rows = [].
Proof.
  intros Hne. induction rows as [|row rows IH]; simpl; [reflexivity|].
  rewrite IH. unfold bookings_of_row.
  destruct (String.eqb_spec transaction_type "booking"); [contradiction | reflexivity].
Qed.

Lemma refunds_of_row_other (bank_code : Z) (transaction_type : string) (rows : list Row) :
  transaction_type <> "refund" ->
  flat_map (refunds_of_row to_datetime bank_code transaction_type) rows = [].
Proof.
  intros Hne. induction rows as [|row rows IH]; simpl; [reflexivity|].
  rewrite IH. unfold refunds_of_row.
  destruct (String.eqb transaction_type "booking"); [reflexivity|].
  destruct (String.eqb_spec transaction_type "refund"); [contradiction | reflexivity].
Qed.

Lemma extract_one_list_empty (g : Globals) (file_content : list Byte.byte)
    (file_name bank_name transaction_type file_format : string) (bulk : Bulk) :
  result (extract' g file_content file_name bank_name transaction_type file_format)
    = Ret (Some bulk) ->
  (transaction_type <> "booking" -> bulk.1 = []) /\
  (transaction_type <> "refund" -> bulk.2 = []).
Proof.
  intros H. apply extract_Some_inv in H.
  destruct H as (df & schema & bank_code & _ & _ & _ & _ & ->). simpl. split; intros Hne.
  - now apply bookings_of_row_other.
  - now apply refunds_of_row_other.
Qed.

(** The bulk-insert calls of an invocation are fixed by what [extract]
    returned. *)
Lemma persistence_calls_process_uploaded_files (g : Globals)
    (file_content : list Byte.byte)
    (file_name bank_name transaction_type file_format : string) :
  persistence_calls
    (trace (process_uploaded_files' g file_content file_name bank_name transaction_type
              file_format))
  = match result (extract' g file_content file_name bank_name transaction_type
                    file_format) with
    | Ret (Some bulk) => calls_for bulk
    | _ => []
    end.
Proof.
  rewrite trace_process_uploaded_files, trace_process_body.
  rewrite !persistence_calls_app.
  assert (H1 : persistence_calls
                 (trace (extract' g file_content file_name bank_name transaction_type
                           file_format)) = [])
    by (apply persistence_calls_logs, trace_extract_logs; reflexivity).
  assert (H2 : forall r : py unit,
             persistence_calls
               match r with
               | Ret _ => []
               | Raise e => [Log ERROR (ErrorProcessingFile file_name e);
                             Log DEBUG (FullTraceback (T:=T) e)]
               end = [])
    by (intros [[]|e]; reflexivity).
  rewrite H1, H2.
  rewrite app_nil_r. cbn [app].
  destruct (result (extract' g file_content file_name bank_name transaction_type file_format))
    as [[[bs rs]|]|e] eqn:He; try reflexivity.
  apply persistence_calls_persist.
  destruct (extract_one_list_empty _ _ _ _ _ _ _ He) as [Hb Hr]. simpl in Hb, Hr.
  destruct (String.eqb_spec transaction_type "booking") as [->|Hne].
  - right. now apply Hr.
  - left. now apply Hb.
Qed.

End TaskFacts.

(** * The claims *)

Ltac differ_tac :=
  repeat first
    [ apply dor_nil
    | apply dor_keep
    | apply dor_left; [reflexivity|]
    | apply dor_right; [reflexivity|] ].

(** C5. [clean_column_name] returns its argument with every whitespace
    character and every '.' and '_' removed, the remaining characters in
    their order and case (the reference definition); so two headers that
    differ only in such characters clean to the same text, as
    "IRCTC ORDER NO." and "IRCTCORDERNO" do. *)
Theorem clean_column_name_is_reference :
  (forall T s, result (@clean_column_name T s) = Ret (clean_reference s)) /\
  (forall T s t,
     differ_only_in_removable s t ->
     result (@clean_column_name T s) = result (@clean_column_name T t)) /\
  (forall T,
     result (@clean_column_name T "IRCTC ORDER NO.") = Ret "IRCTCORDERNO" /\
     result (@clean_column_name T "IRCTCORDERNO") = Ret "IRCTCORDERNO").
Proof.
  split; [|split].
  - intros T s. simpl. now rewrite cleaned_name_is_reference.
  - intros T s t H. simpl. rewrite !cleaned_name_is_reference.
    now rewrite (clean_reference_differ s t H).
  - intros T. split; reflexivity.
Qed.

Lemma clean_column_name_is_reference_witness :
  differ_only_in_removable "IRCTC ORDER NO." "IRCTC_ORDER NO" /\
  result (@clean_column_name unit "IRCTC ORDER NO.")
  = result (@clean_column_name unit "IRCTC_ORDER NO").
Proof.
  assert (H : differ_only_in_removable "IRCTC ORDER NO." "IRCTC_ORDER NO")
    by differ_tac.
  split; [exact H|].
  exact (proj1 (proj2 clean_column_name_is_reference) unit _ _ H).
Defined.

(** C4. [convert_to_int] never raises; it returns [None] for [None], NaN,
    the empty text, a [Series], and any text [float] rejects, and for text
    [float] accepts it returns [int] of that float, the truncation towards
    zero ("678.0" gives 678), or [None] where [int] fails (inf, nan). *)
Theorem convert_to_int_total_and_tolerant :
  (forall T val, exists r, result (@convert_to_int T val) = Ret r) /\
  (forall T,
     result (@convert_to_int T VNone) = Ret None /\
     result (@convert_to_int T VNaN) = Ret None /\
     result (@convert_to_int T (VStr "")) = Ret None) /\
  (forall T cells, result (@convert_to_int T (VSeries cells)) = Ret None) /\
  (forall T s,
     raises (PyFloat.float_of_str s) = true ->
     result (@convert_to_int T (VStr s)) = Ret None) /\
  (forall T s f,
     PyFloat.float_of_str s = Ret f ->
     result (@convert_to_int T (VStr s))
     = Ret match PyFloat.int_of_float f with Ret i => Some i | Raise _ => None end) /\
  (forall T s neg m e,
     PyFloat.float_of_str s = Ret (S754_finite neg m e) ->
     result (@convert_to_int T (VStr s))
     = Ret (Some (Z.quot (cond_Zopp neg (Z.pos m) * 2 ^ Z.max e 0) (2 ^ Z.max (- e) 0)))) /\
  (forall T, result (@convert_to_int T (VStr "678.0")) = Ret (Some 678%Z)).
Proof.
  repeat apply conj.
  - intros T val. exists (to_int val). apply convert_to_int_result.
  - intros T. repeat apply conj; apply convert_to_int_result.
  - intros T cells. apply convert_to_int_result.
  - intros T s H. rewrite convert_to_int_result. unfold to_int.
    now destruct (PyFloat.float_of_str s).
  - intros T s f H. rewrite convert_to_int_result. unfold to_int. now rewrite H.
  - intros T s neg m e H. rewrite convert_to_int_result. unfold to_int.
    now rewrite H, int_of_float_truncates.
  - intros T. rewrite convert_to_int_result. vm_compute. reflexivity.
Qed.

Lemma convert_to_int_total_and_tolerant_witness :
  raises (PyFloat.float_of_str "abc") = true /\
  result (@convert_to_int unit (VStr "abc")) = Ret None.
Proof.
  assert (H : raises (PyFloat.float_of_str "abc") = true) by (vm_compute; reflexivity).
  split; [exact H|].
  exact (proj1 (proj2 (proj2 (proj2 convert_to_int_total_and_tolerant))) unit "abc" H).
Defined.

(** ** Rows *)



Section RowTraces.
Context {T : Type} (to_datetime : pyval -> py T).

Lemma trace_process_row_booking_calm (bank_code : Z) (bulk : Bulk) (index : nat)
    (row : Row) (v : T * T * spec_float) :
  booking_values to_datetime row = Ret v ->
  Forall (fun ev => is_row_error ev = false)
         (trace (process_row to_datetime bank_code "booking" bulk index row)).
Proof.
  intros Ha. unfold process_row. simpl. rewrite trace_try_except.
  rewrite result_bind, booking_data_result, Ha. destruct v as [[td cd] a].
  apply Forall_app. split.
  - apply Forall_trace_bind; [apply trace_booking_data_logs; auto|]. intros d _.
    apply Forall_trace_bind; [repeat constructor|]. intros _ _.
    destruct (_ && _)%bool; repeat constructor.
  - py_steps. destruct (_ && _)%bool; py_steps; constructor.
Qed.

Lemma trace_process_row_refund_calm (bank_code : Z) (bulk : Bulk) (index : nat)
    (row : Row) (v : T * spec_float * T) :
  refund_values to_datetime row = Ret v ->
  Forall (fun ev => is_row_error ev = false)
         (trace (process_row to_datetime bank_code "refund" bulk index row)).
Proof.
  intros Ha. unfold process_row. simpl. rewrite trace_try_except.
  rewrite result_bind, refund_data_result, Ha. destruct v as [[rd a] dd].
  apply Forall_app. split.
  - apply Forall_trace_bind; [apply trace_refund_data_logs; auto|]. intros d _.
    apply Forall_trace_bind; [repeat constructor|]. intros _ _.
    destruct (_ && _)%bool; repeat constructor.
  - py_steps. destruct (_ && _)%bool; py_steps; constructor.
Qed.

(** An amount that raises makes the row's entries raise: at the amount, or
    at a date conversion before it. *)
Lemma booking_values_rejected (row : Row) (e : exn) :
  amount (row_get "booking_amount" row) = Raise e ->
  exists e', booking_values to_datetime row = Raise e'.
Proof.
  intros Ha. unfold booking_values.
  destruct (to_datetime (row_get "transaction_date" row)); cbn [mbind py_bind]; [|eauto].
  destruct (to_datetime (row_get "credited_date" row)); cbn [mbind py_bind]; [|eauto].
  rewrite Ha. eauto.
Qed.

Lemma refund_values_rejected (row : Row) (e : exn) :
  amount (row_get "refund_amount" row) = Raise e ->
  exists e', refund_values to_datetime row = Raise e'.
Proof.
  intros Ha. unfold refund_values.
  destruct (to_datetime (row_get "refund_date" row)); cbn [mbind py_bind]; [|eauto].
  rewrite Ha. eauto.
Qed.

Lemma refund_values_amount_raised (row : Row) (rd : T) (e : exn) :
  to_datetime (row_get "refund_date" row) = Ret rd ->
  amount (row_get "refund_amount" row) = Raise e ->
  refund_values to_datetime row = Raise e.
Proof. intros Hrd Ha. unfold refund_values. now rewrite Hrd, Ha. Qed.

End RowTraces.



(** An amount value that is text is passed to [float], also when it is
    blank; the readers hand no such text over for an empty field. *)
Example blank_amount_text :
  amount (VStr " ") = Raise (ValueError (CouldNotConvertStringToFloat " ")) /\
  amount (VStr "abc") = Raise (ValueError (CouldNotConvertStringToFloat "abc")).
Proof. split; vm_compute; reflexivity. Qed.

(** C2 (amended). A row adds a record only if its order number and its
    type-specific reference number both coerce to integers; where either is
    null it adds none, and this is no row error as long as the amount
    coercion and the date conversions do not raise; a row whose order number
    coerces to a non-zero integer, whose reference number coerces to an
    integer and whose amount coercion and date conversions return is
    appended, whatever its other fields hold. *)
Theorem record_needs_both_numbers :
  forall T (to_datetime : pyval -> py T) bank_code bulk index row,
  (exists recs,
     result (process_row to_datetime bank_code "booking" bulk index row)
       = Ret (bulk.1 ++ recs, bulk.2) /\
     (recs = [] \/
      exists d o r,
        recs = [d] /\
        result (@convert_to_int T (row_get "irctc_order_no" row)) = Ret (Some o) /\
        result (@convert_to_int T (row_get "bank_booking_ref_no" row)) = Ret (Some r) /\
        Booking.irctc_order_no d = Some o /\ Booking.bank_booking_ref_no d = Some r) /\
     (result (@convert_to_int T (row_get "irctc_order_no" row)) = Ret None \/
      result (@convert_to_int T (row_get "bank_booking_ref_no" row)) = Ret None ->
      recs = []) /\
     (forall o r a td cd,
        result (@convert_to_int T (row_get "irctc_order_no" row)) = Ret (Some o) ->
        o <> 0%Z ->
        result (@convert_to_int T (row_get "bank_booking_ref_no" row)) = Ret (Some r) ->
        amount (row_get "booking_amount" row) = Ret a ->
        to_datetime (row_get "transaction_date" row) = Ret td ->
        to_datetime (row_get "credited_date" row) = Ret cd ->
        recs = [Booking.mk bank_code td cd a (Some o) (Some r)])) /\
  (forall a td cd,
     amount (row_get "booking_amount" row) = Ret a ->
     to_datetime (row_get "transaction_date" row) = Ret td ->
     to_datetime (row_get "credited_date" row) = Ret cd ->
     Forall (fun ev => is_row_error ev = false)
            (trace (process_row to_datetime bank_code "booking" bulk index row))) /\
  (exists recs,
     result (process_row to_datetime bank_code "refund" bulk index row)
       = Ret (bulk.1, bulk.2 ++ recs) /\
     (recs = [] \/
      exists d o r,
        recs = [d] /\
        result (@convert_to_int T (row_get "irctc_order_no" row)) = Ret (Some o) /\
        result (@convert_to_int T (row_get "bank_refund_ref_no" row)) = Ret (Some r) /\
        Refund.irctc_order_no d = Some o /\ Refund.bank_refund_ref_no d = Some r) /\
     (result (@convert_to_int T (row_get "irctc_order_no" row)) = Ret None \/
      result (@convert_to_int T (row_get "bank_refund_ref_no" row)) = Ret None ->
      recs = []) /\
     (forall o r a rd dd,
        result (@convert_to_int T (row_get "irctc_order_no" row)) = Ret (Some o) ->
        o <> 0%Z ->
        result (@convert_to_int T (row_get "bank_refund_ref_no" row)) = Ret (Some r) ->
        amount (row_get "refund_amount" row) = Ret a ->
        to_datetime (row_get "refund_date" row) = Ret rd ->
        to_datetime (row_get "debited_date" row) = Ret dd ->
        recs = [Refund.mk bank_code rd
                  (to_int (row_get "bank_booking_ref_no" row))
                  (Some r) a dd (Some o)])) /\
  (forall a rd dd,
     amount (row_get "refund_amount" row) = Ret a ->
     to_datetime (row_get "refund_date" row) = Ret rd ->
     to_datetime (row_get "debited_date" row) = Ret dd ->
     Forall (fun ev => is_row_error ev = false)
            (trace (process_row to_datetime bank_code "refund" bulk index row))).
Proof.
  intros T to_datetime bank_code bulk index row. rewrite !convert_to_int_result.
  repeat apply conj.
  - exists (bookings_of_row to_datetime bank_code "booking" row).
    rewrite process_row_result.
    unfold bookings_of_row, refunds_of_row, booking_record. simpl. rewrite app_nil_r.
    repeat apply conj.
    + reflexivity.
    + destruct (booking_values _ _) as [[[td cd] a]|e]; [|now left].
      destruct (to_int (row_get "irctc_order_no" row)) as [o|]; [|now left].
      destruct (to_int (row_get "bank_booking_ref_no" row)) as [r|];
        [|rewrite andb_false_r; now left].
      simpl. destruct (negb _); [|now left].
      right. simpl. eauto 10.
    + intros [H|H]; inversion H as [H']; rewrite H';
        destruct (booking_values _ _) as [[[td cd] a]|e]; simpl;
        rewrite ?andb_false_r; reflexivity.
    + intros o r a td cd Ho Hne Hr Ha Htd Hcd. inversion Ho as [Ho']. inversion Hr as [Hr'].
      rewrite (booking_values_returned _ _ _ _ Htd Hcd), Ha, Ho', Hr'. simpl.
      destruct (Z.eqb_spec o 0); [contradiction | reflexivity].
  - intros a td cd Ha Htd Hcd.
    apply (trace_process_row_booking_calm _ _ _ _ _ (td, cd, a)).
    now rewrite (booking_values_returned _ _ _ _ Htd Hcd), Ha.
  - exists (refunds_of_row to_datetime bank_code "refund" row).
    rewrite process_row_result.
    unfold bookings_of_row, refunds_of_row, refund_record. simpl. rewrite app_nil_r.
    repeat apply conj.
    + reflexivity.
    + destruct (refund_values _ _) as [[[rd a] dd]|e]; [|now left].
      destruct (to_int (row_get "irctc_order_no" row)) as [o|]; [|now left].
      destruct (to_int (row_get "bank_refund_ref_no" row)) as [r|];
        [|rewrite andb_false_r; now left].
      simpl. destruct (negb _); [|now left].
      right. simpl. eauto 10.
    + intros [H|H]; inversion H as [H']; rewrite H';
        destruct (refund_values _ _) as [[[rd a] dd]|e]; simpl;
        rewrite ?andb_false_r; reflexivity.
    + intros o r a rd dd Ho Hne Hr Ha Hrd Hdd. inversion Ho as [Ho']. inversion Hr as [Hr'].
      rewrite (refund_values_returned _ _ _ _ Hrd Hdd), Ha, Ho', Hr'. simpl.
      destruct (Z.eqb_spec o 0); [contradiction | reflexivity].
  - intros a rd dd Ha Hrd Hdd.
    apply (trace_process_row_refund_calm _ _ _ _ _ (rd, a, dd)).
    now rewrite (refund_values_returned _ _ _ _ Hrd Hdd), Ha.
Qed.

Lemma record_needs_both_numbers_witness :
  Forall (fun ev => is_row_error ev = false)
         (trace (process_row Sample.to_datetime 40%Z "booking" ([], []) 0
                   (Sample.booking_row NaN (Str "680") (Str "10")))).
Proof.
  apply (proj1 (proj2 (record_needs_both_numbers pyval Sample.to_datetime 40%Z ([], []) 0
                         (Sample.booking_row NaN (Str "680") (Str "10"))))
           (S754_finite false 5629499534213120 (-49)) (VStr "2024-10-01") VNaN).
  - vm_compute. reflexivity.
  - reflexivity.
  - reflexivity.
Defined.

(** The claim C2 as written fails where the amount is garbled: the order
    number "1" and the reference "2" both coerce to integers, yet the row
    with amount "abc" adds no record and is logged as a row error; and a row
    with a null order number and a garbled amount is logged as an error too,
    not dropped silently.  It fails likewise where a date conversion raises:
    under a conversion that rejects the [Series] of a duplicated label, the
    row with order "1", reference "2", amount "10" and two credit-date cells
    of different UTC offsets adds no record and is logged as a row error. *)
Lemma both_numbers_do_not_suffice :
  result (@convert_to_int pyval (VStr "1")) = Ret (Some 1%Z) /\
  result (@convert_to_int pyval (VStr "2")) = Ret (Some 2%Z) /\
  result (process_row Sample.to_datetime 40%Z "booking" ([], []) 0
            (Sample.booking_row (Str "1") (Str "2") (Str "abc")))
  = Ret ([], []) /\
  existsb is_row_error
    (trace (process_row Sample.to_datetime 40%Z "booking" ([], []) 0
              (Sample.booking_row (Str "1") (Str "2") (Str "abc")))) = true /\
  existsb is_row_error
    (trace (process_row Sample.to_datetime 40%Z "booking" ([], []) 0
              (Sample.booking_row NaN (Str "2") (Str "abc")))) = true /\
  result (process_row Variants.to_datetime_strict 40%Z "booking" ([], []) 0
            Variants.mixed_offsets_row)
  = Ret ([], []) /\
  trace (process_row Variants.to_datetime_strict 40%Z "booking" ([], []) 0
           Variants.mixed_offsets_row)
  = [Log ERROR (UnexpectedRowError 0 Variants.mixed_offsets_row
                  (ValueError MixedTimezones))].
Proof. repeat apply conj; vm_compute; reflexivity. Qed.

(** The order number is tested for truth, the reference for [None]: an order
    number that coerces to 0 adds no record, a reference that does is kept. *)
Example zero_order_number_zero_reference :
  result (process_row Sample.to_datetime 40%Z "booking" ([], []) 0
            (Sample.booking_row (Str "0") (Str "2") (Str "10")))
  = Ret ([], []) /\
  result (process_row Sample.to_datetime 40%Z "booking" ([], []) 0
            (Sample.booking_row (Str "7") (Str "0") NaN))
  = Ret ([Booking.mk 40%Z (VStr "2024-10-01") VNaN PyFloat.zero (Some 7%Z) (Some 0%Z)], []).
Proof. split; vm_compute; reflexivity. Qed.






(** ** Files *)

Section FileClaims.
Context {T : Type} (to_datetime : pyval -> py T).
Variable read_excel read_csv : list Byte.byte -> py ParsedTable.
Variable bulk_create_booking_transactions : list (Booking.t T) -> py unit.
Variable bulk_create_refund_transactions : list (Refund.t T) -> py unit.

Abbreviation extract_ := (extract to_datetime read_excel read_csv).
Abbreviation process_body_ :=
  (process_body to_datetime read_excel read_csv
     bulk_create_booking_transactions bulk_create_refund_transactions).
Abbreviation process_uploaded_files_ :=
  (process_uploaded_files to_datetime read_excel read_csv
     bulk_create_booking_transactions bulk_create_refund_transactions).

(** When [extract] raises, the invocation stops there: the body raises the
    same exception, the handler logs it, and the trace shows no row, no
    bank-code guard and no bulk insert. *)
Lemma extract_raised (g : Globals) (file_content : list Byte.byte)
    (file_name bank_name transaction_type file_format : string) (e : exn) :
  result (extract_ g file_content file_name bank_name transaction_type file_format)
    = Raise e ->
  result (process_body_ g file_content file_name bank_name transaction_type file_format)
    = Raise e /\
  In (Log ERROR (ErrorProcessingFile file_name e))
     (trace (process_uploaded_files_ g file_content file_name bank_name transaction_type
               file_format)) /\
  Forall (fun ev => before_rows ev = true)
         (trace (process_uploaded_files_ g file_content file_name bank_name
                   transaction_type file_format)).
Proof.
  intros He.
  assert (Hb : result (process_body_ g file_content file_name bank_name transaction_type
                         file_format) = Raise e)
    by (now rewrite result_process_body, He).
  rewrite trace_process_uploaded_files, Hb, trace_process_body, He, app_nil_r.
  repeat apply conj.
  - reflexivity.
  - apply in_or_app. right. now left.
  - apply Forall_app. split; [|repeat constructor].
    apply (trace_extract_raised _ _ _ _ _ _ _ _ _ _ e); [|exact He].
    intros lvl msg Hrow Hguard. unfold before_rows. now rewrite Hrow, Hguard.
Qed.

(** Without an entry for the bank in [BANK_MAPPINGS], [extract] raises:
    at the schema lookup if the file was read and its labels are text, at
    line 83 if a label is not, in the reader otherwise. *)
Lemma extract_without_schema (g : Globals) (file_content : list Byte.byte)
    (file_name bank_name transaction_type file_format : string) :
  BANK_MAPPINGS g !! bank_name = None ->
  (exists e,
     result (extract_ g file_content file_name bank_name transaction_type file_format)
       = Raise e) /\
  (forall df,
     read_as read_excel read_csv file_format file_content df ->
     result (extract_ g file_content file_name bank_name transaction_type file_format)
       = Raise (KeyError bank_name)) /\
  (forall table,
     reader_returned read_excel read_csv file_format file_content table ->
     forallb is_text (parsed_labels table) = false ->
     result (extract_ g file_content file_name bank_name transaction_type file_format)
       = Raise TypeError).
Proof.
  intros Hnone.
  assert (Hl : lookup_schema g bank_name transaction_type = Raise (KeyError bank_name))
    by (unfold lookup_schema, getitem; now rewrite Hnone).
  assert (Hdf : forall df,
            read_as read_excel read_csv file_format file_content df ->
            result (extract_ g file_content file_name bank_name transaction_type
                      file_format) = Raise (KeyError bank_name)).
  { intros df Hread. now rewrite (extract_result _ _ _ _ _ _ _ _ _ _ Hread), Hl. }
  repeat apply conj; [|exact Hdf|].
  - destruct (extract_cases to_datetime read_excel read_csv g file_content file_name
                bank_name transaction_type file_format) as [[df Hread]|[e [He _]]]; eauto.
  - intros table Hread Hnt.
    now destruct (extract_not_text to_datetime read_excel read_csv g _ file_name bank_name
                    transaction_type _ _ Hread Hnt).
Qed.

End FileClaims.

Lemma missing_from_nonempty (schema : Schema) (df : DataFrame) (name : string) :
  In name (map cleaned_name (schema_columns schema)) ->
  ~ In name (map cleaned_name (columns df)) ->
  missing_from schema df <> ∅.
Proof.
  intros Hin Hnot E.
  apply (not_elem_of_empty (C := gset string) name).
  rewrite <- E. unfold missing_from, missing_columns.
  apply elem_of_difference. split.
  - now apply elem_of_list_to_set, list_elem_of_In.
  - rewrite elem_of_list_to_set, list_elem_of_In. exact Hnot.
Qed.

(** C6 (amended). When the table that was read has text labels only and
    lacks a required column of the schema (both sides cleaned), the
    invocation fails with the [ValueError] "Missing columns after cleaning"
    that names exactly the required cleaned columns absent from the cleaned
    table, each once; the handler logs it, and no row is walked and nothing
    is handed to the models.  A table with a label that is not text fails
    with the [TypeError] of line 83, before the columns are compared; no row
    is walked and nothing is handed to the models then either. *)
Theorem missing_columns_fail_the_file :
  (forall T (to_datetime : pyval -> py T) read_excel read_csv
          (bulk_create_booking_transactions : list (Booking.t T) -> py unit)
          (bulk_create_refund_transactions : list (Refund.t T) -> py unit)
          g file_content file_name bank_name transaction_type file_format df schema,
   read_as read_excel read_csv file_format file_content df ->
   lookup_schema g bank_name transaction_type = Ret schema ->
   missing_from schema df <> ∅ ->
   let names := elements (missing_from schema df) in
   let failure := ValueError (MissingColumnsAfterCleaning names) in
   let run := process_uploaded_files to_datetime read_excel read_csv
                bulk_create_booking_transactions bulk_create_refund_transactions
                g file_content file_name bank_name transaction_type file_format in
   result (process_body to_datetime read_excel read_csv
             bulk_create_booking_transactions bulk_create_refund_transactions
             g file_content file_name bank_name transaction_type file_format)
     = Raise failure /\
   (forall name,
      In name names <->
      In name (map cleaned_name (schema_columns schema)) /\
      ~ In name (map cleaned_name (columns df))) /\
   NoDup names /\
   names <> [] /\
   In (Log ERROR (ErrorProcessingFile file_name failure)) (trace run) /\
   Forall (fun ev => before_rows ev = true) (trace run) /\
   persistence_calls (trace run) = []) /\
  (forall T (to_datetime : pyval -> py T) read_excel read_csv
          (bulk_create_booking_transactions : list (Booking.t T) -> py unit)
          (bulk_create_refund_transactions : list (Refund.t T) -> py unit)
          g file_content file_name bank_name transaction_type file_format table,
   reader_returned read_excel read_csv file_format file_content table ->
   forallb is_text (parsed_labels table) = false ->
   let run := process_uploaded_files to_datetime read_excel read_csv
                bulk_create_booking_transactions bulk_create_refund_transactions
                g file_content file_name bank_name transaction_type file_format in
   result (process_body to_datetime read_excel read_csv
             bulk_create_booking_transactions bulk_create_refund_transactions
             g file_content file_name bank_name transaction_type file_format)
     = Raise TypeError /\
   In (Log ERROR (ErrorProcessingFile file_name TypeError)) (trace run) /\
   Forall (fun ev => before_rows ev = true) (trace run) /\
   persistence_calls (trace run) = []).
Proof.
  split.
  - intros T to_datetime read_excel read_csv bb br g file_content file_name bank_name
      transaction_type file_format df schema Hread Hschema Hmiss names failure run.
    assert (He : result (extract to_datetime read_excel read_csv g file_content file_name
                           bank_name transaction_type file_format) = Raise failure).
    { rewrite (extract_result _ _ _ _ _ _ _ _ _ _ Hread), Hschema.
      case_decide; [contradiction | reflexivity]. }
    destruct (extract_raised to_datetime read_excel read_csv bb br _ _ _ _ _ _ _ He)
      as (Hb & Hlog & Hbefore).
    repeat apply conj; try assumption.
    + intros name. unfold names, missing_from, missing_columns.
      rewrite <- !list_elem_of_In, elem_of_elements, elem_of_difference.
      now rewrite !elem_of_list_to_set.
    + unfold names. apply NoDup_elements.
    + unfold names. intros Hnil. apply elements_empty_inv in Hnil.
      apply Hmiss. now apply leibniz_equiv.
    + unfold run. rewrite persistence_calls_process_uploaded_files. now rewrite He.
  - intros T to_datetime read_excel read_csv bb br g file_content file_name bank_name
      transaction_type file_format table Hread Hl run.
    destruct (extract_not_text to_datetime read_excel read_csv g _ file_name bank_name
                transaction_type _ _ Hread Hl) as [He _].
    destruct (extract_raised to_datetime read_excel read_csv bb br _ _ _ _ _ _ _ He)
      as (Hb & Hlog & Hbefore).
    repeat apply conj; try assumption.
    unfold run. rewrite persistence_calls_process_uploaded_files. now rewrite He.
Qed.

Lemma missing_columns_fail_the_file_witness :
  result (process_body Sample.to_datetime (Sample.reads Sample.short_file)
            (Sample.reads Sample.short_file) Sample.accept Sample.accept
            shipped [] "report.csv" "karur_vysya" "booking" "csv")
  = Raise (ValueError (MissingColumnsAfterCleaning
                         (elements (missing_from karur_vysya_booking Sample.short_file)))).
Proof.
  refine (proj1 (proj1 missing_columns_fail_the_file pyval Sample.to_datetime
                   (Sample.reads Sample.short_file) (Sample.reads Sample.short_file)
                   Sample.accept Sample.accept
                   shipped [] "report.csv" "karur_vysya" "booking" "csv"
                   Sample.short_file karur_vysya_booking _ _ _)).
  - right. split; reflexivity.
  - vm_compute. reflexivity.
  - apply (missing_from_nonempty _ _ "IRCTCORDERNO"); vm_compute;
      [auto 10 | intuition discriminate].
Defined.

(** The claim C6 as written fails on a sheet with a header cell that is not
    text: the sheet read as 'excel' has no amount column, which the
    karur_vysya booking schema requires, yet the invocation fails with
    [TypeError] at line 83 and never reports a missing column. *)
Lemma numeric_header_hides_missing_columns :
  In "BOOKINGAMOUNT" (map cleaned_name (schema_columns karur_vysya_booking)) /\
  existsb (fun l => match l with
                    | Text s => String.eqb (cleaned_name s) "BOOKINGAMOUNT"
                    | NotText _ => false
                    end)
          (parsed_labels Variants.numeric_header_short) = false /\
  result (process_body Sample.to_datetime (Variants.finds Variants.numeric_header_short)
            (Variants.finds Variants.numeric_header_short) Sample.accept Sample.accept
            shipped [] "report.xlsx" "karur_vysya" "booking" "excel")
  = Raise TypeError /\
  trace (process_uploaded_files Sample.to_datetime
           (Variants.finds Variants.numeric_header_short)
           (Variants.finds Variants.numeric_header_short) Sample.accept Sample.accept
           shipped [] "report.xlsx" "karur_vysya" "booking" "excel")
  = [Log INFO (ReceivedTask "report.xlsx" "booking");
     Log DEBUG ReadingExcel;
     Log ERROR (ErrorProcessingFile "report.xlsx" TypeError);
     Log DEBUG (FullTraceback TypeError)].
Proof.
  repeat apply conj; try (vm_compute; reflexivity).
  vm_compute. auto 10.
Qed.

(** C7. The loop keeps two lists, and the one that does not belong to the
    requested transaction type stays empty: a 'booking' invocation leaves
    the refund list empty and never calls the refund bulk insert, a 'refund'
    invocation leaves the booking list empty and never calls the booking
    bulk insert. *)
Theorem other_collection_stays_empty :
  forall T (to_datetime : pyval -> py T) read_excel read_csv
         (bulk_create_booking_transactions : list (Booking.t T) -> py unit)
         (bulk_create_refund_transactions : list (Refund.t T) -> py unit)
         g file_content file_name bank_name file_format,
  (forall bulk,
     result (extract to_datetime read_excel read_csv g file_content file_name
               bank_name "booking" file_format) = Ret (Some bulk) ->
     bulk.2 = []) /\
  Forall (fun ev => is_refund_call ev = false)
    (trace (process_uploaded_files to_datetime read_excel read_csv
              bulk_create_booking_transactions bulk_create_refund_transactions
              g file_content file_name bank_name "booking" file_format)) /\
  (forall bulk,
     result (extract to_datetime read_excel read_csv g file_content file_name
               bank_name "refund" file_format) = Ret (Some bulk) ->
     bulk.1 = []) /\
  Forall (fun ev => is_booking_call ev = false)
    (trace (process_uploaded_files to_datetime read_excel read_csv
              bulk_create_booking_transactions bulk_create_refund_transactions
              g file_content file_name bank_name "refund" file_format)).
Proof.
  intros T to_datetime read_excel read_csv bb br g file_content file_name bank_name
    file_format.
  assert (Hcalls : forall transaction_type (is_other : event T -> bool),
            (forall ev, is_other ev = true -> is_persistence_call ev = true) ->
            (forall bulk,
               result (extract to_datetime read_excel read_csv g file_content file_name
                         bank_name transaction_type file_format) = Ret (Some bulk) ->
               Forall (fun ev => is_other ev = false) (calls_for bulk)) ->
            Forall (fun ev => is_other ev = false)
              (trace (process_uploaded_files to_datetime read_excel read_csv bb br
                        g file_content file_name bank_name transaction_type file_format))).
  { intros transaction_type is_other Hsub Hbulk. apply List.Forall_forall. intros ev Hin.
    destruct (is_other ev) eqn:Hev; [|reflexivity].
    assert (Hp : In ev (persistence_calls
                          (trace (process_uploaded_files to_datetime read_excel read_csv
                                    bb br g file_content file_name bank_name
                                    transaction_type file_format))))
      by (apply List.filter_In; split; [exact Hin | now apply Hsub]).
    rewrite persistence_calls_process_uploaded_files in Hp.
    destruct (result (extract _ _ _ _ _ _ _ _ _)) as [[bulk|]|e] eqn:He;
      try (now destruct Hp).
    specialize (Hbulk bulk eq_refl). rewrite List.Forall_forall in Hbulk.
    rewrite <- Hev. now apply Hbulk. }
  assert (Hb : forall bulk,
            result (extract to_datetime read_excel read_csv g file_content file_name
                      bank_name "booking" file_format) = Ret (Some bulk) ->
            bulk.2 = []).
  { intros bulk He. now apply (extract_one_list_empty _ _ _ _ _ _ _ _ _ _ He). }
  assert (Hr : forall bulk,
            result (extract to_datetime read_excel read_csv g file_content file_name
                      bank_name "refund" file_format) = Ret (Some bulk) ->
            bulk.1 = []).
  { intros bulk He. now apply (extract_one_list_empty _ _ _ _ _ _ _ _ _ _ He). }
  repeat apply conj; try assumption.
  - apply Hcalls; [now intros [] | ]. intros bulk He. unfold calls_for.
    rewrite (Hb bulk He). rewrite app_nil_r. destruct bulk.1; repeat constructor.
  - apply Hcalls; [now intros [] | ]. intros bulk He. unfold calls_for.
    rewrite (Hr bulk He). destruct bulk.2; repeat constructor.
Qed.

Lemma other_collection_stays_empty_witness :
  (flat_map (refunds_of_row Sample.to_datetime 40%Z "booking")
     (normalised_rows Sample.booking_file karur_vysya_booking)) = [].
Proof.
  refine (proj1 (other_collection_stays_empty pyval Sample.to_datetime
                   (Sample.reads Sample.booking_file) (Sample.reads Sample.booking_file)
                   Sample.accept Sample.accept
                   shipped [] "report.csv" "karur_vysya" "csv")
            (flat_map (bookings_of_row Sample.to_datetime 40%Z "booking")
               (normalised_rows Sample.booking_file karur_vysya_booking),
             flat_map (refunds_of_row Sample.to_datetime 40%Z "booking")
               (normalised_rows Sample.booking_file karur_vysya_booking)) _).
  rewrite (extract_result Sample.to_datetime (Sample.reads Sample.booking_file)
             (Sample.reads Sample.booking_file) shipped [] "report.csv" "karur_vysya"
             "booking" "csv" Sample.booking_file (or_intror (conj eq_refl eq_refl))).
  vm_compute. reflexivity.
Defined.

Lemma flat_map_agree {A B} (f h : A -> list B) (l : list A) :
  (forall a, In a l -> f a = h a) -> flat_map f l = flat_map h l.
Proof.
  induction l as [|a l IH]; intros H; simpl; [reflexivity|].
  rewrite (H a) by now left. rewrite IH; [reflexivity|]. intros b Hb. apply H. now right.
Qed.

(** Two conversions that agree on the date fields of a row give the row
    the same records. *)
Lemma records_of_row_agree {T} (first second : pyval -> py T) (bank_code : Z)
    (transaction_type : string) (row : Row) :
  (forall key, In key date_fields -> first (row_get key row) = second (row_get key row)) ->
  bookings_of_row first bank_code transaction_type row
  = bookings_of_row second bank_code transaction_type row /\
  refunds_of_row first bank_code transaction_type row
  = refunds_of_row second bank_code transaction_type row.
Proof.
  intros H.
  unfold bookings_of_row, refunds_of_row, booking_record, refund_record,
    booking_values, refund_values.
  rewrite <- (H "transaction_date"), <- (H "credited_date"), <- (H "refund_date"),
    <- (H "debited_date") by (simpl; auto).
  split; reflexivity.
Qed.

(** A sample file without the text 'now' is converted alike at any time. *)
Lemma sample_dates_agree (first second : string) (df : DataFrame) (schema : Schema)
    (row : Row) (key : string) :
  read_as (Sample.reads Sample.booking_file) (Sample.reads Sample.booking_file) "csv" [] df ->
  lookup_schema shipped "karur_vysya" "booking" = Ret schema ->
  In row (normalised_rows df schema) ->
  In key date_fields ->
  Variants.to_datetime_at first (row_get key row)
  = Variants.to_datetime_at second (row_get key row).
Proof.
  intros [[Hf _]|[_ Hr]] Hs Hrow Hkey; [discriminate|].
  assert (Hdf : df = Sample.booking_file).
  { unfold Sample.reads in Hr. symmetry. apply parsed_inj. congruence. }
  assert (Hsc : schema = karur_vysya_booking)
    by (vm_compute in Hs; now inversion Hs).
  subst df schema.
  vm_compute in Hrow. simpl in Hkey.
  repeat (destruct Hrow as [<-|Hrow]; [
    repeat (destruct Hkey as [<-|Hkey]; [reflexivity|]); destruct Hkey |]).
  destruct Hrow.
Qed.

(** C8 (amended). The batches an invocation hands over are a function of
    its arguments, the two tables, what the reader finds in the bytes and
    what [pd.to_datetime] answers on the date cells: two invocations on the
    same input in which the conversions agree on the date fields of the
    file's rows extract the same two lists and make the same bulk-insert
    calls with the same records, whatever the models answer to the bulk
    inserts (their answer may depend on what earlier runs stored); the task
    has no other state to read, and the tables are only read.  The batch of
    the second invocation is then the one the rows give under the answers of
    the first. *)
Theorem extraction_is_deterministic :
  forall T (first_datetime second_datetime : pyval -> py T) read_excel read_csv
         (first_booking second_booking : list (Booking.t T) -> py unit)
         (first_refund second_refund : list (Refund.t T) -> py unit)
         g file_content file_name bank_name transaction_type file_format,
  (forall df schema row key,
     read_as read_excel read_csv file_format file_content df ->
     lookup_schema g bank_name transaction_type = Ret schema ->
     In row (normalised_rows df schema) ->
     In key date_fields ->
     first_datetime (row_get key row) = second_datetime (row_get key row)) ->
  result (extract first_datetime read_excel read_csv
            g file_content file_name bank_name transaction_type file_format)
  = result (extract second_datetime read_excel read_csv
              g file_content file_name bank_name transaction_type file_format) /\
  persistence_calls
    (trace (process_uploaded_files first_datetime read_excel read_csv
              first_booking first_refund
              g file_content file_name bank_name transaction_type file_format))
  = persistence_calls
      (trace (process_uploaded_files second_datetime read_excel read_csv
                second_booking second_refund
                g file_content file_name bank_name transaction_type file_format)) /\
  persistence_calls
    (trace (process_uploaded_files first_datetime read_excel read_csv
              first_booking first_refund
              g file_content file_name bank_name transaction_type file_format))
  = match result (extract first_datetime read_excel read_csv
                    g file_content file_name bank_name transaction_type file_format) with
    | Ret (Some bulk) => calls_for bulk
    | _ => []
    end /\
  (forall df schema bank_code,
     read_as read_excel read_csv file_format file_content df ->
     lookup_schema g bank_name transaction_type = Ret schema ->
     missing_from schema df = ∅ ->
     BANK_CODE_MAPPING g !! bank_name = Some bank_code ->
     persistence_calls
       (trace (process_uploaded_files second_datetime read_excel read_csv
                 second_booking second_refund
                 g file_content file_name bank_name transaction_type file_format))
     = calls_for
         (flat_map (bookings_of_row first_datetime bank_code transaction_type)
                   (normalised_rows df schema),
          flat_map (refunds_of_row first_datetime bank_code transaction_type)
                   (normalised_rows df schema))).
Proof.
  intros T first_datetime second_datetime read_excel read_csv first_booking second_booking
    first_refund second_refund g file_content file_name bank_name transaction_type
    file_format Hagree.
  assert (He : result (extract first_datetime read_excel read_csv
                         g file_content file_name bank_name transaction_type file_format)
               = result (extract second_datetime read_excel read_csv
                           g file_content file_name bank_name transaction_type
                           file_format)).
  { rewrite !extract_result_full.
    destruct (result (@read_file T read_excel read_csv file_content file_format))
      as [table|e] eqn:Hread; [|reflexivity].
    pose proof (result_read_file_inv _ _ _ _ _ Hread) as Hr.
    destruct (text_labels (parsed_labels table)) as [cols|e] eqn:Hl; [|reflexivity].
    apply text_labels_inv in Hl.
    assert (Ht : table = parsed {| columns := cols; data := parsed_rows table |})
      by (destruct table; simpl in *; now subst).
    rewrite Ht in Hr. cbv zeta.
    destruct (lookup_schema g bank_name transaction_type) as [schema|e] eqn:Hs;
      [|reflexivity].
    case_decide; [|reflexivity].
    destruct (BANK_CODE_MAPPING g !! bank_name) as [bank_code|]; [|reflexivity].
    do 3 f_equal; apply flat_map_agree; intros row Hrow;
      apply records_of_row_agree; intros key Hkey;
      exact (Hagree _ schema row key Hr eq_refl Hrow Hkey). }
  repeat apply conj.
  - exact He.
  - rewrite !persistence_calls_process_uploaded_files. now rewrite He.
  - now rewrite persistence_calls_process_uploaded_files.
  - intros df schema bank_code Hread Hs Hm Hc.
    rewrite persistence_calls_process_uploaded_files, <- He.
    rewrite (extract_result _ _ _ _ _ _ _ _ _ _ Hread), Hs, Hc.
    case_decide; [reflexivity | contradiction].
Qed.

Lemma extraction_is_deterministic_witness :
  result (extract (Variants.to_datetime_at "2024-10-05 10:00:00")
            (Sample.reads Sample.booking_file) (Sample.reads Sample.booking_file)
            shipped [] "report.csv" "karur_vysya" "booking" "csv")
  = result (extract (Variants.to_datetime_at "2024-10-06 17:30:00")
              (Sample.reads Sample.booking_file) (Sample.reads Sample.booking_file)
              shipped [] "report.csv" "karur_vysya" "booking" "csv").
Proof.
  refine (proj1 (extraction_is_deterministic pyval
                   (Variants.to_datetime_at "2024-10-05 10:00:00")
                   (Variants.to_datetime_at "2024-10-06 17:30:00")
                   (Sample.reads Sample.booking_file) (Sample.reads Sample.booking_file)
                   Sample.accept Sample.accept Sample.accept Sample.accept
                   shipped [] "report.csv" "karur_vysya" "booking" "csv" _)).
  intros df schema row key. apply sample_dates_agree.
Defined.

(** The claim C8 as written fails on a date cell the conversion resolves by
    the clock: the booking report whose credit date is the text 'now',
    processed when the clock shows 10:00:00 and again when it shows
    17:30:00, hands over two different records. *)
Lemma clock_changes_the_batch :
  persistence_calls
    (trace (process_uploaded_files (Variants.to_datetime_at "2024-10-05 10:00:00")
              (Sample.reads Variants.clock_file) (Sample.reads Variants.clock_file)
              Sample.accept Sample.accept
              shipped [] "report.csv" "karur_vysya" "booking" "csv"))
  = [BulkCreateBookingTransactions
       [Booking.mk 40%Z (VStr "2024-10-01") (VStr "2024-10-05 10:00:00")
          (S754_finite false 5629499534213120 (-49)) (Some 12345%Z) (Some 678%Z)]] /\
  persistence_calls
    (trace (process_uploaded_files (Variants.to_datetime_at "2024-10-06 17:30:00")
              (Sample.reads Variants.clock_file) (Sample.reads Variants.clock_file)
              Sample.accept Sample.accept
              shipped [] "report.csv" "karur_vysya" "booking" "csv"))
  = [BulkCreateBookingTransactions
       [Booking.mk 40%Z (VStr "2024-10-01") (VStr "2024-10-06 17:30:00")
          (S754_finite false 5629499534213120 (-49)) (Some 12345%Z) (Some 678%Z)]] /\
  persistence_calls
    (trace (process_uploaded_files (Variants.to_datetime_at "2024-10-05 10:00:00")
              (Sample.reads Variants.clock_file) (Sample.reads Variants.clock_file)
              Sample.accept Sample.accept
              shipped [] "report.csv" "karur_vysya" "booking" "csv"))
  <> persistence_calls
       (trace (process_uploaded_files (Variants.to_datetime_at "2024-10-06 17:30:00")
                 (Sample.reads Variants.clock_file) (Sample.reads Variants.clock_file)
                 Sample.accept Sample.accept
                 shipped [] "report.csv" "karur_vysya" "booking" "csv")).
Proof.
  repeat apply conj; try (vm_compute; reflexivity).
  vm_compute. discriminate.
Qed.

(** C10 (amended). For a bank that has a code but no entry in
    [BANK_MAPPINGS], as 'hdfc' and 'icici' in the shipped tables, every
    invocation ends in a file-level error before any row is walked, before
    the bank-code guard, and with nothing handed to the models; when the
    file was read and its labels are all text, that error is the [KeyError]
    of the schema lookup; when it was read and a label is not text, it is the
    [TypeError] of line 83.  The bank-code guard is reached only for a bank
    that has a schema entry. *)
Theorem bank_without_schema_fails_early :
  (forall T (to_datetime : pyval -> py T) read_excel read_csv
          (bulk_create_booking_transactions : list (Booking.t T) -> py unit)
          (bulk_create_refund_transactions : list (Refund.t T) -> py unit)
          g file_content file_name bank_name transaction_type file_format,
     is_Some (BANK_CODE_MAPPING g !! bank_name) ->
     BANK_MAPPINGS g !! bank_name = None ->
     let body := process_body to_datetime read_excel read_csv
                   bulk_create_booking_transactions bulk_create_refund_transactions
                   g file_content file_name bank_name transaction_type file_format in
     let run := process_uploaded_files to_datetime read_excel read_csv
                  bulk_create_booking_transactions bulk_create_refund_transactions
                  g file_content file_name bank_name transaction_type file_format in
     (exists e, result body = Raise e /\
                In (Log ERROR (ErrorProcessingFile file_name e)) (trace run)) /\
     (forall df,
        read_as read_excel read_csv file_format file_content df ->
        result body = Raise (KeyError bank_name)) /\
     (forall table,
        reader_returned read_excel read_csv file_format file_content table ->
        forallb is_text (parsed_labels table) = false ->
        result body = Raise TypeError) /\
     Forall (fun ev => before_rows ev = true) (trace run) /\
     persistence_calls (trace run) = []) /\
  (forall T (to_datetime : pyval -> py T) read_excel read_csv
          (bulk_create_booking_transactions : list (Booking.t T) -> py unit)
          (bulk_create_refund_transactions : list (Refund.t T) -> py unit)
          g file_content file_name bank_name transaction_type file_format,
     In (Log ERROR (BankCodeNotFound bank_name))
        (trace (process_uploaded_files to_datetime read_excel read_csv
                  bulk_create_booking_transactions bulk_create_refund_transactions
                  g file_content file_name bank_name transaction_type file_format)) ->
     is_Some (BANK_MAPPINGS g !! bank_name)) /\
  (BANK_CODE_MAPPING shipped !! "hdfc" = Some 101%Z /\
   BANK_MAPPINGS shipped !! "hdfc" = None /\
   BANK_CODE_MAPPING shipped !! "icici" = Some 102%Z /\
   BANK_MAPPINGS shipped !! "icici" = None).
Proof.
  repeat apply conj.
  - intros T to_datetime read_excel read_csv bb br g file_content file_name bank_name
      transaction_type file_format _ Hnone body run.
    destruct (extract_without_schema to_datetime read_excel read_csv g file_content
                file_name bank_name transaction_type file_format Hnone)
      as ([e He] & Hdf & Htable).
    destruct (extract_raised to_datetime read_excel read_csv bb br _ _ _ _ _ _ _ He)
      as (Hb & Hlog & Hbefore).
    repeat apply conj; try assumption.
    + exists e. split; assumption.
    + intros df Hread. unfold body. rewrite result_process_body.
      now rewrite (Hdf df Hread).
    + intros table Hread Hl. unfold body. rewrite result_process_body.
      now rewrite (Htable table Hread Hl).
    + unfold run. rewrite persistence_calls_process_uploaded_files. now rewrite He.
  - intros T to_datetime read_excel read_csv bb br g file_content file_name bank_name
      transaction_type file_format Hguard.
    destruct (BANK_MAPPINGS g !! bank_name) as [by_type|] eqn:Hm; [eauto|].
    destruct (extract_without_schema to_datetime read_excel read_csv g file_content
                file_name bank_name transaction_type file_format Hm) as ([e He] & _).
    destruct (extract_raised to_datetime read_excel read_csv bb br _ _ _ _ _ _ _ He)
      as (_ & _ & Hbefore).
    rewrite List.Forall_forall in Hbefore. specialize (Hbefore _ Hguard). discriminate.
  - vm_compute. reflexivity.
  - vm_compute. reflexivity.
  - vm_compute. reflexivity.
  - vm_compute. reflexivity.
Qed.

Lemma bank_without_schema_fails_early_witness :
  result (process_body Sample.to_datetime (Sample.reads Sample.booking_file)
            (Sample.reads Sample.booking_file) Sample.accept Sample.accept
            shipped [] "report.csv" "hdfc" "booking" "csv")
  = Raise (KeyError "hdfc").
Proof.
  refine (proj1 (proj2 (proj1 bank_without_schema_fails_early pyval Sample.to_datetime
                          (Sample.reads Sample.booking_file)
                          (Sample.reads Sample.booking_file)
                          Sample.accept Sample.accept
                          shipped [] "report.csv" "hdfc" "booking" "csv" _ _))
            Sample.booking_file _).
  - exists 101%Z. vm_compute. reflexivity.
  - vm_compute. reflexivity.
  - right. split; reflexivity.
Defined.

(** The claim C10 as written fails where the invocation does not get as far
    as the schema lookup: with a format tag that is neither 'excel' nor
    'csv' the 'hdfc' invocation fails with "Unsupported file format", and
    with a sheet that has a header cell that is not text it fails with
    [TypeError], not with a lookup error. *)
Lemma unsupported_format_fails_before_lookup :
  BANK_CODE_MAPPING shipped !! "hdfc" = Some 101%Z /\
  BANK_MAPPINGS shipped !! "hdfc" = None /\
  result (process_body Sample.to_datetime (Sample.reads Sample.booking_file)
            (Sample.reads Sample.booking_file) Sample.accept Sample.accept
            shipped [] "report.pdf" "hdfc" "booking" "pdf")
  = Raise (ValueError UnsupportedFileFormat) /\
  result (process_body Sample.to_datetime (Sample.reads Sample.booking_file)
            (Sample.reads Sample.booking_file) Sample.accept Sample.accept
            shipped [] "report.pdf" "hdfc" "booking" "pdf")
  <> Raise (KeyError "hdfc") /\
  result (process_body Sample.to_datetime (Variants.finds Variants.numeric_header)
            (Variants.finds Variants.numeric_header) Sample.accept Sample.accept
            shipped [] "report.xlsx" "hdfc" "booking" "excel")
  = Raise TypeError.
Proof.
  repeat apply conj; try (vm_compute; reflexivity).
  vm_compute. discriminate.
Qed.

(** * Further properties of the code *)

(** ** What the loop logs *)

Lemma trace_convert_to_int {T} (val : pyval) :
  trace (@convert_to_int T val) = int_log val.
Proof.
  unfold convert_to_int, int_log.
  destruct val as [| |s|cs]; try reflexivity.
  unfold try_except, mbind, Py_bind, lift. simpl.
  destruct (String.eqb s ""); [reflexivity|]. simpl.
  destruct (PyFloat.float_of_str s) as [f|e] eqn:Ef; simpl.
  - destruct (PyFloat.int_of_float f) as [i|e] eqn:Ei; simpl; [reflexivity|].
    now rewrite (int_of_float_raises _ _ Ei).
  - now rewrite (float_of_str_raises _ _ Ef).
Qed.

Section RowLogs.
Context {T : Type} (to_datetime : pyval -> py T).

Lemma trace_booking_data (bank_code : Z) (row : Row) :
  trace (booking_data to_datetime bank_code row)
  = match booking_values to_datetime row with
    | Ret _ => int_log (row_get "irctc_order_no" row)
               ++ int_log (row_get "bank_booking_ref_no" row)
    | Raise _ => []
    end.
Proof.
  unfold booking_data, booking_values.
  rewrite trace_bind, result_lift. cbn [lift trace app].
  destruct (to_datetime (row_get "transaction_date" row)) as [td|e];
    cbn [mbind py_bind]; [|reflexivity].
  rewrite trace_bind, result_lift. cbn [lift trace app].
  destruct (to_datetime (row_get "credited_date" row)) as [cd|e];
    cbn [mbind py_bind]; [|reflexivity].
  rewrite trace_bind, result_lift. cbn [lift trace app].
  destruct (amount _) as [a|e]; cbn [mbind py_bind]; [|reflexivity].
  rewrite trace_bind, convert_to_int_result, trace_convert_to_int.
  rewrite trace_bind, convert_to_int_result, trace_convert_to_int.
  cbn [mret Py_ret trace]. now rewrite app_nil_r.
Qed.

Lemma refund_values_date (row : Row) (rd dd : T) (a : spec_float) :
  refund_values to_datetime row = Ret (rd, a, dd) ->
  to_datetime (row_get "refund_date" row) = Ret rd.
Proof.
  unfold refund_values.
  destruct (to_datetime (row_get "refund_date" row)) as [rd'|e];
    cbn [mbind py_bind]; [|discriminate].
  destruct (amount _) as [a'|e]; cbn [mbind py_bind]; [|discriminate].
  destruct (to_datetime (row_get "debited_date" row)) as [dd'|e];
    cbn [mbind py_bind]; [|discriminate].
  intros H. now inversion H.
Qed.

Lemma refund_values_date_raised (row : Row) (e : exn) :
  to_datetime (row_get "refund_date" row) = Raise e ->
  refund_values to_datetime row = Raise e.
Proof. intros H. unfold refund_values. now rewrite H. Qed.

Lemma trace_refund_data (bank_code : Z) (row : Row) :
  trace (refund_data to_datetime bank_code row)
  = match to_datetime (row_get "refund_date" row) with
    | Raise _ => []
    | Ret _ =>
        int_log (row_get "bank_booking_ref_no" row)
        ++ int_log (row_get "bank_refund_ref_no" row)
        ++ match refund_values to_datetime row with
           | Ret _ => int_log (row_get "irctc_order_no" row)
           | Raise _ => []
           end
    end.
Proof.
  unfold refund_data, refund_values.
  rewrite trace_bind, result_lift. cbn [lift trace app].
  destruct (to_datetime (row_get "refund_date" row)) as [rd|e];
    cbn [mbind py_bind]; [|reflexivity].
  rewrite trace_bind, convert_to_int_result, trace_convert_to_int.
  rewrite trace_bind, convert_to_int_result, trace_convert_to_int.
  f_equal. f_equal.
  rewrite trace_bind, result_lift. cbn [lift trace app].
  destruct (amount _) as [a|e]; cbn [mbind py_bind]; [|reflexivity].
  rewrite trace_bind, result_lift. cbn [lift trace app].
  destruct (to_datetime (row_get "debited_date" row)) as [dd|e];
    cbn [mbind py_bind]; [|reflexivity].
  rewrite trace_bind, convert_to_int_result, trace_convert_to_int.
  cbn [mret Py_ret trace]. now rewrite app_nil_r.
Qed.

(** The log of one pass of the loop body. *)
Lemma trace_process_row (bank_code : Z) (transaction_type : string)
    (bulk : Bulk) (index : nat) (row : Row) :
  trace (process_row to_datetime bank_code transaction_type bulk index row)
  = row_log to_datetime bank_code transaction_type index row.
Proof.
  unfold process_row, row_log, booking_row_log, refund_row_log.
  rewrite trace_try_except.
  destruct (String.eqb transaction_type "booking");
    [|destruct (String.eqb transaction_type "refund")].
  - rewrite trace_bind, result_bind, booking_data_result, trace_booking_data.
    destruct (booking_values _ _) as [[[td cd] a]|e]; simpl.
    + destruct (truthy _ && is_not_none _)%bool; simpl;
        rewrite ?app_nil_r, <- ?app_assoc; reflexivity.
    + now destruct e.
  - rewrite trace_bind, result_bind, refund_data_result, trace_refund_data.
    destruct (to_datetime (row_get "refund_date" row)) as [rd|e] eqn:Hrd.
    + destruct (refund_values to_datetime row) as [[[rd' a] dd]|e] eqn:Hv; simpl.
      * pose proof (refund_values_date _ _ _ _ Hv) as Hrd'. rewrite Hrd in Hrd'.
        inversion Hrd'. subst rd'.
        destruct (truthy _ && is_not_none _)%bool; simpl;
          rewrite ?app_nil_r, <- ?app_assoc; reflexivity.
      * rewrite !app_nil_r, <- app_assoc. now destruct e.
    + rewrite (refund_values_date_raised _ _ Hrd). simpl. now destruct e.
  - reflexivity.
Qed.

Lemma trace_process_rows (bank_code : Z) (transaction_type : string)
    (rows : list Row) (bulk : Bulk) (index : nat) :
  trace (process_rows to_datetime bank_code transaction_type bulk index rows)
  = rows_log to_datetime bank_code transaction_type index rows.
Proof.
  revert bulk index. induction rows as [|row rows IH]; intros bulk index; [reflexivity|].
  cbn [process_rows rows_log].
  now rewrite trace_bind, trace_process_row, process_row_result, IH.
Qed.

End RowLogs.

Lemma row_event_is_extract_stage {T} (lvl : level) (msg : log_msg T) :
  is_row_event (Log lvl msg) = true -> extract_stage msg = true.
Proof. now destruct msg. Qed.

Section LoopStage.
Context {T : Type} (to_datetime : pyval -> py T).
Variable P : event T -> Prop.
Hypothesis HL : forall lvl (msg : log_msg T),
  is_row_event (Log lvl msg) = true -> P (Log lvl msg).

Lemma Forall_int_log (val : pyval) : Forall P (int_log val).
Proof.
  unfold int_log. destruct val as [| |s|cs]; repeat constructor; try now apply HL.
  destruct (String.eqb s ""); [constructor|].
  destruct (PyFloat.float_of_str s) as [f|e]; [|repeat constructor; now apply HL].
  destruct (PyFloat.int_of_float f); repeat constructor. now apply HL.
Qed.

Lemma P_handler_record (index : nat) (row : Row) (e : exn) :
  P (handler_record index row e).
Proof. destruct e; now apply HL. Qed.

Lemma Forall_row_log (bank_code : Z) (transaction_type : string) (index : nat) (row : Row) :
  Forall P (row_log to_datetime bank_code transaction_type index row).
Proof.
  unfold row_log, booking_row_log, refund_row_log.
  destruct (String.eqb transaction_type "booking");
    [|destruct (String.eqb transaction_type "refund")].
  - destruct (booking_values _ _) as [[[td cd] a]|e];
      [|repeat constructor; apply P_handler_record].
    repeat (apply Forall_app; split); try apply Forall_int_log.
    constructor; [now apply HL|]. destruct (_ && _)%bool; repeat constructor.
    now apply HL.
  - destruct (to_datetime (row_get "refund_date" row)) as [rd|e];
      [|repeat constructor; apply P_handler_record].
    repeat (apply Forall_app; split); try apply Forall_int_log.
    destruct (refund_values _ _) as [[[rd' a] dd]|e];
      [|repeat constructor; apply P_handler_record].
    repeat (apply Forall_app; split); try apply Forall_int_log.
    constructor; [now apply HL|]. destruct (_ && _)%bool; repeat constructor.
    now apply HL.
  - constructor.
Qed.

Lemma Forall_rows_log (bank_code : Z) (transaction_type : string)
    (rows : list Row) (index : nat) :
  Forall P (rows_log to_datetime bank_code transaction_type index rows).
Proof.
  revert index. induction rows as [|row rows IH]; intros index; simpl; [constructor|].
  apply Forall_app. split; [apply Forall_row_log | apply IH].
Qed.

End LoopStage.

Section StageFacts.
Context {T : Type} (to_datetime : pyval -> py T).
Variable read_excel read_csv : list Byte.byte -> py ParsedTable.
Variable P : event T -> Prop.
Hypothesis HP : forall lvl (msg : log_msg T), extract_stage msg = true -> P (Log lvl msg).

Lemma Forall_trace_clean (s : string) : Forall P (trace (@clean_column_name T s)).
Proof. simpl. repeat constructor. now apply HP. Qed.

Lemma Forall_trace_clean_keys (items : list (string * string)) (acc : gmap string string) :
  Forall P (trace (@clean_keys T items acc)).
Proof.
  revert acc. induction items as [|[k v] items IH]; intros acc; simpl; [constructor|].
  constructor; [now apply HP | apply IH].
Qed.

(** Outside the reader, [extract] writes only the messages of
    [extract_stage]. *)
Lemma trace_extract_stage (g : Globals) (file_content : list Byte.byte)
    (file_name bank_name transaction_type file_format : string) :
  Forall P (trace (@read_file T read_excel read_csv file_content file_format)) ->
  Forall P (trace (extract to_datetime read_excel read_csv g file_content file_name
                     bank_name transaction_type file_format)).
Proof.
  intros Hread. unfold extract.
  apply Forall_trace_bind; [repeat constructor; now apply HP|]. intros _ _.
  apply Forall_trace_bind; [exact Hread|]. intros table _.
  apply Forall_trace_bind; [constructor|]. intros initial _.
  apply Forall_trace_bind; [repeat constructor; now apply HP|]. intros _ _.
  apply Forall_trace_bind; [apply Forall_trace_mapM; intros; apply Forall_trace_clean|].
  intros cleaned _.
  apply Forall_trace_bind; [repeat constructor; now apply HP|]. intros _ _.
  apply Forall_trace_bind; [constructor|]. intros schema _.
  apply Forall_trace_bind; [apply Forall_trace_mapM; intros; apply Forall_trace_clean|].
  intros expected _.
  apply Forall_trace_bind; [repeat constructor; now apply HP|]. intros _ _.
  case_decide.
  - apply Forall_trace_bind; [constructor|]. intros schema' _.
    apply Forall_trace_bind; [apply Forall_trace_clean_keys|]. intros mapping _.
    apply Forall_trace_bind; [repeat constructor; now apply HP|]. intros _ _.
    destruct (BANK_CODE_MAPPING g !! bank_name) as [bank_code|].
    + apply Forall_trace_bind; [|intros; constructor].
      rewrite trace_process_rows. apply Forall_rows_log.
      intros lvl msg Hrow. apply HP. now apply (row_event_is_extract_stage lvl).
    + apply Forall_trace_bind; [repeat constructor; now apply HP | intros; constructor].
  - apply Forall_trace_bind; [repeat constructor; now apply HP | intros; constructor].
Qed.

End StageFacts.

(** With the tag 'excel' or 'csv' the reader stage logs one debug line. *)
Lemma read_file_supported {T} (read_excel read_csv : list Byte.byte -> py ParsedTable)
    (file_content : list Byte.byte) (file_format : string) :
  file_format = "excel" \/ file_format = "csv" ->
  Forall (fun ev => is_unsupported_format ev = false)
         (trace (@read_file T read_excel read_csv file_content file_format)).
Proof.
  intros [-> | ->]; unfold read_file; simpl; rewrite ?trace_bind; simpl;
    repeat constructor.
Qed.

(** ** More on header cleaning *)

Lemma filter_length (keep : ascii -> bool) (s : string) :
  String.length (PyStr.filter keep s) <= String.length s.
Proof.
  induction s as [|c s IH]; simpl; [lia|]. destruct (keep c); simpl; lia.
Qed.

Lemma filter_idempotent (keep : ascii -> bool) (s : string) :
  PyStr.filter keep (PyStr.filter keep s) = PyStr.filter keep s.
Proof.
  rewrite filter_filter. apply filter_ext. intros c. now destruct (keep c).
Qed.

(** X1. Cleaning is idempotent: a cleaned name holds no whitespace, dot or
    underscore, cleaning it again returns it unchanged, and it is never
    longer than the header it came from. *)
Theorem clean_column_name_idempotent :
  forall T s,
  exists c,
    result (@clean_column_name T s) = Ret c /\
    result (@clean_column_name T c) = Ret c /\
    PyStr.free_of removable c /\
    String.length c <= String.length s.
Proof.
  intros T s. exists (cleaned_name s). simpl.
  rewrite !cleaned_name_is_reference. unfold clean_reference.
  repeat apply conj.
  - reflexivity.
  - now rewrite filter_idempotent.
  - apply filter_free. intros c. now destruct (removable c).
  - apply filter_length.
Qed.

(** X2. Cleaning works character by character: the cleaned name of two
    texts put together is the cleaned names of the two put together, although
    the code goes through [split], [join] and [strip]. *)
Theorem clean_column_name_concatenation :
  forall T a b,
  exists ca cb,
    result (@clean_column_name T a) = Ret ca /\
    result (@clean_column_name T b) = Ret cb /\
    result (@clean_column_name T (a ++ b)%string) = Ret (ca ++ cb)%string.
Proof.
  intros T a b. exists (cleaned_name a), (cleaned_name b). simpl.
  repeat apply conj; try reflexivity.
  rewrite !cleaned_name_is_reference. unfold clean_reference.
  now rewrite filter_app.
Qed.

(** ** Integer numerals and blanks *)

Lemma digits2_pos_size (p : positive) : digits2_pos p = Pos.size p.
Proof. induction p; simpl; congruence. Qed.

Lemma iter_xO_mul (k p : positive) : Z.pos (Pos.iter xO p k) = (Z.pos p * 2 ^ Z.pos k)%Z.
Proof.
  induction k as [|k IH] using Pos.peano_ind.
  - simpl. lia.
  - rewrite Pos.iter_succ. rewrite Pos2Z.inj_xO, IH, Pos2Z.inj_succ.
    rewrite Z.pow_succ_r by lia. lia.
Qed.

Lemma size_iter_xO (k p : positive) : Pos.size (Pos.iter xO p k) = (Pos.size p + k)%positive.
Proof.
  induction k as [|k IH] using Pos.peano_ind.
  - simpl. lia.
  - rewrite Pos.iter_succ. simpl. rewrite IH. lia.
Qed.

Lemma size_bound (p : positive) (n : Z) :
  (0 <= n)%Z -> (Z.pos p < 2 ^ n)%Z -> (Z.pos (Pos.size p) <= n)%Z.
Proof.
  intros Hn Hp.
  destruct (Z_le_gt_dec (Z.pos (Pos.size p)) n) as [H|H]; [exact H|exfalso].
  pose proof (Pos.size_le p) as Hs.
  assert (Hz : (2 ^ Z.pos (Pos.size p) <= 2 * Z.pos p)%Z).
  { change 2%Z with (Z.pos 2). rewrite <- Pos2Z.inj_pow. 
    change (Z.pos 2 * Z.pos p)%Z with (Z.pos (p~0)). apply Pos2Z.pos_le_pos. exact Hs. }
  assert (H2 : (2 ^ (n + 1) <= 2 ^ Z.pos (Pos.size p))%Z) by (apply Z.pow_le_mono_r; lia).
  rewrite Z.pow_add_r in H2 by lia. lia.
Qed.

(** An integer below 2^53 is a binary64 value, and [int] gives it back. *)
Lemma binary_round_exact (neg : bool) (p : positive) :
  (Z.pos p < 2 ^ 53)%Z ->
  exists m e,
    binary_round PyFloat.prec PyFloat.emax neg p 0 = S754_finite neg m e /\
    PyFloat.int_of_float (S754_finite neg m e) = Ret (if neg then - Z.pos p else Z.pos p)%Z.
Proof.
  intros Hp. unfold binary_round.
  rewrite digits2_pos_size.
  pose proof (size_bound p 53 ltac:(lia) Hp) as Hd.
  set (d := Pos.size p) in *.
  assert (Hfexp : fexp PyFloat.prec PyFloat.emax (Z.pos d + 0) = (Z.pos d - 53)%Z).
  { unfold fexp, emin, PyFloat.prec, PyFloat.emax. lia. }
  rewrite Hfexp. unfold shl_align.
  destruct (Z.pos d - 53 - 0)%Z as [|k|k] eqn:Hk; try lia.
  - (* d = 53 *)
    unfold binary_round_aux, shr_fexp. simpl Zdigits2. rewrite digits2_pos_size. fold d.
    assert (Hf : fexp PyFloat.prec PyFloat.emax (Z.pos d + 0) = 0%Z)
      by (rewrite Hfexp; lia).
    rewrite Hf. simpl. rewrite digits2_pos_size. fold d. rewrite Hf. simpl.
    exists p, 0%Z. split; [reflexivity|]. simpl. reflexivity.
  - (* d < 53 *)
    set (mz := Pos.iter xO p k).
    assert (Hsz : Pos.size mz = 53%positive).
    { unfold mz. rewrite size_iter_xO. fold d. lia. }
    unfold binary_round_aux, shr_fexp. simpl Zdigits2. rewrite digits2_pos_size, Hsz.
    assert (Hf : fexp PyFloat.prec PyFloat.emax (53 + (Z.pos d - 53)) = (Z.pos d - 53)%Z).
    { unfold fexp, emin, PyFloat.prec, PyFloat.emax. lia. }
    rewrite Hf, Z.sub_diag. simpl. rewrite digits2_pos_size, Hsz, Hf, Z.sub_diag. simpl.
    assert (Hle : (Z.pos d - 53 <=? PyFloat.emax - PyFloat.prec)%Z = true).
    { apply Z.leb_le. unfold PyFloat.emax, PyFloat.prec. lia. }
    rewrite Hle. exists mz, (Z.pos d - 53)%Z. split; [reflexivity|].
    unfold PyFloat.int_of_float.
    assert (He : (Z.pos d - 53 = Z.neg k)%Z) by lia.
    rewrite He. f_equal.
    assert (Hs : Z.shiftr (Z.pos mz) (Z.pos k) = Z.pos p).
    { rewrite Z.shiftr_div_pow2 by lia. unfold mz. rewrite iter_xO_mul.
      apply Z.div_mul. apply Z.pow_nonzero; lia. }
    now rewrite Hs.
Qed.

Lemma digit_facts (c : ascii) :
  PyStr.isdigit c = true ->
  PyFloat.isspace_float c = false /\
  Ascii.eqb c "_" = false /\
  PyFloat.tolower c = c /\
  Ascii.eqb c "i" = false /\ Ascii.eqb c "n" = false /\
  Ascii.eqb c "." = false /\ Ascii.eqb c "e" = false /\ Ascii.eqb c "E" = false /\
  c <> "-"%char /\ c <> "+"%char.
Proof.
  destruct c as [[] [] [] [] [] [] [] []]; intros H; try discriminate H;
    repeat apply conj; try reflexivity; discriminate.
Qed.

Lemma all_digits_free (s : string) :
  all_digits s = true -> PyStr.free_of PyFloat.isspace_float s.
Proof.
  induction s as [|c s IH]; simpl; [auto|].
  intros H. apply andb_true_iff in H as [Hc Hs]. split; [|auto].
  apply (digit_facts c Hc).
Qed.

Lemma remove_underscores_digits (s : string) (prev : option ascii) :
  all_digits s = true ->
  (s <> "" \/ prev <> Some "_"%char) ->
  PyFloat.remove_underscores prev s = Some s.
Proof.
  revert prev. induction s as [|c s IH]; intros prev Hd Hne.
  - simpl. destruct Hne as [H|H]; [congruence|].
    destruct prev as [p|]; [|reflexivity].
    destruct (Ascii.eqb_spec p "_"); [congruence|].
    destruct p as [[] [] [] [] [] [] [] []]; try reflexivity. congruence.
  - simpl in Hd. apply andb_true_iff in Hd as [Hc Hs].
    destruct (digit_facts c Hc) as (_ & Hu & _).
    cbn [PyFloat.remove_underscores]. rewrite Hu.
    assert (Hok : match prev with
                  | Some "_"%char => PyStr.isdigit c
                  | _ => true
                  end = true).
    { destruct prev as [p|]; [|reflexivity].
      destruct p as [[] [] [] [] [] [] [] []]; try reflexivity. exact Hc. }
    rewrite Hok. rewrite IH; [reflexivity | exact Hs |].
    right. intros E. inversion E. subst c. discriminate.
Qed.

Lemma span_digits_all (s : string) :
  all_digits s = true -> PyFloat.span_digits s = (s, EmptyString).
Proof.
  induction s as [|c s IH]; simpl; [reflexivity|].
  intros H. apply andb_true_iff in H as [Hc Hs]. now rewrite Hc, IH.
Qed.

Lemma parse_number_digits (neg : bool) (s : string) :
  all_digits s = true -> s <> "" ->
  PyFloat.parse_number (if neg then String "-" s else s)
  = Some (PyFloat.decimal_to_float neg (PyFloat.digits_value s) 0).
Proof.
  intros Hd Hne. destruct s as [|c s]; [congruence|].
  pose proof Hd as Hd'. simpl in Hd'. apply andb_true_iff in Hd' as [Hc Hs].
  destruct (digit_facts c Hc) as (_ & _ & Hl & Hi & Hn & _ & _ & _ & Hm & Hp).
  unfold PyFloat.parse_number.
  assert (Hsign : PyFloat.take_sign (if neg then String "-" (String c s) else String c s)
                  = (neg, String c s)).
  { destruct neg; [reflexivity|]. unfold PyFloat.take_sign.
    destruct c as [[] [] [] [] [] [] [] []]; try reflexivity; congruence. }
  rewrite Hsign. cbn [PyFloat.lower]. rewrite Hl.
  assert (H1 : String.eqb (String c (PyFloat.lower s)) "inf" = false)
    by (simpl; now rewrite Hi).
  assert (H2 : String.eqb (String c (PyFloat.lower s)) "infinity" = false)
    by (simpl; now rewrite Hi).
  assert (H3 : String.eqb (String c (PyFloat.lower s)) "nan" = false)
    by (simpl; now rewrite Hn).
  rewrite H1, H2, H3. cbn [orb].
  rewrite (span_digits_all _ Hd). cbn [PyStr.nonempty negb andb].
  rewrite string_app_empty_r. reflexivity.
Qed.

Lemma float_of_str_digits (neg : bool) (s : string) :
  all_digits s = true -> s <> "" ->
  PyFloat.float_of_str (if neg then String "-" s else s)
  = Ret (PyFloat.decimal_to_float neg (PyFloat.digits_value s) 0).
Proof.
  intros Hd Hne. unfold PyFloat.float_of_str.
  assert (Hfree : PyStr.free_of PyFloat.isspace_float (if neg then String "-" s else s)).
  { destruct neg; [split; [reflexivity|]|]; now apply all_digits_free. }
  rewrite (strip_by_free _ _ Hfree).
  assert (Hu : PyFloat.remove_underscores None (if neg then String "-" s else s)
               = Some (if neg then String "-" s else s)).
  { destruct neg; [|apply remove_underscores_digits; auto].
    cbn [PyFloat.remove_underscores]. simpl Ascii.eqb. cbn iota.
    rewrite remove_underscores_digits; auto. }
  rewrite Hu. simpl mbind. rewrite (parse_number_digits neg s Hd Hne). reflexivity.
Qed.

Lemma to_int_digits (neg : bool) (s : string) :
  all_digits s = true -> s <> "" ->
  (Z.of_N (PyFloat.digits_value s) < 2 ^ 53)%Z ->
  to_int (VStr (if neg then String "-" s else s))
  = Some (if neg then - Z.of_N (PyFloat.digits_value s) else Z.of_N (PyFloat.digits_value s))%Z.
Proof.
  intros Hd Hne Hv. unfold to_int. rewrite (float_of_str_digits neg s Hd Hne).
  unfold PyFloat.decimal_to_float.
  destruct (PyFloat.digits_value s) as [|p].
  - simpl. now destruct neg.
  - cbn [Z.leb Z.compare]. change (Z.to_pos (10 ^ 0)) with 1%positive. rewrite Pos.mul_1_r.
    destruct (binary_round_exact neg p Hv) as (m & e & Hr & Hi).
    rewrite Hr, Hi. reflexivity.
Qed.

(** X3. On a decimal integer numeral below 2^53, with or without a minus
    sign, [convert_to_int] returns exactly the integer written; above 2^53
    the detour through [float] can change it, as for 9007199254740993. *)
Theorem convert_to_int_exact_on_integers :
  (forall T s,
     all_digits s = true -> s <> "" ->
     (Z.of_N (PyFloat.digits_value s) < 2 ^ 53)%Z ->
     result (@convert_to_int T (VStr s)) = Ret (Some (Z.of_N (PyFloat.digits_value s))) /\
     result (@convert_to_int T (VStr ("-" ++ s)))
     = Ret (Some (- Z.of_N (PyFloat.digits_value s))%Z)) /\
  (forall T,
     result (@convert_to_int T (VStr "9007199254740993"))
     = Ret (Some 9007199254740992%Z)).
Proof.
  split.
  - intros T s Hd Hne Hv. rewrite !convert_to_int_result. split.
    + f_equal. exact (to_int_digits false s Hd Hne Hv).
    + f_equal. exact (to_int_digits true s Hd Hne Hv).
  - intros T. rewrite convert_to_int_result. vm_compute. reflexivity.
Qed.

Lemma convert_to_int_exact_on_integers_witness :
  result (@convert_to_int unit (VStr "0012345")) = Ret (Some 12345%Z) /\
  result (@convert_to_int unit (VStr ("-" ++ "0012345"))) = Ret (Some (- 12345)%Z).
Proof.
  apply (proj1 convert_to_int_exact_on_integers unit "0012345").
  - reflexivity.
  - discriminate.
  - vm_compute. reflexivity.
Defined.

Lemma drop_while_blank (p : ascii -> bool) (w s : string) :
  PyStr.free_of (fun c => negb (p c)) w ->
  PyStr.drop_while p (w ++ s)%string = PyStr.drop_while p s.
Proof.
  induction w as [|c w IH]; [reflexivity|].
  intros [Hc Hw]. rewrite string_app_cons. simpl.
  apply negb_false_iff in Hc. rewrite Hc. now apply IH.
Qed.

Lemma drop_while_app_blank (p : ascii -> bool) (s w : string) :
  PyStr.free_of (fun c => negb (p c)) w ->
  PyStr.drop_while p (s ++ w)%string
  = match PyStr.drop_while p s with
    | EmptyString => EmptyString
    | x => (x ++ w)%string
    end.
Proof.
  intros Hw. induction s as [|c s IH].
  - rewrite string_app_nil_l. simpl.
    rewrite <- (string_app_empty_r w), drop_while_blank by exact Hw. reflexivity.
  - rewrite string_app_cons. simpl. destruct (p c); [exact IH|].
    now rewrite string_app_cons.
Qed.

Lemma rev_onto_app (s acc : string) :
  PyStr.rev_onto s acc = (PyStr.rev s ++ acc)%string.
Proof.
  unfold PyStr.rev. revert acc. induction s as [|c s IH]; intros acc; simpl; [reflexivity|].
  rewrite (IH (String c acc)), (IH (String c EmptyString)).
  now rewrite string_app_assoc.
Qed.

Lemma rev_app (a b : string) :
  PyStr.rev (a ++ b)%string = (PyStr.rev b ++ PyStr.rev a)%string.
Proof.
  induction a as [|c a IH].
  - rewrite string_app_nil_l. simpl. unfold PyStr.rev at 3. simpl.
    now rewrite string_app_empty_r.
  - rewrite string_app_cons. unfold PyStr.rev at 1 3. simpl.
    rewrite !rev_onto_app, IH. now rewrite string_app_assoc.
Qed.

Lemma rev_blank (p : ascii -> bool) (w : string) :
  PyStr.free_of p w -> PyStr.free_of p (PyStr.rev w).
Proof. intros Hw. apply rev_onto_free; simpl; auto. Qed.

Lemma rstrip_by_blank (p : ascii -> bool) (s w : string) :
  PyStr.free_of (fun c => negb (p c)) w ->
  PyStr.rstrip_by p (s ++ w)%string = PyStr.rstrip_by p s.
Proof.
  intros Hw. unfold PyStr.rstrip_by. rewrite rev_app.
  now rewrite drop_while_blank by (now apply rev_blank).
Qed.

(** Blanks around a text do not survive [strip]. *)
Lemma strip_by_padding (p : ascii -> bool) (w1 s w2 : string) :
  PyStr.free_of (fun c => negb (p c)) w1 ->
  PyStr.free_of (fun c => negb (p c)) w2 ->
  PyStr.strip_by p (w1 ++ s ++ w2)%string = PyStr.strip_by p s.
Proof.
  intros H1 H2. unfold PyStr.strip_by, PyStr.lstrip_by.
  rewrite (drop_while_blank p w1 _ H1), (drop_while_app_blank p s w2 H2).
  destruct (PyStr.drop_while p s) as [|c x]; [reflexivity|].
  now apply rstrip_by_blank.
Qed.

Lemma float_of_str_padding (w1 s w2 : string) :
  float_blank w1 -> float_blank w2 ->
  match PyFloat.float_of_str (w1 ++ s ++ w2)%string, PyFloat.float_of_str s with
  | Ret x, Ret y => x = y
  | Raise _, Raise _ => True
  | _, _ => False
  end.
Proof.
  intros H1 H2. unfold PyFloat.float_of_str.
  rewrite (strip_by_padding _ w1 s w2 H1 H2).
  now destruct (_ ≫= _).
Qed.

(** X4. Whitespace around a cell's text ([float]'s kind: TAB..CR, SPACE,
    NEL, NBSP) changes neither the integer [convert_to_int] returns nor the
    amount: the padded text is accepted exactly when the bare text is, with
    the same value. *)
Theorem padding_is_ignored :
  forall T w1 s w2,
  float_blank w1 -> float_blank w2 ->
  result (@convert_to_int T (VStr (w1 ++ s ++ w2)))
  = result (@convert_to_int T (VStr s)) /\
  (forall a, amount (VStr (w1 ++ s ++ w2)) = Ret a <-> amount (VStr s) = Ret a).
Proof.
  intros T w1 s w2 H1 H2.
  pose proof (float_of_str_padding w1 s w2 H1 H2) as Hf.
  split.
  - rewrite !convert_to_int_result. unfold to_int.
    destruct (PyFloat.float_of_str (w1 ++ s ++ w2)), (PyFloat.float_of_str s);
      try contradiction; [now subst | reflexivity].
  - intros a. unfold amount. simpl.
    destruct (PyFloat.float_of_str (w1 ++ s ++ w2)), (PyFloat.float_of_str s);
      try contradiction; [now subst | split; discriminate].
Qed.

Lemma padding_is_ignored_witness :
  result (@convert_to_int unit (VStr (" " ++ "678.0" ++ "  ")))
  = result (@convert_to_int unit (VStr "678.0")).
Proof.
  apply (padding_is_ignored unit " " "678.0" "  "); vm_compute; auto.
Defined.

(** X5. [convert_to_int] logs at most one error record: none for [None],
    NaN, the empty text and every value it converts, exactly one (with the
    value and the exception) for every other value it turns into [None]. *)
Theorem convert_to_int_logs_failures :
  forall T val,
  (val = VNone \/ val = VNaN \/ val = VStr "" -> trace (@convert_to_int T val) = []) /\
  (forall i, result (@convert_to_int T val) = Ret (Some i) ->
             trace (@convert_to_int T val) = []) /\
  (result (@convert_to_int T val) = Ret None ->
   val <> VNone -> val <> VNaN -> val <> VStr "" ->
   exists e, trace (@convert_to_int T val)
             = [Log ERROR (ErrorConvertingValueToInt val e)]).
Proof.
  intros T val. rewrite convert_to_int_result, trace_convert_to_int.
  unfold int_log, to_int. repeat apply conj.
  - intros [-> | [-> | ->]]; reflexivity.
  - intros i Hi. destruct val as [| |s|cs]; try discriminate.
    destruct (String.eqb s ""); [reflexivity|].
    destruct (PyFloat.float_of_str s) as [f|e]; [|discriminate].
    now destruct (PyFloat.int_of_float f).
  - intros Hn H1 H2 H3. destruct val as [| |s|cs]; try congruence; [|eauto].
    destruct (String.eqb_spec s "") as [->|_]; [congruence|].
    destruct (PyFloat.float_of_str s) as [f|e]; [|eauto].
    destruct (PyFloat.int_of_float f); [discriminate | eauto].
Qed.

Lemma convert_to_int_logs_failures_witness :
  exists e, trace (@convert_to_int unit (VStr "abc"))
            = [Log ERROR (ErrorConvertingValueToInt (VStr "abc") e)].
Proof.
  apply (proj2 (proj2 (convert_to_int_logs_failures unit (VStr "abc")))).
  - vm_compute. reflexivity.
  - discriminate.
  - discriminate.
  - discriminate.
Defined.

(** ** Rows: duplicated labels, unread columns, accounting *)

Lemma row_get_series (key : string) (row : Row) :
  2 <= length (List.filter (fun kc => String.eqb kc.1 key) row) ->
  exists cells, row_get key row = VSeries cells.
Proof.
  unfold row_get. destruct (List.filter _ row) as [|x [|y l]]; simpl; intros H;
    [lia | lia | eauto].
Qed.

Lemma row_get_twice (key : string) (c1 c2 : cell) (l1 l2 l3 : Row) :
  exists cells, row_get key (l1 ++ (key, c1) :: l2 ++ (key, c2) :: l3) = VSeries cells.
Proof.
  apply row_get_series.
  rewrite List.filter_app. cbn [List.filter fst]. rewrite String.eqb_refl.
  rewrite List.filter_app. cbn [List.filter fst]. rewrite String.eqb_refl.
  rewrite !length_app. cbn [length]. rewrite !length_app. cbn [length]. lia.
Qed.

Lemma row_get_insert (key k : string) (c : cell) (l1 l2 : Row) :
  k <> key -> row_get key (l1 ++ (k, c) :: l2) = row_get key (l1 ++ l2).
Proof.
  intros Hne. unfold row_get. rewrite !List.filter_app. cbn [List.filter fst].
  destruct (String.eqb_spec k key); [contradiction | reflexivity].
Qed.

Lemma is_read_field_false (k key : string) :
  is_read_field k = false -> In key read_fields -> k <> key.
Proof.
  intros Hk Hin ->. unfold is_read_field in Hk.
  assert (H : existsb (String.eqb key) read_fields = true).
  { apply existsb_exists. exists key. split; [exact Hin | apply String.eqb_refl]. }
  congruence.
Qed.

(** X7. A row in which the label of the order number, of the type's
    reference number or of the amount occurs twice adds no record: the value
    read is then a [Series], which the integer coercion turns into [None]
    and on which the amount test raises, and that is logged as a row error
    (the only record of a booking row; it holds the [ValueError] of the
    truth test when the date conversions before the amount returned, and
    the failure of such a conversion otherwise). *)
Theorem duplicated_label_adds_nothing :
  forall T (to_datetime : pyval -> py T) bank_code bulk index c1 c2 l1 l2 l3,
  let row key := l1 ++ (key, c1) :: l2 ++ (key, c2) :: l3 in
  let booking key := process_row to_datetime bank_code "booking" bulk index (row key) in
  let refund key := process_row to_datetime bank_code "refund" bulk index (row key) in
  result (booking "irctc_order_no") = Ret bulk /\
  result (refund "irctc_order_no") = Ret bulk /\
  result (booking "bank_booking_ref_no") = Ret bulk /\
  result (refund "bank_refund_ref_no") = Ret bulk /\
  result (booking "booking_amount") = Ret bulk /\
  (exists e,
     trace (booking "booking_amount") = [handler_record index (row "booking_amount") e]) /\
  (forall td cd,
     to_datetime (row_get "transaction_date" (row "booking_amount")) = Ret td ->
     to_datetime (row_get "credited_date" (row "booking_amount")) = Ret cd ->
     trace (booking "booking_amount")
     = [Log ERROR (UnexpectedRowError index (row "booking_amount")
                     (ValueError TruthValueOfSeriesIsAmbiguous))]) /\
  result (refund "refund_amount") = Ret bulk /\
  (exists e,
     In (handler_record index (row "refund_amount") e) (trace (refund "refund_amount"))) /\
  (forall rd,
     to_datetime (row_get "refund_date" (row "refund_amount")) = Ret rd ->
     In (Log ERROR (UnexpectedRowError index (row "refund_amount")
                      (ValueError TruthValueOfSeriesIsAmbiguous)))
        (trace (refund "refund_amount"))).
Proof.
  intros T to_datetime bank_code bulk index c1 c2 l1 l2 l3 row booking refund.
  assert (Hs : forall key, exists cells, row_get key (row key) = VSeries cells)
    by (intros key; apply row_get_twice).
  destruct (Hs "irctc_order_no") as [co Ho].
  destruct (Hs "bank_booking_ref_no") as [cb Hb].
  destruct (Hs "bank_refund_ref_no") as [cr Hr].
  destruct (Hs "booking_amount") as [ca Ha].
  destruct (Hs "refund_amount") as [cf Hf].
  assert (Hba : amount (row_get "booking_amount" (row "booking_amount"))
                = Raise (ValueError TruthValueOfSeriesIsAmbiguous))
    by (now rewrite Ha).
  assert (Hra : amount (row_get "refund_amount" (row "refund_amount"))
                = Raise (ValueError TruthValueOfSeriesIsAmbiguous))
    by (now rewrite Hf).
  destruct (booking_values_rejected to_datetime _ _ Hba) as [eb Heb].
  destruct (refund_values_rejected to_datetime _ _ Hra) as [er Her].
  destruct bulk as [bs rs]. unfold booking, refund.
  repeat apply conj.
  - rewrite process_row_result.
    unfold bookings_of_row, refunds_of_row, booking_record. simpl String.eqb. cbv iota.
    destruct (booking_values _ (row "irctc_order_no")) as [[[td cd] a]|e];
      rewrite ?Ho; simpl; now rewrite ?app_nil_r.
  - rewrite process_row_result.
    unfold bookings_of_row, refunds_of_row, refund_record. simpl String.eqb. cbv iota.
    destruct (refund_values _ (row "irctc_order_no")) as [[[rd a] dd]|e];
      rewrite ?Ho; simpl; now rewrite ?app_nil_r.
  - rewrite process_row_result.
    unfold bookings_of_row, refunds_of_row, booking_record. simpl String.eqb. cbv iota.
    destruct (booking_values _ (row "bank_booking_ref_no")) as [[[td cd] a]|e];
      rewrite ?Hb; simpl; rewrite ?andb_false_r, ?app_nil_r; reflexivity.
  - rewrite process_row_result.
    unfold bookings_of_row, refunds_of_row, refund_record. simpl String.eqb. cbv iota.
    destruct (refund_values _ (row "bank_refund_ref_no")) as [[[rd a] dd]|e];
      rewrite ?Hr; simpl; rewrite ?andb_false_r, ?app_nil_r; reflexivity.
  - rewrite process_row_result.
    unfold bookings_of_row, refunds_of_row, booking_record. simpl String.eqb. cbv iota.
    rewrite Heb. simpl. now rewrite !app_nil_r.
  - exists eb. rewrite trace_process_row.
    unfold row_log, booking_row_log. simpl String.eqb. cbv iota.
    now rewrite Heb.
  - intros td cd Htd Hcd. rewrite trace_process_row.
    unfold row_log, booking_row_log. simpl String.eqb. cbv iota.
    rewrite (booking_values_returned _ _ _ _ Htd Hcd), Hba. reflexivity.
  - rewrite process_row_result.
    unfold bookings_of_row, refunds_of_row, refund_record. simpl String.eqb. cbv iota.
    rewrite Her. simpl. now rewrite !app_nil_r.
  - exists er. now apply trace_process_row_refund_rejected.
  - intros rd Hrd.
    apply (trace_process_row_refund_rejected to_datetime bank_code _ _ _
             (ValueError TruthValueOfSeriesIsAmbiguous)).
    now apply (refund_values_amount_raised _ _ rd).
Qed.

Lemma duplicated_label_adds_nothing_witness :
  trace (process_row Sample.to_datetime 40%Z "booking" ([], []) 0
           ([("transaction_date", Str "2024-10-01")] ++ ("booking_amount", Str "10")
            :: [("irctc_order_no", Str "1")] ++ ("booking_amount", Str "12")
            :: [("bank_booking_ref_no", Str "2")]))
  = [Log ERROR (UnexpectedRowError 0
                  ([("transaction_date", Str "2024-10-01")] ++ ("booking_amount", Str "10")
                   :: [("irctc_order_no", Str "1")] ++ ("booking_amount", Str "12")
                   :: [("bank_booking_ref_no", Str "2")])
                  (ValueError TruthValueOfSeriesIsAmbiguous))].
Proof.
  refine (proj1 (proj2 (proj2 (proj2 (proj2 (proj2 (proj2
            (duplicated_label_adds_nothing pyval Sample.to_datetime 40%Z ([], []) 0
               (Str "10") (Str "12") [("transaction_date", Str "2024-10-01")]
               [("irctc_order_no", Str "1")] [("bank_booking_ref_no", Str "2")])))))))
            (VStr "2024-10-01") VNone _ _); reflexivity.
Defined.

(** X8. A column whose label is none of the field names the loop reads can
    be put anywhere in a row without changing what the row adds to the two
    lists. *)
Theorem unread_columns_are_ignored :
  forall T (to_datetime : pyval -> py T) bank_code transaction_type bulk index k c l1 l2,
  is_read_field k = false ->
  result (process_row to_datetime bank_code transaction_type bulk index
            (l1 ++ (k, c) :: l2))
  = result (process_row to_datetime bank_code transaction_type bulk index (l1 ++ l2)).
Proof.
  intros T to_datetime bank_code transaction_type bulk index k c l1 l2 Hk.
  assert (Hget : forall key, In key read_fields ->
            row_get key (l1 ++ (k, c) :: l2) = row_get key (l1 ++ l2)).
  { intros key Hin. apply row_get_insert. now apply (is_read_field_false k key). }
  rewrite !process_row_result.
  unfold bookings_of_row, refunds_of_row, booking_record, refund_record,
    booking_values, refund_values.
  rewrite !Hget by (simpl; auto 12). reflexivity.
Qed.

Lemma unread_columns_are_ignored_witness :
  result (process_row Sample.to_datetime 40%Z "booking" ([], []) 0
            ([("irctc_order_no", Str "1")] ++ ("REMARKS", Str "late")
             :: [("bank_booking_ref_no", Str "2")]))
  = result (process_row Sample.to_datetime 40%Z "booking" ([], []) 0
              ([("irctc_order_no", Str "1")] ++ [("bank_booking_ref_no", Str "2")])).
Proof.
  apply (unread_columns_are_ignored pyval Sample.to_datetime 40%Z "booking" ([], []) 0
           "REMARKS" (Str "late")).
  reflexivity.
Defined.

Lemma int_log_kinds {T} (val : pyval) :
  List.filter is_row_debug (@int_log T val) = [] /\
  List.filter is_row_error (@int_log T val) = [] /\
  List.filter is_adding (@int_log T val) = [].
Proof.
  unfold int_log. destruct val as [| |s|cs]; try (repeat split; reflexivity).
  destruct (String.eqb s ""); [repeat split; reflexivity|].
  destruct (PyFloat.float_of_str s) as [f|e]; [|repeat split; reflexivity].
  destruct (PyFloat.int_of_float f); repeat split; reflexivity.
Qed.

Lemma is_row_error_handler_record {T} (index : nat) (row : Row) (e : exn) :
  is_row_error (@handler_record T index row e) = true /\
  is_row_debug (@handler_record T index row e) = false /\
  is_adding (@handler_record T index row e) = false.
Proof. destruct e; repeat split; reflexivity. Qed.

Section Accounting.
Context {T : Type} (to_datetime : pyval -> py T).

Lemma row_log_counts (bank_code : Z) (transaction_type : string) (index : nat) (row : Row) :
  transaction_type = "booking" \/ transaction_type = "refund" ->
  let tr := row_log to_datetime bank_code transaction_type index row in
  length (List.filter is_row_debug tr) + length (List.filter is_row_error tr) = 1 /\
  length (List.filter is_adding tr)
  = length (bookings_of_row to_datetime bank_code transaction_type row)
    + length (refunds_of_row to_datetime bank_code transaction_type row).
Proof.
  intros Ht.
  assert (Hi : forall v, List.filter is_row_debug (@int_log T v) = [] /\
                         List.filter is_row_error (@int_log T v) = [] /\
                         List.filter is_adding (@int_log T v) = [])
    by (intros; apply int_log_kinds).
  destruct Ht as [-> | ->]; cbv zeta;
    unfold row_log, booking_row_log, refund_row_log, bookings_of_row, refunds_of_row,
      booking_record, refund_record; simpl String.eqb; cbv iota.
  - destruct (booking_values _ _) as [[[td cd] a]|e].
    + rewrite !List.filter_app.
      rewrite !(proj1 (Hi _)), !(proj1 (proj2 (Hi _))), !(proj2 (proj2 (Hi _))).
      simpl. destruct (_ && _)%bool; simpl; split; reflexivity.
    + simpl. destruct (is_row_error_handler_record (T:=T) index row e) as (-> & -> & ->).
      split; reflexivity.
  - destruct (to_datetime (row_get "refund_date" row)) as [rd|e] eqn:Hrd.
    + rewrite !List.filter_app.
      rewrite !(proj1 (Hi _)), !(proj1 (proj2 (Hi _))), !(proj2 (proj2 (Hi _))).
      destruct (refund_values _ _) as [[[rd' a] dd]|e].
      * rewrite !List.filter_app.
        rewrite !(proj1 (Hi _)), !(proj1 (proj2 (Hi _))), !(proj2 (proj2 (Hi _))).
        simpl. destruct (_ && _)%bool; simpl; split; reflexivity.
      * simpl. destruct (is_row_error_handler_record (T:=T) index row e) as (-> & -> & ->).
        split; reflexivity.
    + rewrite (refund_values_date_raised _ _ _ Hrd). simpl.
      destruct (is_row_error_handler_record (T:=T) index row e) as (-> & -> & ->).
      split; reflexivity.
Qed.

Lemma rows_log_counts (bank_code : Z) (transaction_type : string)
    (rows : list Row) (index : nat) :
  transaction_type = "booking" \/ transaction_type = "refund" ->
  let tr := rows_log to_datetime bank_code transaction_type index rows in
  length (List.filter is_row_debug tr) + length (List.filter is_row_error tr)
  = length rows /\
  length (List.filter is_adding tr)
  = length (flat_map (bookings_of_row to_datetime bank_code transaction_type) rows)
    + length (flat_map (refunds_of_row to_datetime bank_code transaction_type) rows).
Proof.
  intros Ht. revert index. induction rows as [|row rows IH]; intros index.
  - split; reflexivity.
  - cbv zeta. cbn [rows_log flat_map length]. rewrite !List.filter_app, !length_app.
    destruct (row_log_counts bank_code transaction_type index row Ht) as [H1 H2].
    destruct (IH (S index)) as [H3 H4]. cbv zeta in H1, H2, H3, H4. lia.
Qed.

End Accounting.

(** X9. Every row of a booking or refund invocation is accounted for in
    the log: it leaves either its "Row i" debug record or a row-error
    record, never both; and the "Adding ..." records are as many as the
    records the loop appends. *)
Theorem every_row_is_accounted_for :
  forall T (to_datetime : pyval -> py T) bank_code transaction_type bulk index rows,
  transaction_type = "booking" \/ transaction_type = "refund" ->
  let run := process_rows to_datetime bank_code transaction_type bulk index rows in
  length (List.filter is_row_debug (trace run))
  + length (List.filter is_row_error (trace run)) = length rows /\
  exists bulk',
    result run = Ret bulk' /\
    length bulk'.1 + length bulk'.2
    = length bulk.1 + length bulk.2 + length (List.filter is_adding (trace run)).
Proof.
  intros T to_datetime bank_code transaction_type bulk index rows Ht run.
  unfold run. rewrite trace_process_rows, process_rows_result.
  destruct (rows_log_counts to_datetime bank_code transaction_type rows index Ht)
    as [H1 H2]. cbv zeta in H1, H2.
  split; [exact H1|]. eexists. split; [reflexivity|].
  simpl. rewrite !length_app. lia.
Qed.

Lemma every_row_is_accounted_for_witness :
  length (List.filter is_row_debug
            (trace (process_rows Sample.to_datetime 40%Z "refund" ([], []) 0
                      (iterrows Sample.refund_file))))
  + length (List.filter is_row_error
              (trace (process_rows Sample.to_datetime 40%Z "refund" ([], []) 0
                        (iterrows Sample.refund_file))))
  = length (iterrows Sample.refund_file).
Proof.
  apply (every_row_is_accounted_for pyval Sample.to_datetime 40%Z "refund" ([], []) 0
           (iterrows Sample.refund_file)).
  right. reflexivity.
Defined.

(** ** The log of a whole invocation *)

Lemma trace_emit {E} (ev : E) : trace (emit ev) = [ev].
Proof. reflexivity. Qed.

Lemma trace_lift {E A} (m : py A) : trace (lift (E:=E) m) = [].
Proof. reflexivity. Qed.

Lemma trace_raise {E A} (e : exn) : trace (raise (E:=E) (A:=A) e) = [].
Proof. reflexivity. Qed.

Lemma trace_mret {E A} (a : A) : trace (mret (M:=Py E) a) = [].
Proof. reflexivity. Qed.

(** Step through the binds at the head of a [trace]. *)
Ltac tr_step :=
  rewrite ?trace_bind, ?result_bind, ?trace_emit, ?result_emit, ?trace_lift, ?result_lift,
    ?trace_raise, ?result_raise, ?trace_mret, ?result_mret;
  cbv beta iota zeta.
Ltac tr_steps := unfold logger; repeat progress tr_step.

Lemma filter_none {A} (f : A -> bool) (l : list A) :
  Forall (fun x => f x = false) l -> List.filter f l = [].
Proof.
  induction 1 as [|x l Hx _ IH]; simpl; [reflexivity|]. now rewrite Hx.
Qed.

Section WholeLog.
Context {T : Type} (to_datetime : pyval -> py T).
Variable read_excel read_csv : list Byte.byte -> py ParsedTable.

Lemma trace_mapM_clean (l : list string) :
  trace (mapM (@clean_column_name T) l) = clean_log l.
Proof.
  induction l as [|s l IH]; [reflexivity|].
  cbn [mapM clean_log map]. rewrite trace_bind. cbn [result clean_column_name].
  simpl. rewrite trace_bind, IH, result_mapM_clean. simpl. now rewrite app_nil_r.
Qed.

Lemma trace_clean_keys (items : list (string * string)) (acc : gmap string string) :
  trace (@clean_keys T items acc) = clean_log (map fst items).
Proof.
  revert acc. induction items as [|[k v] items IH]; intros acc; [reflexivity|].
  simpl. now rewrite IH.
Qed.

(** The reader stage writes one record: which reader, or the refusal. *)
Lemma trace_read_file_shape (file_content : list Byte.byte) (file_format : string) :
  exists lvl msg,
    trace (@read_file T read_excel read_csv file_content file_format) = [Log lvl msg] /\
    extract_stage msg = false /\
    is_closing (Log lvl msg) = false /\
    is_row_event (Log lvl msg) = false.
Proof.
  unfold read_file.
  destruct (String.eqb file_format "excel"); [|destruct (String.eqb file_format "csv")];
    tr_steps; rewrite ?app_nil_r.
  - exists DEBUG, ReadingExcel. auto.
  - exists DEBUG, ReadingCsv. auto.
  - exists ERROR, (UnsupportedFormat file_format). auto.
Qed.

(** The complete log of [extract] once the file has been read. *)
Lemma trace_extract (g : Globals) (file_content : list Byte.byte)
    (file_name bank_name transaction_type file_format : string) (df : DataFrame) :
  read_as read_excel read_csv file_format file_content df ->
  trace (extract to_datetime read_excel read_csv g file_content file_name
           bank_name transaction_type file_format)
  = Log INFO (ReceivedTask file_name transaction_type)
    :: trace (@read_file T read_excel read_csv file_content file_format)
    ++ Log INFO (InitialColumns file_name (columns df))
    :: clean_log (columns df)
    ++ Log INFO (CleanedColumns (map cleaned_name (columns df)))
    :: match lookup_schema g bank_name transaction_type with
       | Raise _ => []
       | Ret schema =>
           clean_log (schema_columns schema)
           ++ Log DEBUG (ExpectedColumns (map cleaned_name (schema_columns schema)))
           :: (if decide (missing_from schema df = ∅) then
                 clean_log (map fst (column_mapping schema))
                 ++ Log INFO
                      (RenamedColumns
                         (columns
                            (rename {| columns := map cleaned_name (columns df);
                                       data := data df |}
                                    (cleaned_mapping (column_mapping schema) ∅))))
                 :: match BANK_CODE_MAPPING g !! bank_name with
                    | None => [Log ERROR (BankCodeNotFound bank_name)]
                    | Some bank_code =>
                        rows_log to_datetime bank_code transaction_type 0
                          (normalised_rows df schema)
                    end
               else [Log WARNING
                       (MissingColumns file_name (elements (missing_from schema df)))])
       end.
Proof.
  intros Hread. unfold extract. tr_steps.
  rewrite (result_read_file _ _ _ _ _ Hread). tr_steps.
  cbn [parsed parsed_labels parsed_rows]. rewrite text_labels_parsed. tr_steps.
  rewrite trace_mapM_clean, result_mapM_clean. tr_steps.
  cbn [app]. f_equal. f_equal. f_equal. f_equal. f_equal.
  destruct (lookup_schema g bank_name transaction_type) as [schema|e]; [|reflexivity].
  tr_steps. rewrite trace_mapM_clean, result_mapM_clean. tr_steps.
  cbn [app]. f_equal. f_equal.
  unfold missing_from. cbn [columns data]. case_decide; [|tr_steps; reflexivity].
  tr_steps. rewrite trace_clean_keys, result_clean_keys. tr_steps.
  cbn [app]. f_equal. f_equal.
  destruct (BANK_CODE_MAPPING g !! bank_name) as [bank_code|].
  - tr_steps. rewrite trace_process_rows, process_rows_result. tr_steps.
    now rewrite app_nil_r.
  - tr_steps. reflexivity.
Qed.

Lemma trace_extract_read_raised (g : Globals) (file_content : list Byte.byte)
    (file_name bank_name transaction_type file_format : string) (e : exn) :
  result (@read_file T read_excel read_csv file_content file_format) = Raise e ->
  trace (extract to_datetime read_excel read_csv g file_content file_name
           bank_name transaction_type file_format)
  = Log INFO (ReceivedTask file_name transaction_type)
    :: trace (@read_file T read_excel read_csv file_content file_format).
Proof.
  intros H. unfold extract. tr_steps. rewrite H. now rewrite app_nil_r.
Qed.

End WholeLog.

(** ** How an invocation closes *)

Lemma filter_clean_log {T} (f : event T -> bool) (l : list string) :
  (forall lvl s c, f (Log lvl (CleanedColumnName (T:=T) s c)) = false) ->
  List.filter f (clean_log l) = [].
Proof.
  intros Hf. induction l as [|s l IH]; [reflexivity|].
  simpl. now rewrite Hf.
Qed.

Lemma filter_rows_log {T} (to_datetime : pyval -> py T) (f : event T -> bool)
    (bank_code : Z) (transaction_type : string) (rows : list Row) (index : nat) :
  (forall lvl (msg : log_msg T), is_row_event (Log lvl msg) = true -> f (Log lvl msg) = false) ->
  List.filter f (rows_log to_datetime bank_code transaction_type index rows) = [].
Proof.
  intros Hf. apply filter_none.
  now apply (Forall_rows_log to_datetime (fun ev => f ev = false)).
Qed.

Section Closing.
Context {T : Type} (to_datetime : pyval -> py T).
Variable read_excel read_csv : list Byte.byte -> py ParsedTable.
Variable bulk_create_booking_transactions : list (Booking.t T) -> py unit.
Variable bulk_create_refund_transactions : list (Refund.t T) -> py unit.

Lemma closing_rows_log (bank_code : Z) (transaction_type : string)
    (rows : list Row) (index : nat) :
  List.filter is_closing (rows_log to_datetime bank_code transaction_type index rows) = [].
Proof. apply filter_rows_log. intros lvl msg. now destruct msg. Qed.

(** [extract] writes a closing record only at the bank-code guard. *)
Lemma closing_extract (g : Globals) (file_content : list Byte.byte)
    (file_name bank_name transaction_type file_format : string) :
  List.filter is_closing
    (trace (extract to_datetime read_excel read_csv g file_content file_name
              bank_name transaction_type file_format))
  = match result (extract to_datetime read_excel read_csv g file_content file_name
                    bank_name transaction_type file_format) with
    | Ret None => [Log ERROR (BankCodeNotFound bank_name)]
    | _ => []
    end.
Proof.
  destruct (trace_read_file_shape (T:=T) read_excel read_csv file_content file_format)
    as (lvl & msg & Htr & _ & Hc & _).
  destruct (extract_cases to_datetime read_excel read_csv g file_content file_name
              bank_name transaction_type file_format) as [[df Hread]|[e [He Hte]]].
  - rewrite (trace_extract _ _ _ _ _ _ _ _ _ _ Hread).
    rewrite (extract_result _ _ _ _ _ _ _ _ _ _ Hread), Htr.
    cbn [List.filter app is_closing is_finished is_file_error is_guard_event orb].
    rewrite Hc. rewrite List.filter_app, filter_clean_log by reflexivity.
    cbn [List.filter app is_closing is_finished is_file_error is_guard_event orb].
    destruct (lookup_schema g bank_name transaction_type) as [schema|e]; [|reflexivity].
    rewrite List.filter_app, filter_clean_log by reflexivity.
    cbn [List.filter app is_closing is_finished is_file_error is_guard_event orb].
    case_decide; [|reflexivity].
    rewrite List.filter_app, filter_clean_log by reflexivity.
    cbn [List.filter app is_closing is_finished is_file_error is_guard_event orb].
    destruct (BANK_CODE_MAPPING g !! bank_name) as [bank_code|]; [|reflexivity].
    apply closing_rows_log.
  - rewrite Hte, He, Htr.
    cbn [List.filter app is_closing is_finished is_file_error is_guard_event orb].
    now rewrite Hc.
Qed.

(** [persist] writes "Finished" exactly when neither bulk insert raises. *)
Lemma closing_persist (file_name : string) (bulk : Bulk) :
  List.filter is_closing
    (trace (persist bulk_create_booking_transactions bulk_create_refund_transactions
              file_name bulk))
  = match result (persist bulk_create_booking_transactions
                    bulk_create_refund_transactions file_name bulk) with
    | Ret _ => [Log INFO Finished]
    | Raise _ => []
    end.
Proof.
  destruct bulk as [bs rs]. unfold persist.
  destruct bs as [|b bs], rs as [|r rs]; tr_steps; simpl.
  - reflexivity.
  - destruct (bulk_create_refund_transactions (r :: rs)) as [[]|e]; reflexivity.
  - destruct (bulk_create_booking_transactions (b :: bs)) as [[]|e]; reflexivity.
  - destruct (bulk_create_booking_transactions (b :: bs)) as [[]|e]; [|reflexivity].
    simpl. destruct (bulk_create_refund_transactions (r :: rs)) as [[]|e]; reflexivity.
Qed.

End Closing.

(** X14. Every invocation writes exactly one closing record: the bank-code
    guard's error when [extract] returns at the guard, "Finished processing"
    when the lists were handed over without an exception, and the file-level
    handler's error record, with the exception, in every other case. *)
Theorem one_closing_record :
  forall T (to_datetime : pyval -> py T) read_excel read_csv
         (bulk_create_booking_transactions : list (Booking.t T) -> py unit)
         (bulk_create_refund_transactions : list (Refund.t T) -> py unit)
         g file_content file_name bank_name transaction_type file_format,
  List.filter is_closing
    (trace (process_uploaded_files to_datetime read_excel read_csv
              bulk_create_booking_transactions bulk_create_refund_transactions
              g file_content file_name bank_name transaction_type file_format))
  = [match result (extract to_datetime read_excel read_csv g file_content file_name
                     bank_name transaction_type file_format) with
     | Ret None => Log ERROR (BankCodeNotFound bank_name)
     | Ret (Some bulk) =>
         match result (persist bulk_create_booking_transactions
                         bulk_create_refund_transactions file_name bulk) with
         | Ret _ => Log INFO Finished
         | Raise e => Log ERROR (ErrorProcessingFile file_name e)
         end
     | Raise e => Log ERROR (ErrorProcessingFile file_name e)
     end].
Proof.
  intros T to_datetime read_excel read_csv bb br g file_content file_name bank_name
    transaction_type file_format.
  rewrite trace_process_uploaded_files, trace_process_body, result_process_body.
  rewrite !List.filter_app, closing_extract.
  destruct (result (extract _ _ _ _ _ _ _ _ _)) as [[bulk|]|e]; try reflexivity.
  rewrite closing_persist.
  destruct (result (persist bb br file_name bulk)) as [[]|e]; reflexivity.
Qed.

(** ** What is handed to the models *)

Section Handed.
Context {T : Type} (to_datetime : pyval -> py T).

Lemma bookings_of_row_ok (bank_code : Z) (transaction_type : string) (rows : list Row) :
  Forall (booking_ok bank_code)
         (flat_map (bookings_of_row to_datetime bank_code transaction_type) rows).
Proof.
  induction rows as [|row rows IH]; simpl; [constructor|].
  apply Forall_app. split; [|exact IH].
  unfold bookings_of_row, booking_record.
  destruct (String.eqb transaction_type "booking"); [|constructor].
  destruct (booking_values _ _) as [[[td cd] a]|e]; [|constructor].
  destruct (to_int (row_get "irctc_order_no" row)) as [o|]; [|constructor].
  destruct (to_int (row_get "bank_booking_ref_no" row)) as [r|];
    [|rewrite andb_false_r; constructor].
  simpl. destruct (Z.eqb_spec o 0); simpl; repeat constructor; simpl; eauto.
Qed.

Lemma refunds_of_row_ok (bank_code : Z) (transaction_type : string) (rows : list Row) :
  Forall (refund_ok bank_code)
         (flat_map (refunds_of_row to_datetime bank_code transaction_type) rows).
Proof.
  induction rows as [|row rows IH]; simpl; [constructor|].
  apply Forall_app. split; [|exact IH].
  unfold refunds_of_row, refund_record.
  destruct (String.eqb transaction_type "booking"); [constructor|].
  destruct (String.eqb transaction_type "refund"); [|constructor].
  destruct (refund_values _ _) as [[[rd a] dd]|e]; [|constructor].
  destruct (to_int (row_get "irctc_order_no" row)) as [o|]; [|constructor].
  destruct (to_int (row_get "bank_refund_ref_no" row)) as [r|];
    [|rewrite andb_false_r; constructor].
  simpl. destruct (Z.eqb_spec o 0); simpl; repeat constructor; simpl; eauto.
Qed.

End Handed.

(** X6. Every record handed to a bulk insert passed the emission test and
    carries the bank's code: a booking batch is handed over only by a
    'booking' invocation, is not empty, and each of its records has the code
    of the bank, an order number that is a non-zero integer and a booking
    reference that is an integer; likewise for refund batches. *)
Theorem handed_records_are_valid :
  forall T (to_datetime : pyval -> py T) read_excel read_csv
         (bulk_create_booking_transactions : list (Booking.t T) -> py unit)
         (bulk_create_refund_transactions : list (Refund.t T) -> py unit)
         g file_content file_name bank_name transaction_type file_format ev,
  In ev (trace (process_uploaded_files to_datetime read_excel read_csv
                  bulk_create_booking_transactions bulk_create_refund_transactions
                  g file_content file_name bank_name transaction_type file_format)) ->
  match ev with
  | BulkCreateBookingTransactions records =>
      transaction_type = "booking" /\ records <> [] /\
      exists bank_code,
        BANK_CODE_MAPPING g !! bank_name = Some bank_code /\
        Forall (booking_ok bank_code) records
  | BulkCreateRefundTransactions records =>
      transaction_type = "refund" /\ records <> [] /\
      exists bank_code,
        BANK_CODE_MAPPING g !! bank_name = Some bank_code /\
        Forall (refund_ok bank_code) records
  | Log _ _ => True
  end.
Proof.
  intros T to_datetime read_excel read_csv bb br g file_content file_name bank_name
    transaction_type file_format ev Hin.
  destruct ev as [lvl msg|records|records]; [exact I| |].
  - assert (Hp : In (BulkCreateBookingTransactions records)
                    (persistence_calls
                       (trace (process_uploaded_files to_datetime read_excel read_csv bb br
                                 g file_content file_name bank_name transaction_type
                                 file_format))))
      by (apply List.filter_In; auto).
    rewrite persistence_calls_process_uploaded_files in Hp.
    destruct (result (extract _ _ _ _ _ _ _ _ _)) as [[bulk|]|e] eqn:He;
      try (now destruct Hp).
    apply extract_Some_inv in He.
    destruct He as (df & schema & bank_code & _ & _ & _ & Hcode & ->).
    unfold calls_for in Hp. cbn [fst snd] in Hp.
    apply in_app_or in Hp as [Hp|Hp].
    + destruct (flat_map (bookings_of_row _ _ _) _) as [|b bs] eqn:Hb; [destruct Hp|].
      destruct Hp as [Hp|[]]. inversion Hp as [Hrec].
      repeat apply conj.
      * destruct (String.eqb_spec transaction_type "booking") as [|Hne]; [assumption|].
        rewrite (bookings_of_row_other to_datetime bank_code transaction_type _ Hne) in Hb.
        discriminate.
      * discriminate.
      * exists bank_code. split; [exact Hcode|]. rewrite <- Hb.
        apply bookings_of_row_ok.
    + destruct (flat_map (refunds_of_row _ _ _) _); [destruct Hp|].
      now destruct Hp as [Hp|[]].
  - assert (Hp : In (BulkCreateRefundTransactions records)
                    (persistence_calls
                       (trace (process_uploaded_files to_datetime read_excel read_csv bb br
                                 g file_content file_name bank_name transaction_type
                                 file_format))))
      by (apply List.filter_In; auto).
    rewrite persistence_calls_process_uploaded_files in Hp.
    destruct (result (extract _ _ _ _ _ _ _ _ _)) as [[bulk|]|e] eqn:He;
      try (now destruct Hp).
    apply extract_Some_inv in He.
    destruct He as (df & schema & bank_code & _ & _ & _ & Hcode & ->).
    unfold calls_for in Hp. cbn [fst snd] in Hp.
    apply in_app_or in Hp as [Hp|Hp].
    + destruct (flat_map (bookings_of_row _ _ _) _); [destruct Hp|].
      now destruct Hp as [Hp|[]].
    + destruct (flat_map (refunds_of_row _ _ _) _) as [|r rs] eqn:Hr; [destruct Hp|].
      destruct Hp as [Hp|[]]. inversion Hp as [Hrec].
      repeat apply conj.
      * destruct (String.eqb_spec transaction_type "refund") as [|Hne]; [assumption|].
        rewrite (refunds_of_row_other to_datetime bank_code transaction_type _ Hne) in Hr.
        discriminate.
      * discriminate.
      * exists bank_code. split; [exact Hcode|]. rewrite <- Hr.
        apply refunds_of_row_ok.
Qed.

Lemma handed_records_are_valid_witness :
  "booking" = "booking" /\
  [Booking.mk 40%Z (VStr "2024-10-01") (VStr "2024-10-03") PyFloat.zero
     (Some 12345%Z) (Some 678%Z);
   Booking.mk 40%Z (VStr "2024-10-01") VNaN
     (S754_finite false 5295247999369216 (-45)) (Some 12346%Z) (Some 679%Z)] <> [] /\
  exists bank_code,
    BANK_CODE_MAPPING shipped !! "karur_vysya" = Some bank_code /\
    Forall (booking_ok bank_code)
      [Booking.mk 40%Z (VStr "2024-10-01") (VStr "2024-10-03") PyFloat.zero
         (Some 12345%Z) (Some 678%Z);
       Booking.mk 40%Z (VStr "2024-10-01") VNaN
         (S754_finite false 5295247999369216 (-45)) (Some 12346%Z) (Some 679%Z)].
Proof.
  refine (handed_records_are_valid pyval Sample.to_datetime
            (Sample.reads Sample.booking_file) (Sample.reads Sample.booking_file)
            Sample.accept Sample.accept shipped [] "report.csv" "karur_vysya" "booking" "csv"
            (BulkCreateBookingTransactions _) _).
  vm_compute. auto 50.
Defined.

(** X13. An invocation calls a bulk insert at most once. *)
Theorem at_most_one_bulk_insert :
  forall T (to_datetime : pyval -> py T) read_excel read_csv
         (bulk_create_booking_transactions : list (Booking.t T) -> py unit)
         (bulk_create_refund_transactions : list (Refund.t T) -> py unit)
         g file_content file_name bank_name transaction_type file_format,
  length (persistence_calls
            (trace (process_uploaded_files to_datetime read_excel read_csv
                      bulk_create_booking_transactions bulk_create_refund_transactions
                      g file_content file_name bank_name transaction_type file_format)))
  <= 1.
Proof.
  intros T to_datetime read_excel read_csv bb br g file_content file_name bank_name
    transaction_type file_format.
  rewrite persistence_calls_process_uploaded_files.
  destruct (result (extract _ _ _ _ _ _ _ _ _)) as [[bulk|]|e] eqn:He; simpl; try lia.
  destruct (extract_one_list_empty _ _ _ _ _ _ _ _ _ _ He) as [Hb Hr].
  unfold calls_for.
  destruct (String.eqb_spec transaction_type "booking") as [->|Hne].
  - rewrite Hr by discriminate. rewrite app_nil_r. destruct bulk.1; simpl; lia.
  - rewrite (Hb Hne). destruct bulk.2; simpl; lia.
Qed.

(** ** The column check, the schema lookup and the bank-code guard *)

(** The column check passes exactly when every required label has a column
    with the same cleaned name. *)
Lemma missing_from_empty_iff (schema : Schema) (df : DataFrame) :
  missing_from schema df = ∅ <->
  forall r, In r (schema_columns schema) ->
            exists c, In c (columns df) /\ cleaned_name c = cleaned_name r.
Proof.
  unfold missing_from, missing_columns. split.
  - intros E r Hr.
    assert (Hin : cleaned_name r ∈ (list_to_set (map cleaned_name (columns df)) : gset string)).
    { destruct (decide (cleaned_name r
                        ∈ (list_to_set (map cleaned_name (columns df)) : gset string)))
        as [H|H]; [exact H|exfalso].
      apply (not_elem_of_empty (C := gset string) (cleaned_name r)).
      rewrite <- E. apply elem_of_difference. split; [|exact H].
      apply elem_of_list_to_set, list_elem_of_In, in_map, Hr. }
    apply elem_of_list_to_set, list_elem_of_In, in_map_iff in Hin.
    destruct Hin as (c & Hc & Hin). eauto.
  - intros H. apply leibniz_equiv. intros x. split; [|intros Hx; now apply not_elem_of_empty in Hx].
    intros Hx. apply elem_of_difference in Hx as [H1 H2]. exfalso. apply H2.
    apply elem_of_list_to_set, list_elem_of_In, in_map_iff in H1.
    destruct H1 as (r & <- & Hr). destruct (H r Hr) as (c & Hc & <-).
    apply elem_of_list_to_set, list_elem_of_In, in_map, Hc.
Qed.

Section Outcomes.
Context {T : Type} (to_datetime : pyval -> py T).
Variable read_excel read_csv : list Byte.byte -> py ParsedTable.
Variable bulk_create_booking_transactions : list (Booking.t T) -> py unit.
Variable bulk_create_refund_transactions : list (Refund.t T) -> py unit.

(** A failed schema lookup makes [extract] raise: in the lookup if the file
    was read and its labels are text, before it otherwise. *)
Lemma extract_lookup_raised (g : Globals) (file_content : list Byte.byte)
    (file_name bank_name transaction_type file_format : string) (e : exn) :
  lookup_schema g bank_name transaction_type = Raise e ->
  exists e',
    result (extract to_datetime read_excel read_csv g file_content file_name
              bank_name transaction_type file_format) = Raise e'.
Proof.
  intros Hl.
  destruct (extract_cases to_datetime read_excel read_csv g file_content file_name
              bank_name transaction_type file_format) as [[df Hread]|[e' [He _]]].
  - exists e. now rewrite (extract_result _ _ _ _ _ _ _ _ _ _ Hread), Hl.
  - eauto.
Qed.

(** [extract] returns at the bank-code guard only past the column check. *)
Lemma extract_None_inv (g : Globals) (file_content : list Byte.byte)
    (file_name bank_name transaction_type file_format : string) :
  result (extract to_datetime read_excel read_csv g file_content file_name
            bank_name transaction_type file_format) = Ret None ->
  exists df schema,
    read_as read_excel read_csv file_format file_content df /\
    lookup_schema g bank_name transaction_type = Ret schema /\
    missing_from schema df = ∅ /\
    BANK_CODE_MAPPING g !! bank_name = None.
Proof.
  destruct (extract_cases to_datetime read_excel read_csv g file_content file_name
              bank_name transaction_type file_format) as [[df Hread]|[e [He _]]].
  - rewrite (extract_result _ _ _ _ _ _ _ _ _ _ Hread).
    destruct (lookup_schema g bank_name transaction_type) as [schema|e]; [|discriminate].
    case_decide as Hm; [|discriminate].
    destruct (BANK_CODE_MAPPING g !! bank_name) as [bank_code|] eqn:Hc; [discriminate|].
    intros _. exists df, schema. auto.
  - rewrite He. discriminate.
Qed.

(** A guard record in the log means [extract] returned at the guard. *)
Lemma guard_record_inv (g : Globals) (file_content : list Byte.byte)
    (file_name bank_name transaction_type file_format : string) (ev : event T) :
  In ev (trace (process_uploaded_files to_datetime read_excel read_csv
                  bulk_create_booking_transactions bulk_create_refund_transactions
                  g file_content file_name bank_name transaction_type file_format)) ->
  is_guard_event ev = true ->
  ev = Log ERROR (BankCodeNotFound bank_name) /\
  result (extract to_datetime read_excel read_csv g file_content file_name
            bank_name transaction_type file_format) = Ret None.
Proof.
  intros Hin Hg.
  assert (Hc : In ev (List.filter is_closing
                        (trace (process_uploaded_files to_datetime read_excel read_csv
                                  bulk_create_booking_transactions
                                  bulk_create_refund_transactions
                                  g file_content file_name bank_name transaction_type
                                  file_format)))).
  { apply List.filter_In. split; [exact Hin|]. unfold is_closing. rewrite Hg.
    now rewrite !orb_true_r. }
  rewrite trace_process_uploaded_files, trace_process_body, result_process_body in Hc.
  rewrite !List.filter_app, closing_extract in Hc.
  destruct (result (extract _ _ _ _ _ _ _ _ _)) as [[bulk|]|e].
  - rewrite closing_persist in Hc.
    destruct (result (persist _ _ _ _)) as [[]|e]; simpl in Hc;
      repeat (destruct Hc as [Hc|Hc]; [subst ev; discriminate Hg|]); destruct Hc.
  - simpl in Hc. destruct Hc as [<-|[]]. auto.
  - simpl in Hc.
    repeat (destruct Hc as [Hc|Hc]; [subst ev; discriminate Hg|]); destruct Hc.
Qed.

(** A row record in the log means the loop was entered. *)
Lemma row_record_inv (g : Globals) (file_content : list Byte.byte)
    (file_name bank_name transaction_type file_format : string) (ev : event T) :
  In ev (trace (process_uploaded_files to_datetime read_excel read_csv
                  bulk_create_booking_transactions bulk_create_refund_transactions
                  g file_content file_name bank_name transaction_type file_format)) ->
  is_row_event ev = true ->
  exists bulk,
    result (extract to_datetime read_excel read_csv g file_content file_name
              bank_name transaction_type file_format) = Ret (Some bulk).
Proof.
  intros Hin Hrow.
  destruct (result (extract to_datetime read_excel read_csv g file_content file_name
                      bank_name transaction_type file_format)) as [[bulk|]|e] eqn:He.
  - eauto.
  - exfalso. apply extract_None_inv in He.
    destruct He as (df & schema & Hread & Hs & Hm & Hc).
    revert Hin.
    rewrite trace_process_uploaded_files, result_process_body, trace_process_body.
    assert (He : result (extract to_datetime read_excel read_csv g file_content file_name
                           bank_name transaction_type file_format) = Ret None).
    { rewrite (extract_result _ _ _ _ _ _ _ _ _ _ Hread), Hs.
      case_decide; [|contradiction]. now rewrite Hc. }
    rewrite He, !app_nil_r.
    rewrite (trace_extract _ _ _ _ _ _ _ _ _ _ Hread), Hs.
    case_decide; [|contradiction]. rewrite Hc.
    destruct (trace_read_file_shape (T:=T) read_excel read_csv file_content file_format)
      as (lvl & msg & -> & _ & _ & Hr).
    intros Hin.
    assert (Hcl : forall l, ~ In ev (clean_log l)).
    { intros l Hl. unfold clean_log in Hl. apply in_map_iff in Hl as (s & <- & _).
      discriminate Hrow. }
    cbn [app] in Hin.
    repeat match goal with
           | H : In ev (_ :: _) |- _ => destruct H as [<-|H]; [congruence || discriminate Hrow|]
           | H : In ev (_ ++ _) |- _ => apply in_app_or in H as [H|H]; [now apply Hcl in H|]
           | H : In ev [] |- _ => destruct H
           end.
  - exfalso.
    destruct (extract_raised to_datetime read_excel read_csv
                bulk_create_booking_transactions bulk_create_refund_transactions
                _ _ _ _ _ _ _ He) as (_ & _ & Hbefore).
    rewrite List.Forall_forall in Hbefore. specialize (Hbefore _ Hin).
    unfold before_rows in Hbefore. now rewrite Hrow in Hbefore.
Qed.

End Outcomes.

(** X10. Headers are matched after cleaning: in a table whose labels are
    all text, when every required label of the schema has a column that
    differs from it only in whitespace, dots and underscores, the column
    check passes and [extract] raises nothing, whatever other columns the
    file has and in whatever order.  A table with a label that is not text
    makes [extract] raise [TypeError] at line 83, whatever its columns. *)
Theorem headers_are_matched_after_cleaning :
  (forall T (to_datetime : pyval -> py T) read_excel read_csv
          g file_content file_name bank_name transaction_type file_format df schema,
   read_as read_excel read_csv file_format file_content df ->
   lookup_schema g bank_name transaction_type = Ret schema ->
   (forall r, In r (schema_columns schema) ->
              exists c, In c (columns df) /\ differ_only_in_removable r c) ->
   missing_from schema df = ∅ /\
   exists r,
     result (extract to_datetime read_excel read_csv g file_content file_name
               bank_name transaction_type file_format) = Ret r) /\
  (forall T (to_datetime : pyval -> py T) read_excel read_csv
          g file_content file_name bank_name transaction_type file_format table,
   reader_returned read_excel read_csv file_format file_content table ->
   forallb is_text (parsed_labels table) = false ->
   result (extract to_datetime read_excel read_csv g file_content file_name
             bank_name transaction_type file_format) = Raise TypeError).
Proof.
  split.
  - intros T to_datetime read_excel read_csv g file_content file_name bank_name
      transaction_type file_format df schema Hread Hs Hcols.
    assert (Hm : missing_from schema df = ∅).
    { apply missing_from_empty_iff. intros r Hr. destruct (Hcols r Hr) as (c & Hc & Hd).
      exists c. split; [exact Hc|]. rewrite !cleaned_name_is_reference.
      symmetry. now apply clean_reference_differ. }
    split; [exact Hm|].
    rewrite (extract_result _ _ _ _ _ _ _ _ _ _ Hread), Hs.
    case_decide; [|contradiction].
    destruct (BANK_CODE_MAPPING g !! bank_name); eauto.
  - intros T to_datetime read_excel read_csv g file_content file_name bank_name
      transaction_type file_format table Hread Hl.
    now destruct (extract_not_text to_datetime read_excel read_csv g _ file_name bank_name
                    transaction_type _ _ Hread Hl).
Qed.

Lemma loose_file_matches (r : string) :
  In r (schema_columns karur_vysya_booking) ->
  exists c, In c (columns Variants.loose_file) /\ differ_only_in_removable r c.
Proof.
  intros [<-|[<-|[<-|[<-|[<-|[]]]]]].
  - exists "TXN_DATE". split; [simpl; auto 10 | differ_tac].
  - exists " IRCTC ORDER NO". split; [simpl; auto 10 | differ_tac].
  - exists "BANK.BOOKING.REF.NO". split; [simpl; auto 10 | differ_tac].
  - exists "BOOKING  AMOUNT". split; [simpl; auto 10 | differ_tac].
  - exists "CREDITED ON.". split; [simpl; auto 10 | differ_tac].
Qed.

Lemma headers_are_matched_after_cleaning_witness :
  (missing_from karur_vysya_booking Variants.loose_file = ∅ /\
   exists r,
     result (extract Sample.to_datetime (Sample.reads Variants.loose_file)
               (Sample.reads Variants.loose_file) shipped [] "report.csv"
               "karur_vysya" "booking" "csv") = Ret r) /\
  result (extract Sample.to_datetime (Variants.finds Variants.numeric_header)
            (Variants.finds Variants.numeric_header) shipped [] "report.xlsx"
            "karur_vysya" "booking" "excel") = Raise TypeError.
Proof.
  split.
  - refine (proj1 headers_are_matched_after_cleaning pyval Sample.to_datetime
              (Sample.reads Variants.loose_file) (Sample.reads Variants.loose_file)
              shipped [] "report.csv" "karur_vysya" "booking" "csv"
              Variants.loose_file karur_vysya_booking _ _ _).
    + right. split; reflexivity.
    + vm_compute. reflexivity.
    + exact loose_file_matches.
  - refine (proj2 headers_are_matched_after_cleaning pyval Sample.to_datetime
              (Variants.finds Variants.numeric_header)
              (Variants.finds Variants.numeric_header)
              shipped [] "report.xlsx" "karur_vysya" "booking" "excel"
              Variants.numeric_header _ _).
    + left. split; reflexivity.
    + reflexivity.
Defined.

(** X11. A transaction type for which the bank has no schema fails the
    file: at the schema lookup, with the [KeyError] of the type, when the
    file was read and its labels are all text, and at line 83, with
    [TypeError], when it was read and a label is not text; the handler logs
    the exception, no row is walked and nothing is handed to the models.  So
    the loop is entered only with a type that has a schema, whatever the
    type's name. *)
Theorem unknown_transaction_type_fails_the_file :
  forall T (to_datetime : pyval -> py T) read_excel read_csv
         (bulk_create_booking_transactions : list (Booking.t T) -> py unit)
         (bulk_create_refund_transactions : list (Refund.t T) -> py unit)
         g file_content file_name bank_name transaction_type file_format,
  let body := process_body to_datetime read_excel read_csv
                bulk_create_booking_transactions bulk_create_refund_transactions
                g file_content file_name bank_name transaction_type file_format in
  let run := process_uploaded_files to_datetime read_excel read_csv
               bulk_create_booking_transactions bulk_create_refund_transactions
               g file_content file_name bank_name transaction_type file_format in
  (forall df by_type,
     read_as read_excel read_csv file_format file_content df ->
     BANK_MAPPINGS g !! bank_name = Some by_type ->
     by_type !! transaction_type = None ->
     result body = Raise (KeyError transaction_type) /\
     In (Log ERROR (ErrorProcessingFile file_name (KeyError transaction_type))) (trace run) /\
     Forall (fun ev => before_rows ev = true) (trace run) /\
     persistence_calls (trace run) = []) /\
  (forall table,
     reader_returned read_excel read_csv file_format file_content table ->
     forallb is_text (parsed_labels table) = false ->
     result body = Raise TypeError /\
     In (Log ERROR (ErrorProcessingFile file_name TypeError)) (trace run) /\
     Forall (fun ev => before_rows ev = true) (trace run) /\
     persistence_calls (trace run) = []) /\
  (forall ev,
     In ev (trace run) -> is_row_event ev = true ->
     exists schema, lookup_schema g bank_name transaction_type = Ret schema).
Proof.
  intros T to_datetime read_excel read_csv bb br g file_content file_name bank_name
    transaction_type file_format body run.
  assert (Hraised : forall e,
            result (extract to_datetime read_excel read_csv g file_content file_name
                      bank_name transaction_type file_format) = Raise e ->
            result body = Raise e /\
            In (Log ERROR (ErrorProcessingFile file_name e)) (trace run) /\
            Forall (fun ev => before_rows ev = true) (trace run) /\
            persistence_calls (trace run) = []).
  { intros e He.
    destruct (extract_raised to_datetime read_excel read_csv bb br _ _ _ _ _ _ _ He)
      as (Hbody & Hlog & Hbefore).
    repeat apply conj; try assumption.
    unfold run. rewrite persistence_calls_process_uploaded_files. now rewrite He. }
  repeat apply conj.
  - intros df by_type Hread Hb Ht.
    assert (Hl : lookup_schema g bank_name transaction_type
                 = Raise (KeyError transaction_type)).
    { unfold lookup_schema, getitem. rewrite Hb. simpl. now rewrite Ht. }
    apply Hraised.
    now rewrite (extract_result _ _ _ _ _ _ _ _ _ _ Hread), Hl.
  - intros table Hread Hl. apply Hraised.
    now destruct (extract_not_text to_datetime read_excel read_csv g _ file_name bank_name
                    transaction_type _ _ Hread Hl).
  - intros ev Hin Hrow.
    destruct (row_record_inv to_datetime read_excel read_csv bb br _ _ _ _ _ _ _ Hin Hrow)
      as [bulk He].
    apply extract_Some_inv in He. destruct He as (df & schema & bank_code & _ & Hs & _).
    eauto.
Qed.

Lemma unknown_transaction_type_fails_the_file_witness :
  result (process_body Sample.to_datetime (Sample.reads Sample.booking_file)
            (Sample.reads Sample.booking_file) Sample.accept Sample.accept
            shipped [] "report.csv" "karur_vysya" "cancellation" "csv")
  = Raise (KeyError "cancellation").
Proof.
  refine (proj1 (proj1 (unknown_transaction_type_fails_the_file pyval Sample.to_datetime
                          (Sample.reads Sample.booking_file)
                          (Sample.reads Sample.booking_file)
                          Sample.accept Sample.accept
                          shipped [] "report.csv" "karur_vysya" "cancellation" "csv")
                   Sample.booking_file
                   (<["booking" := karur_vysya_booking]>
                      (<["refund" := karur_vysya_refund]> ∅)) _ _ _)).
  - right. split; reflexivity.
  - vm_compute. reflexivity.
  - vm_compute. reflexivity.
Defined.

Lemma snoc_shape {A} (a b c d e x : A) (r l1 l2 l3 : list A) :
  a :: r ++ b :: l1 ++ c :: (l2 ++ d :: (l3 ++ e :: [x]))
  = (a :: r ++ b :: l1 ++ c :: l2 ++ d :: l3 ++ [e]) ++ [x].
Proof.
  cbn [app]. f_equal.
  repeat (rewrite <- app_assoc; cbn [app]; do 2 f_equal).
Qed.

Lemma Forall_clean_log {T} (P : event T -> Prop) (l : list string) :
  (forall s c, P (Log DEBUG (CleanedColumnName s c))) -> Forall P (clean_log l).
Proof.
  intros H. unfold clean_log. induction l as [|s l IH]; simpl; constructor; auto.
Qed.

(** X12. The bank-code guard is reached exactly when the file was read, its
    labels are all text, the schema found, no column missing, and the bank
    has no code.  The task then returns without an exception: the guard's
    error record is the last record of the log, no row was walked, nothing
    was handed to the models, and neither "Finished processing" nor a
    file-level error is logged.  With a label that is not text the guard is
    not reached. *)
Theorem bank_code_guard_outcome :
  forall T (to_datetime : pyval -> py T) read_excel read_csv
         (bulk_create_booking_transactions : list (Booking.t T) -> py unit)
         (bulk_create_refund_transactions : list (Refund.t T) -> py unit)
         g file_content file_name bank_name transaction_type file_format,
  let body := process_body to_datetime read_excel read_csv
                bulk_create_booking_transactions bulk_create_refund_transactions
                g file_content file_name bank_name transaction_type file_format in
  let run := process_uploaded_files to_datetime read_excel read_csv
               bulk_create_booking_transactions bulk_create_refund_transactions
               g file_content file_name bank_name transaction_type file_format in
  let reached :=
    exists df schema,
      read_as read_excel read_csv file_format file_content df /\
      lookup_schema g bank_name transaction_type = Ret schema /\
      missing_from schema df = ∅ /\
      BANK_CODE_MAPPING g !! bank_name = None in
  (Exists (fun ev => is_guard_event ev = true) (trace run) <-> reached) /\
  (reached ->
   result body = Ret tt /\
   exists before,
     trace run = before ++ [Log ERROR (BankCodeNotFound bank_name)] /\
     Forall (fun ev => is_row_event ev = false /\ is_persistence_call ev = false /\
                       is_closing ev = false) before) /\
  (forall table,
     reader_returned read_excel read_csv file_format file_content table ->
     forallb is_text (parsed_labels table) = false ->
     Forall (fun ev => is_guard_event ev = false) (trace run)).
Proof.
  intros T to_datetime read_excel read_csv bb br g file_content file_name bank_name
    transaction_type file_format body run reached.
  assert (Hout : reached ->
            result body = Ret tt /\
            exists before,
              trace run = before ++ [Log ERROR (BankCodeNotFound bank_name)] /\
              Forall (fun ev => is_row_event ev = false /\ is_persistence_call ev = false /\
                                is_closing ev = false) before).
  { intros (df & schema & Hread & Hs & Hm & Hc).
    assert (He : result (extract to_datetime read_excel read_csv g file_content file_name
                           bank_name transaction_type file_format) = Ret None).
    { rewrite (extract_result _ _ _ _ _ _ _ _ _ _ Hread), Hs.
      case_decide; [|contradiction]. now rewrite Hc. }
    assert (Hb : result body = Ret tt)
      by (unfold body; now rewrite result_process_body, He).
    split; [exact Hb|].
    unfold run. fold body.
    rewrite trace_process_uploaded_files. fold body. rewrite Hb. unfold body.
    rewrite trace_process_body, He, !app_nil_r.
    rewrite (trace_extract _ _ _ _ _ _ _ _ _ _ Hread), Hs.
    case_decide; [|contradiction]. rewrite Hc.
    destruct (trace_read_file_shape (T:=T) read_excel read_csv file_content file_format)
      as (lvl & msg & -> & _ & Hcl & Hr).
    eexists. split; [apply snoc_shape|].
    assert (Hlog : forall l : list string,
                Forall (fun ev : event T =>
                          is_row_event ev = false /\ is_persistence_call ev = false /\
                          is_closing ev = false) (clean_log l))
        by (intros l; apply Forall_clean_log; intros; repeat apply conj; reflexivity).
    assert (Hread_ok : forall ev : event T,
              ev = Log lvl msg ->
              is_row_event ev = false /\ is_persistence_call ev = false /\
              is_closing ev = false)
      by (intros ev ->; auto).
    repeat first [ apply Forall_nil_2
                 | apply Forall_cons; split;
                   [first [now apply Hread_ok | repeat apply conj; reflexivity]|]
                 | apply Forall_app; split; [apply Hlog|] ]. }
  repeat apply conj.
  - intros Hex. apply Exists_exists in Hex as (ev & Hin & Hg).
    apply list_elem_of_In in Hin.
    destruct (guard_record_inv to_datetime read_excel read_csv bb br _ _ _ _ _ _ _ Hin Hg)
      as [_ He].
    now apply extract_None_inv in He.
  - intros Hr. destruct (Hout Hr) as (_ & before & -> & _).
    apply Exists_app. right. now constructor.
  - exact Hout.
  - intros table Hread Hl.
    destruct (extract_not_text to_datetime read_excel read_csv g _ file_name bank_name
                transaction_type _ _ Hread Hl) as [He _].
    destruct (extract_raised to_datetime read_excel read_csv bb br _ _ _ _ _ _ _ He)
      as (_ & _ & Hbefore).
    apply List.Forall_forall. intros ev Hin.
    rewrite List.Forall_forall in Hbefore. specialize (Hbefore ev Hin).
    unfold before_rows in Hbefore.
    destruct (is_guard_event ev); [|reflexivity].
    now rewrite andb_false_r in Hbefore.
Qed.

Lemma bank_code_guard_outcome_witness :
  result (process_body Sample.to_datetime (Sample.reads Sample.booking_file)
            (Sample.reads Sample.booking_file) Sample.accept Sample.accept
            Variants.uncoded [] "report.csv" "karur_vysya" "booking" "csv")
  = Ret tt.
Proof.
  refine (proj1 (proj1 (proj2 (bank_code_guard_outcome pyval Sample.to_datetime
                                 (Sample.reads Sample.booking_file)
                                 (Sample.reads Sample.booking_file)
                                 Sample.accept Sample.accept
                                 Variants.uncoded [] "report.csv" "karur_vysya" "booking"
                                 "csv"))
                   _)).
  exists Sample.booking_file, karur_vysya_booking. repeat apply conj.
  - right. split; reflexivity.
  - vm_compute. reflexivity.
  - apply missing_from_empty_iff. intros r Hr. exists r. split; [exact Hr | reflexivity].
  - vm_compute. reflexivity.
Defined.

Lemma shipped_schema_inv (bank_name transaction_type : string) (schema : Schema) :
  lookup_schema shipped bank_name transaction_type = Ret schema ->
  bank_name = "karur_vysya" /\
  (transaction_type = "booking" \/ transaction_type = "refund").
Proof.
  unfold lookup_schema, getitem, shipped. cbn [BANK_MAPPINGS].
  destruct (String.eqb_spec bank_name "karur_vysya") as [->|Hb].
  - rewrite lookup_insert. simpl.
    destruct (String.eqb_spec transaction_type "booking") as [->|Ht]; [auto|].
    rewrite lookup_insert_ne by congruence.
    destruct (String.eqb_spec transaction_type "refund") as [->|Hr]; [auto|].
    rewrite lookup_insert_ne by congruence. rewrite lookup_empty. discriminate.
  - rewrite lookup_insert_ne by congruence. rewrite lookup_empty. discriminate.
Qed.

(** X17. With the tables as shipped, every invocation for a pair other than
    ('karur_vysya', 'booking') and ('karur_vysya', 'refund') ends in a
    file-level error with nothing handed to the models, and the bank-code
    guard is never reached, for any pair: the one bank that has schemas has
    a code. *)
Theorem shipped_tables_serve_one_bank :
  forall T (to_datetime : pyval -> py T) read_excel read_csv
         (bulk_create_booking_transactions : list (Booking.t T) -> py unit)
         (bulk_create_refund_transactions : list (Refund.t T) -> py unit)
         file_content file_name bank_name transaction_type file_format,
  let run := process_uploaded_files to_datetime read_excel read_csv
               bulk_create_booking_transactions bulk_create_refund_transactions
               shipped file_content file_name bank_name transaction_type file_format in
  Forall (fun ev => is_guard_event ev = false) (trace run) /\
  ((bank_name = "karur_vysya" /\
    (transaction_type = "booking" \/ transaction_type = "refund")) \/
   (persistence_calls (trace run) = [] /\
    Forall (fun ev => before_rows ev = true) (trace run) /\
    exists e, In (Log ERROR (ErrorProcessingFile file_name e)) (trace run))).
Proof.
  intros T to_datetime read_excel read_csv bb br file_content file_name bank_name
    transaction_type file_format run. split.
  - apply List.Forall_forall. intros ev Hin.
    destruct (is_guard_event ev) eqn:Hg; [exfalso|reflexivity].
    destruct (guard_record_inv to_datetime read_excel read_csv bb br _ _ _ _ _ _ _ Hin Hg)
      as [_ He].
    apply extract_None_inv in He. destruct He as (df & schema & _ & Hs & _ & Hc).
    apply shipped_schema_inv in Hs as [-> _]. vm_compute in Hc. discriminate.
  - destruct (lookup_schema shipped bank_name transaction_type) as [schema|e] eqn:Hs.
    + left. now apply (shipped_schema_inv _ _ schema).
    + right.
      destruct (extract_lookup_raised to_datetime read_excel read_csv shipped file_content
                  file_name bank_name transaction_type file_format e Hs) as [e' He].
      destruct (extract_raised to_datetime read_excel read_csv bb br _ _ _ _ _ _ _ He)
        as (_ & Hlog & Hbefore).
      repeat apply conj.
      * unfold run. rewrite persistence_calls_process_uploaded_files. now rewrite He.
      * exact Hbefore.
      * eauto.
Qed.

(** ** Fields of a checked file *)

Lemma in_zip_left {A B} (x : A) (l : list A) (l' : list B) :
  In x l -> length l' = length l -> exists y, In (x, y) (zip l l').
Proof.
  revert l'. induction l as [|a l IH]; intros l' Hin Hlen; [destruct Hin|].
  destruct l' as [|b l']; [discriminate|]. simpl in Hlen.
  destruct Hin as [->|Hin].
  - exists b. now left.
  - destruct (IH l' Hin ltac:(lia)) as [y Hy]. exists y. now right.
Qed.

Lemma row_get_not_none (key : string) (c : cell) (row : Row) :
  In (key, c) row -> row_get key row <> VNone.
Proof.
  intros Hin. unfold row_get.
  assert (Hf : In (key, c) (List.filter (fun kc => String.eqb kc.1 key) row)).
  { apply List.filter_In. split; [exact Hin|]. apply String.eqb_refl. }
  destruct (List.filter _ row) as [|kc [|kc' l]]; [destruct Hf| |discriminate].
  now destruct kc.2.
Qed.

(** X18. What the column check buys: in a table as pandas builds it (one
    cell per column in every row) that passed the check, every row the loop
    walks has a value under the field name of each required column, so
    [row.get] does not fall back to [None] there; with the shipped
    karur_vysya schemas that covers every field the loop reads for the
    type. *)
Theorem checked_columns_are_present :
  (forall df schema r field row,
     well_formed df ->
     missing_from schema df = ∅ ->
     In r (schema_columns schema) ->
     cleaned_mapping (column_mapping schema) ∅ !! cleaned_name r = Some field ->
     In row (normalised_rows df schema) ->
     row_get field row <> VNone) /\
  (forall df row,
     well_formed df ->
     missing_from karur_vysya_booking df = ∅ ->
     In row (normalised_rows df karur_vysya_booking) ->
     Forall (fun field => row_get field row <> VNone)
       ["transaction_date"; "credited_date"; "booking_amount"; "irctc_order_no";
        "bank_booking_ref_no"]) /\
  (forall df row,
     well_formed df ->
     missing_from karur_vysya_refund df = ∅ ->
     In row (normalised_rows df karur_vysya_refund) ->
     Forall (fun field => row_get field row <> VNone)
       ["refund_date"; "bank_booking_ref_no"; "bank_refund_ref_no"; "refund_amount";
        "debited_date"; "irctc_order_no"]).
Proof.
  assert (Hgen : forall df schema r field row,
            well_formed df ->
            missing_from schema df = ∅ ->
            In r (schema_columns schema) ->
            cleaned_mapping (column_mapping schema) ∅ !! cleaned_name r = Some field ->
            In row (normalised_rows df schema) ->
            row_get field row <> VNone).
  { intros df schema r field row Hwf Hm Hr Hfield Hrow.
    unfold normalised_rows, iterrows in Hrow. cbn [columns data rename] in Hrow.
    apply in_map_iff in Hrow as (cells & <- & Hcells).
    destruct (proj1 (missing_from_empty_iff schema df) Hm r Hr) as (c & Hc & Hcr).
    unfold well_formed in Hwf. rewrite List.Forall_forall in Hwf.
    specialize (Hwf cells Hcells).
    set (m := cleaned_mapping (column_mapping schema) ∅) in *.
    assert (Hin : In field (map (fun c => default c (m !! c))
                              (map cleaned_name (columns df)))).
    { apply in_map_iff. exists (cleaned_name c). split; [|now apply in_map].
      now rewrite Hcr, Hfield. }
    destruct (in_zip_left field _ cells Hin) as [y Hy];
      [now rewrite !length_map|].
    now apply (row_get_not_none field y). }
  split; [exact Hgen|]. split.
  - intros df row Hwf Hm Hrow.
    repeat constructor.
    + apply (Hgen df karur_vysya_booking "TXN DATE");
        [assumption | assumption | simpl; auto 10 | vm_compute; reflexivity | assumption].
    + apply (Hgen df karur_vysya_booking "CREDITED ON");
        [assumption | assumption | simpl; auto 10 | vm_compute; reflexivity | assumption].
    + apply (Hgen df karur_vysya_booking "BOOKING AMOUNT");
        [assumption | assumption | simpl; auto 10 | vm_compute; reflexivity | assumption].
    + apply (Hgen df karur_vysya_booking "IRCTC ORDER NO.");
        [assumption | assumption | simpl; auto 10 | vm_compute; reflexivity | assumption].
    + apply (Hgen df karur_vysya_booking "BANK BOOKING REF.NO.");
        [assumption | assumption | simpl; auto 10 | vm_compute; reflexivity | assumption].
  - intros df row Hwf Hm Hrow.
    repeat constructor.
    + apply (Hgen df karur_vysya_refund "REFUND DATE");
        [assumption | assumption | simpl; auto 10 | vm_compute; reflexivity | assumption].
    + apply (Hgen df karur_vysya_refund "BANK BOOKING REF.NO.");
        [assumption | assumption | simpl; auto 10 | vm_compute; reflexivity | assumption].
    + apply (Hgen df karur_vysya_refund "BANK REFUND REF.NO.");
        [assumption | assumption | simpl; auto 10 | vm_compute; reflexivity | assumption].
    + apply (Hgen df karur_vysya_refund "REFUND AMOUNT");
        [assumption | assumption | simpl; auto 10 | vm_compute; reflexivity | assumption].
    + apply (Hgen df karur_vysya_refund "DEBITED ON");
        [assumption | assumption | simpl; auto 10 | vm_compute; reflexivity | assumption].
    + apply (Hgen df karur_vysya_refund "IRCTC ORDER NO.");
        [assumption | assumption | simpl; auto 10 | vm_compute; reflexivity | assumption].
Qed.

Lemma booking_file_checked :
  well_formed Sample.booking_file /\
  missing_from karur_vysya_booking Sample.booking_file = ∅.
Proof.
  split.
  - repeat constructor.
  - apply missing_from_empty_iff. intros r Hr. exists r. split; [exact Hr | reflexivity].
Qed.

Lemma checked_columns_are_present_witness :
  row_get "irctc_order_no"
    [("transaction_date", Str "2024-10-01"); ("irctc_order_no", Str "12345");
     ("bank_booking_ref_no", Str "678.0"); ("booking_amount", NaN);
     ("credited_date", Str "2024-10-03")] <> VNone.
Proof.
  refine (proj1 checked_columns_are_present Sample.booking_file karur_vysya_booking
            "IRCTC ORDER NO." "irctc_order_no" _
            (proj1 booking_file_checked) (proj2 booking_file_checked) _ _ _).
  - simpl. auto.
  - vm_compute. reflexivity.
  - vm_compute. auto.
Defined.

(** ** The upload view *)

(** [endswith] holds exactly of the texts that have the suffix at their
    end. *)
Lemma endswith_spec (s suffix : string) :
  endswith s suffix = true <-> exists stem, s = (stem ++ suffix)%string.
Proof.
  induction s as [|c s IH]; cbn [endswith].
  - rewrite orb_false_r. split.
    + intros H. apply String.eqb_eq in H. exists "". now rewrite string_app_nil_l.
    + intros [stem H]. apply String.eqb_eq.
      destruct stem as [|c stem]; [now rewrite string_app_nil_l in H|].
      rewrite string_app_cons in H. discriminate.
  - split.
    + intros H. apply orb_true_iff in H as [H|H].
      * apply String.eqb_eq in H. exists "". now rewrite string_app_nil_l.
      * apply IH in H as [stem ->]. exists (String c stem). now rewrite string_app_cons.
    + intros [stem H]. apply orb_true_iff.
      destruct stem as [|c' stem].
      * left. apply String.eqb_eq. now rewrite string_app_nil_l in H.
      * right. rewrite string_app_cons in H. injection H as _ Hs. apply IH. eauto.
Qed.

Section ViewFacts.
Context {PostData : Type}.
Variable cleaned_data :
  PostData -> gmap string (list Views.UploadedFile) -> option (gmap string string).
Variable delay : Views.Task -> py unit.

Lemma tasks_of_app (tr1 tr2 : list Views.view_event) :
  Views.tasks_of (tr1 ++ tr2) = Views.tasks_of tr1 ++ Views.tasks_of tr2.
Proof. apply omap_app. Qed.

Lemma result_enqueue_all_cons (b t : string) (file : Views.UploadedFile)
    (rest : list Views.UploadedFile) :
  result (Views.enqueue_all delay b t (file :: rest))
  = match delay (Views.task_for b t file) with
    | Ret _ => result (Views.enqueue_all delay b t rest)
    | Raise e => Raise e
    end.
Proof.
  cbn [Views.enqueue_all]. py_steps.
  destruct (delay (Views.task_for b t file)); reflexivity.
Qed.

Lemma tasks_of_enqueue_all_cons (b t : string) (file : Views.UploadedFile)
    (rest : list Views.UploadedFile) :
  Views.tasks_of (trace (Views.enqueue_all delay b t (file :: rest)))
  = Views.task_for b t file
    :: match delay (Views.task_for b t file) with
       | Ret _ => Views.tasks_of (trace (Views.enqueue_all delay b t rest))
       | Raise e => []
       end.
Proof.
  cbn [Views.enqueue_all]. tr_steps.
  destruct (delay (Views.task_for b t file)); cbn [app]; rewrite ?app_nil_r; reflexivity.
Qed.

(** With a queue that accepts them, every file becomes a task, in order. *)
Lemma enqueue_all_accepted (b t : string) (files : list Views.UploadedFile) :
  (forall file, In file files -> delay (Views.task_for b t file) = Ret tt) ->
  result (Views.enqueue_all delay b t files) = Ret tt /\
  Views.tasks_of (trace (Views.enqueue_all delay b t files))
  = map (Views.task_for b t) files.
Proof.
  induction files as [|file rest IH]; intros Hd; [split; reflexivity|].
  rewrite result_enqueue_all_cons, tasks_of_enqueue_all_cons.
  rewrite (Hd file) by now left.
  destruct IH as [IH1 IH2]; [intros f Hf; apply Hd; now right|].
  split; [exact IH1 | cbn [map]; now rewrite IH2].
Qed.

(** The first task the queue refuses ends the loop. *)
Lemma enqueue_all_refused (b t : string) (before : list Views.UploadedFile)
    (file : Views.UploadedFile) (after : list Views.UploadedFile) (e : exn) :
  (forall f, In f before -> delay (Views.task_for b t f) = Ret tt) ->
  delay (Views.task_for b t file) = Raise e ->
  result (Views.enqueue_all delay b t (before ++ file :: after)) = Raise e /\
  Views.tasks_of (trace (Views.enqueue_all delay b t (before ++ file :: after)))
  = map (Views.task_for b t) (before ++ [file]).
Proof.
  intros Hb He. induction before as [|f before IH]; cbn [app].
  - rewrite result_enqueue_all_cons, tasks_of_enqueue_all_cons, He. split; reflexivity.
  - rewrite result_enqueue_all_cons, tasks_of_enqueue_all_cons.
    rewrite (Hb f) by now left.
    destruct IH as [IH1 IH2]; [intros f' Hf'; apply Hb; now right|].
    split; [exact IH1 | cbn [map]; now rewrite IH2].
Qed.

(** Every task of the loop is the task of one of the files. *)
Lemma enqueue_all_tasks (b t : string) (files : list Views.UploadedFile)
    (task : Views.Task) :
  In task (Views.tasks_of (trace (Views.enqueue_all delay b t files))) ->
  exists file, In file files /\ task = Views.task_for b t file.
Proof.
  induction files as [|file rest IH]; [intros []|].
  rewrite tasks_of_enqueue_all_cons. intros [<-|Hin].
  - exists file. split; [now left | reflexivity].
  - destruct (delay (Views.task_for b t file)); [|destruct Hin].
    destruct (IH Hin) as (f & Hf & ->). exists f. split; [now right | reflexivity].
Qed.

(** The request of a valid POST submission. *)
Lemma upload_files_valid (request : Views.HttpRequest PostData)
    (data : gmap string string) (b t : string) :
  Views.method request = "POST" ->
  cleaned_data (Views.POST request) (Views.FILES request) = Some data ->
  data !! "bank_name" = Some b ->
  data !! "transaction_type" = Some t ->
  result (Views.upload_files cleaned_data delay request)
  = match result (Views.enqueue_all delay b t
                    (Views.getlist (Views.FILES request) "file")) with
    | Ret _ =>
        Ret (Views.JsonResponse "Files uploaded successfully. Processing started." 202%Z)
    | Raise e => Raise e
    end /\
  trace (Views.upload_files cleaned_data delay request)
  = trace (Views.enqueue_all delay b t (Views.getlist (Views.FILES request) "file")).
Proof.
  intros Hm Hc Hb Ht. unfold Views.upload_files, getitem.
  rewrite Hm, Hc, Hb, Ht. cbn [String.eqb Ascii.eqb Bool.eqb].
  tr_steps. cbn [app].
  destruct (result (Views.enqueue_all delay b t _)) as [[]|e];
    rewrite ?app_nil_r; split; reflexivity.
Qed.

(** Every task the view enqueues is the task of an uploaded file. *)
Lemma upload_files_tasks (request : Views.HttpRequest PostData) (task : Views.Task) :
  In task (Views.tasks_of (trace (Views.upload_files cleaned_data delay request))) ->
  Views.method request = "POST" /\
  exists data b t file,
    cleaned_data (Views.POST request) (Views.FILES request) = Some data /\
    data !! "bank_name" = Some b /\
    data !! "transaction_type" = Some t /\
    In file (Views.getlist (Views.FILES request) "file") /\
    task = Views.task_for b t file.
Proof.
  destruct (String.eqb_spec (Views.method request) "POST") as [Hm|Hm].
  - destruct (cleaned_data (Views.POST request) (Views.FILES request)) as [data|] eqn:Hc.
    + destruct (data !! "bank_name") as [b|] eqn:Hb.
      * destruct (data !! "transaction_type") as [t|] eqn:Ht.
        -- rewrite (proj2 (upload_files_valid request data b t Hm Hc Hb Ht)).
           intros Hin. apply enqueue_all_tasks in Hin as (file & Hf & ->).
           split; [exact Hm|]. exists data, b, t, file. auto.
        -- unfold Views.upload_files, getitem.
           rewrite Hm, Hc, Hb, Ht. cbn [String.eqb Ascii.eqb Bool.eqb]. intros [].
      * unfold Views.upload_files, getitem.
        rewrite Hm, Hc, Hb. cbn [String.eqb Ascii.eqb Bool.eqb]. intros [].
    + unfold Views.upload_files. rewrite Hm, Hc. intros [].
  - unfold Views.upload_files.
    destruct (String.eqb_spec (Views.method request) "POST"); [contradiction|]. intros [].
Qed.

End ViewFacts.

(** X15. A POST with a valid form enqueues one task per file uploaded under
    the key 'file', in upload order, each with the file's bytes and name,
    the form's bank and transaction type and the tag 'excel' or 'csv', and
    answers 202 "Processing started" when the queue accepts them; also when
    no file was uploaded at all, in which case nothing is enqueued. *)
Theorem every_uploaded_file_is_enqueued :
  forall PostData
         (cleaned_data : PostData -> gmap string (list Views.UploadedFile)
                         -> option (gmap string string))
         (delay : Views.Task -> py unit)
         (request : Views.HttpRequest PostData) data bank_name transaction_type,
  Views.method request = "POST" ->
  cleaned_data (Views.POST request) (Views.FILES request) = Some data ->
  data !! "bank_name" = Some bank_name ->
  data !! "transaction_type" = Some transaction_type ->
  (forall task, delay task = Ret tt) ->
  let run := Views.upload_files cleaned_data delay request in
  result run
  = Ret (Views.JsonResponse "Files uploaded successfully. Processing started." 202%Z) /\
  Views.tasks_of (trace run)
  = map (fun file =>
           {| Views.file_content := Views.content file;
              Views.file_name := Views.name file;
              Views.bank_name := bank_name;
              Views.transaction_type := transaction_type;
              Views.file_format :=
                if endswith (Views.name file) ".xlsx" then "excel" else "csv" |})
        (default [] (Views.FILES request !! "file")).
Proof.
  intros PostData cleaned_data delay request data b t Hm Hc Hb Ht Hd run.
  destruct (upload_files_valid cleaned_data delay request data b t Hm Hc Hb Ht)
    as [Hres Htr].
  destruct (enqueue_all_accepted delay b t (Views.getlist (Views.FILES request) "file"))
    as [He Hts]; [intros; apply Hd|].
  unfold run. rewrite Hres, Htr, He, Hts. split; reflexivity.
Qed.

Lemma every_uploaded_file_is_enqueued_witness :
  Views.tasks_of
    (trace (Views.upload_files Views.sample_form Views.accept_task
              (Views.sample_request "POST")))
  = [ {| Views.file_content := []; Views.file_name := "march.xlsx";
         Views.bank_name := "karur_vysya"; Views.transaction_type := "booking";
         Views.file_format := "excel" |};
      {| Views.file_content := []; Views.file_name := "april.csv";
         Views.bank_name := "karur_vysya"; Views.transaction_type := "booking";
         Views.file_format := "csv" |} ].
Proof.
  refine (proj2 (every_uploaded_file_is_enqueued unit Views.sample_form Views.accept_task
                   (Views.sample_request "POST")
                   (<["bank_name" := "karur_vysya"]> (<["transaction_type" := "booking"]> ∅))
                   "karur_vysya" "booking" _ _ _ _ _)).
  - reflexivity.
  - reflexivity.
  - vm_compute. reflexivity.
  - vm_compute. reflexivity.
  - reflexivity.
Defined.

(** X16. When the queue refuses a task, the view raises the queue's
    exception instead of answering: the files before the refused one are
    already enqueued, the files after it never are. *)
Theorem refused_task_aborts_the_request :
  forall PostData
         (cleaned_data : PostData -> gmap string (list Views.UploadedFile)
                         -> option (gmap string string))
         (delay : Views.Task -> py unit)
         (request : Views.HttpRequest PostData) data bank_name transaction_type
         before file after e,
  Views.method request = "POST" ->
  cleaned_data (Views.POST request) (Views.FILES request) = Some data ->
  data !! "bank_name" = Some bank_name ->
  data !! "transaction_type" = Some transaction_type ->
  Views.FILES request !! "file" = Some (before ++ file :: after) ->
  (forall f, In f before ->
             delay (Views.task_for bank_name transaction_type f) = Ret tt) ->
  delay (Views.task_for bank_name transaction_type file) = Raise e ->
  let run := Views.upload_files cleaned_data delay request in
  result run = Raise e /\
  Views.tasks_of (trace run)
  = map (Views.task_for bank_name transaction_type) (before ++ [file]).
Proof.
  intros PostData cleaned_data delay request data b t before file after e
    Hm Hc Hb Ht Hf Hbefore He run.
  destruct (upload_files_valid cleaned_data delay request data b t Hm Hc Hb Ht)
    as [Hres Htr].
  assert (Hg : Views.getlist (Views.FILES request) "file" = before ++ file :: after)
    by (unfold Views.getlist; now rewrite Hf).
  unfold run. rewrite Hres, Htr, Hg.
  destruct (enqueue_all_refused delay b t before file after e Hbefore He) as [H1 H2].
  now rewrite H1, H2.
Qed.

Lemma refused_task_aborts_the_request_witness :
  result (Views.upload_files Views.sample_form
            (fun task => if String.eqb (Views.file_format task) "csv"
                         then Raise OverflowError else Ret tt)
            (Views.sample_request "POST"))
  = Raise OverflowError.
Proof.
  refine (proj1 (refused_task_aborts_the_request unit Views.sample_form
                   (fun task => if String.eqb (Views.file_format task) "csv"
                                then Raise OverflowError else Ret tt)
                   (Views.sample_request "POST")
                   (<["bank_name" := "karur_vysya"]> (<["transaction_type" := "booking"]> ∅))
                   "karur_vysya" "booking"
                   [ {| Views.name := "march.xlsx"; Views.content := [] |} ]
                   {| Views.name := "april.csv"; Views.content := [] |} []
                   OverflowError _ _ _ _ _ _ _)).
  - reflexivity.
  - reflexivity.
  - vm_compute. reflexivity.
  - vm_compute. reflexivity.
  - vm_compute. reflexivity.
  - intros f [<-|[]]. reflexivity.
  - reflexivity.
Defined.

(** X19. A request that is not a POST, or whose form is not valid, enqueues
    nothing, prints nothing and gets the upload page: with a fresh form for
    the former, with the submitted (bound) form for the latter.  Whatever the
    request, a task is enqueued only for a file of a valid POST. *)
Theorem only_valid_posts_enqueue :
  forall PostData
         (cleaned_data : PostData -> gmap string (list Views.UploadedFile)
                         -> option (gmap string string))
         (delay : Views.Task -> py unit)
         (request : Views.HttpRequest PostData),
  let run := Views.upload_files cleaned_data delay request in
  (Views.method request <> "POST" ->
   trace run = [] /\ result run = Ret (Views.render "upload.html" Views.Unbound)) /\
  (Views.method request = "POST" ->
   cleaned_data (Views.POST request) (Views.FILES request) = None ->
   trace run = [] /\
   result run
   = Ret (Views.render "upload.html"
            (Views.Bound (Views.POST request) (Views.FILES request)))) /\
  (Views.tasks_of (trace run) <> [] ->
   Views.method request = "POST" /\
   is_Some (cleaned_data (Views.POST request) (Views.FILES request)) /\
   Views.getlist (Views.FILES request) "file" <> []).
Proof.
  intros PostData cleaned_data delay request run. repeat apply conj.
  - intros Hm. unfold run, Views.upload_files.
    destruct (String.eqb_spec (Views.method request) "POST"); [contradiction|].
    split; reflexivity.
  - intros Hm Hc. unfold run, Views.upload_files. rewrite Hm, Hc. split; reflexivity.
  - intros Hne.
    destruct (Views.tasks_of (trace run)) as [|task l] eqn:Ht; [congruence|].
    assert (Hin : In task (Views.tasks_of (trace run))) by (rewrite Ht; now left).
    apply upload_files_tasks in Hin as (Hm & data & b & t & file & Hc & _ & _ & Hf & _).
    repeat apply conj; [exact Hm | eauto |].
    intros E. rewrite E in Hf. destruct Hf.
Qed.

Lemma only_valid_posts_enqueue_witness :
  trace (Views.upload_files Views.sample_form Views.accept_task
           (Views.sample_request "GET")) = [] /\
  result (Views.upload_files Views.sample_form Views.accept_task
            (Views.sample_request "GET"))
  = Ret (Views.render "upload.html" Views.Unbound).
Proof.
  apply (proj1 (only_valid_posts_enqueue unit Views.sample_form Views.accept_task
                  (Views.sample_request "GET"))).
  discriminate.
Defined.

Section ReaderLogs.
Context {T : Type} (to_datetime : pyval -> py T).
Variable read_excel read_csv : list Byte.byte -> py ParsedTable.
Variable bulk_create_booking_transactions : list (Booking.t T) -> py unit.
Variable bulk_create_refund_transactions : list (Refund.t T) -> py unit.

Lemma persist_supported (file_name : string) (bulk : Bulk) :
  Forall (fun ev => is_unsupported_format ev = false)
         (trace (persist bulk_create_booking_transactions
                   bulk_create_refund_transactions file_name bulk)).
Proof.
  destruct bulk as [bs rs]. unfold persist.
  destruct bs as [|b bs], rs as [|r rs]; tr_steps; cbn [app].
  - repeat constructor.
  - destruct (bulk_create_refund_transactions (r :: rs)) as [[]|e]; repeat constructor.
  - destruct (bulk_create_booking_transactions (b :: bs)) as [[]|e]; repeat constructor.
  - destruct (bulk_create_booking_transactions (b :: bs)) as [[]|e];
      [|repeat constructor].
    cbn [app]. destruct (bulk_create_refund_transactions (r :: rs)) as [[]|e];
      repeat constructor.
Qed.

(** With the tag 'excel' or 'csv' no "Unsupported file format" record is
    written. *)
Lemma process_uploaded_files_supported (g : Globals) (file_content : list Byte.byte)
    (file_name bank_name transaction_type file_format : string) :
  file_format = "excel" \/ file_format = "csv" ->
  Forall (fun ev => is_unsupported_format ev = false)
         (trace (process_uploaded_files to_datetime read_excel read_csv
                   bulk_create_booking_transactions bulk_create_refund_transactions
                   g file_content file_name bank_name transaction_type file_format)).
Proof.
  intros Hf. rewrite trace_process_uploaded_files, trace_process_body.
  apply Forall_app; split; [apply Forall_app; split|].
  - apply trace_extract_stage.
    + intros lvl msg Hs. now destruct msg.
    + now apply read_file_supported.
  - destruct (result (extract _ _ _ _ _ _ _ _ _)) as [[bulk|]|e]; try constructor.
    apply persist_supported.
  - destruct (result (process_body _ _ _ _ _ _ _ _ _ _ _)) as [[]|e]; repeat constructor.
Qed.

End ReaderLogs.

(** X20. The view tags a file 'excel' exactly when its name ends in
    ".xlsx", in these very letters, and 'csv' otherwise (so "REPORT.XLSX" and
    "old.xls" are read as CSV).  Hence a task enqueued by the view never
    takes the "Unsupported file format" branch: it reads the bytes with the
    reader its name selects and logs no such record. *)
Theorem view_tasks_have_a_reader :
  forall PostData
         (cleaned_data : PostData -> gmap string (list Views.UploadedFile)
                         -> option (gmap string string))
         (delay : Views.Task -> py unit)
         (request : Views.HttpRequest PostData) task,
  In task (Views.tasks_of (trace (Views.upload_files cleaned_data delay request))) ->
  ((Views.file_format task = "excel" /\
    exists stem, Views.file_name task = (stem ++ ".xlsx")%string) \/
   (Views.file_format task = "csv" /\
    ~ exists stem, Views.file_name task = (stem ++ ".xlsx")%string)) /\
  forall T (to_datetime : pyval -> py T) read_excel read_csv
         (bulk_create_booking_transactions : list (Booking.t T) -> py unit)
         (bulk_create_refund_transactions : list (Refund.t T) -> py unit) g,
    result (@read_file T read_excel read_csv
              (Views.file_content task) (Views.file_format task))
    = (if endswith (Views.file_name task) ".xlsx"
       then read_excel (Views.file_content task)
       else read_csv (Views.file_content task)) /\
    Forall (fun ev => is_unsupported_format ev = false)
      (trace (process_uploaded_files to_datetime read_excel read_csv
                bulk_create_booking_transactions bulk_create_refund_transactions g
                (Views.file_content task) (Views.file_name task) (Views.bank_name task)
                (Views.transaction_type task) (Views.file_format task))).
Proof.
  intros PostData cleaned_data delay request task Hin.
  apply upload_files_tasks in Hin as (_ & data & b & t & file & _ & _ & _ & _ & ->).
  cbn [Views.task_for Views.file_format Views.file_name Views.file_content
       Views.bank_name Views.transaction_type].
  destruct (endswith (Views.name file) ".xlsx") eqn:He.
  - split; [left; split; [reflexivity | now apply endswith_spec]|].
    intros T to_datetime read_excel read_csv bb br g. split.
    + unfold read_file. cbn [String.eqb Ascii.eqb Bool.eqb]. now py_steps.
    + apply process_uploaded_files_supported. now left.
  - split.
    + right. split; [reflexivity|]. intros H. apply endswith_spec in H. congruence.
    + intros T to_datetime read_excel read_csv bb br g. split.
      * unfold read_file. cbn [String.eqb Ascii.eqb Bool.eqb]. now py_steps.
      * apply process_uploaded_files_supported. now right.
Qed.

Lemma view_tasks_have_a_reader_witness :
  (Views.file_format (Views.task_for "karur_vysya" "booking"
                        {| Views.name := "march.xlsx"; Views.content := [] |}) = "excel" /\
   exists stem,
     Views.file_name (Views.task_for "karur_vysya" "booking"
                        {| Views.name := "march.xlsx"; Views.content := [] |})
     = (stem ++ ".xlsx")%string) \/
  (Views.file_format (Views.task_for "karur_vysya" "booking"
                        {| Views.name := "march.xlsx"; Views.content := [] |}) = "csv" /\
   ~ exists stem,
       Views.file_name (Views.task_for "karur_vysya" "booking"
                          {| Views.name := "march.xlsx"; Views.content := [] |})
       = (stem ++ ".xlsx")%string).
Proof.
  refine (proj1 (view_tasks_have_a_reader unit Views.sample_form Views.accept_task
                   (Views.sample_request "POST")
                   (Views.task_for "karur_vysya" "booking"
                      {| Views.name := "march.xlsx"; Views.content := [] |}) _)).
  vm_compute. auto.
Defined.

(** ** Two columns with one cleaned name *)

Lemma zip_app_inv {A B} (l1 l2 : list A) (cells : list B) :
  length cells = length (l1 ++ l2) ->
  exists c1 c2,
    cells = c1 ++ c2 /\ length c2 = length l2 /\
    zip (l1 ++ l2) cells = zip l1 c1 ++ zip l2 c2.
Proof.
  revert cells. induction l1 as [|a l1 IH]; intros cells Hlen.
  - exists [], cells. auto.
  - destruct cells as [|x cells]; [discriminate|].
    simpl in Hlen. destruct (IH cells ltac:(lia)) as (c1 & c2 & -> & Hl & Hz).
    exists (x :: c1), c2. repeat apply conj; [reflexivity | exact Hl |].
    simpl. now rewrite Hz.
Qed.

Lemma zip_twice {A B} (a b : A) (l1 l2 l3 : list A) (cells : list B) :
  length cells = length (l1 ++ a :: l2 ++ b :: l3) ->
  exists x y r1 r2 r3,
    zip (l1 ++ a :: l2 ++ b :: l3) cells = r1 ++ (a, x) :: r2 ++ (b, y) :: r3.
Proof.
  intros Hlen.
  destruct (zip_app_inv l1 (a :: l2 ++ b :: l3) cells Hlen) as (c1 & c2 & -> & Hl & ->).
  destruct c2 as [|x c2]; [discriminate|]. simpl in Hl.
  destruct (zip_app_inv l2 (b :: l3) c2 ltac:(lia)) as (c3 & c4 & -> & Hl' & Hz).
  destruct c4 as [|y c4]; [discriminate|].
  exists x, y, (zip l1 c1), (zip l2 c3), (zip l3 c4).
  simpl. now rewrite Hz.
Qed.

Lemma normalised_columns (df : DataFrame) (schema : Schema) :
  normalised_rows df schema
  = map (fun cells => zip (map (field_of schema) (columns df)) cells) (data df).
Proof.
  unfold normalised_rows, iterrows, rename, field_of. cbn [columns data].
  now rewrite map_map.
Qed.

Lemma flat_map_nil {A B} (f : A -> list B) (l : list A) :
  (forall x, In x l -> f x = []) -> flat_map f l = [].
Proof.
  induction l as [|x l IH]; intros H; [reflexivity|].
  simpl. rewrite (H x) by now left. apply IH. intros y Hy. apply H. now right.
Qed.

Lemma series_order_adds_nothing {T} (to_datetime : pyval -> py T) (bank_code : Z)
    (transaction_type : string) (row : Row) (cells : list cell) :
  row_get "irctc_order_no" row = VSeries cells ->
  bookings_of_row to_datetime bank_code transaction_type row = [] /\
  refunds_of_row to_datetime bank_code transaction_type row = [].
Proof.
  intros Hs. unfold bookings_of_row, refunds_of_row, booking_record, refund_record.
  rewrite Hs. cbn [to_int truthy andb].
  destruct (String.eqb transaction_type "booking"),
           (String.eqb transaction_type "refund");
    split; try reflexivity.
  all: first [ now destruct (booking_values to_datetime row) as [[[td cd] a]|e]
             | now destruct (refund_values to_datetime row) as [[[rd a] dd]|e] ].
Qed.

(** X21. A file in which two columns clean to the order-number label (say
    "IRCTC ORDER NO." and "IRCTC_ORDER_NO") passes the column check, yet
    stores nothing: every row then reads a [Series] for the order number, so
    no row adds a record and no bulk insert is called. *)
Theorem twin_columns_empty_the_file :
  forall T (to_datetime : pyval -> py T) read_excel read_csv
         (bulk_create_booking_transactions : list (Booking.t T) -> py unit)
         (bulk_create_refund_transactions : list (Refund.t T) -> py unit)
         g file_content file_name bank_name transaction_type file_format
         df schema bank_code c1 c2 l1 l2 l3,
  read_as read_excel read_csv file_format file_content df ->
  lookup_schema g bank_name transaction_type = Ret schema ->
  missing_from schema df = ∅ ->
  BANK_CODE_MAPPING g !! bank_name = Some bank_code ->
  well_formed df ->
  columns df = l1 ++ c1 :: l2 ++ c2 :: l3 ->
  field_of schema c1 = "irctc_order_no" ->
  field_of schema c2 = "irctc_order_no" ->
  result (extract to_datetime read_excel read_csv g file_content file_name
            bank_name transaction_type file_format) = Ret (Some ([], [])) /\
  persistence_calls
    (trace (process_uploaded_files to_datetime read_excel read_csv
              bulk_create_booking_transactions bulk_create_refund_transactions
              g file_content file_name bank_name transaction_type file_format)) = [].
Proof.
  intros T to_datetime read_excel read_csv bb br g file_content file_name bank_name
    transaction_type file_format df schema bank_code c1 c2 l1 l2 l3
    Hread Hs Hm Hc Hwf Hcols H1 H2.
  assert (Hrows : forall row, In row (normalised_rows df schema) ->
            bookings_of_row to_datetime bank_code transaction_type row = [] /\
            refunds_of_row to_datetime bank_code transaction_type row = []).
  { intros row Hrow. rewrite normalised_columns in Hrow.
    apply in_map_iff in Hrow as (cells & <- & Hcells).
    unfold well_formed in Hwf. rewrite List.Forall_forall in Hwf.
    specialize (Hwf cells Hcells).
    rewrite Hcols, !map_app in *. cbn [map] in *. rewrite map_app in *. cbn [map] in *.
    rewrite H1, H2.
    destruct (zip_twice "irctc_order_no" "irctc_order_no"
                (map (field_of schema) l1) (map (field_of schema) l2)
                (map (field_of schema) l3) cells) as (x & y & r1 & r2 & r3 & ->).
    { rewrite Hwf. rewrite !length_app. cbn [length]. rewrite !length_app. cbn [length].
      now rewrite !length_map. }
    destruct (row_get_twice "irctc_order_no" x y r1 r2 r3) as [cs Hcs].
    now apply (series_order_adds_nothing to_datetime bank_code transaction_type _ cs). }
  assert (He : result (extract to_datetime read_excel read_csv g file_content file_name
                         bank_name transaction_type file_format) = Ret (Some ([], []))).
  { rewrite (extract_result _ _ _ _ _ _ _ _ _ _ Hread), Hs.
    case_decide; [|contradiction]. rewrite Hc.
    rewrite !flat_map_nil; [reflexivity | |]; intros row Hrow; now apply Hrows. }
  split; [exact He|].
  rewrite persistence_calls_process_uploaded_files. now rewrite He.
Qed.

Lemma twin_file_checked :
  well_formed Variants.twin_file /\
  missing_from karur_vysya_booking Variants.twin_file = ∅.
Proof.
  split.
  - repeat constructor.
  - apply missing_from_empty_iff. intros r Hr. exists r. split; [|reflexivity].
    simpl in Hr. simpl. intuition.
Qed.

Lemma twin_columns_empty_the_file_witness :
  persistence_calls
    (trace (process_uploaded_files Sample.to_datetime
              (Sample.reads Variants.twin_file) (Sample.reads Variants.twin_file)
              Sample.accept Sample.accept
              shipped [] "report.csv" "karur_vysya" "booking" "csv")) = [].
Proof.
  refine (proj2 (twin_columns_empty_the_file pyval Sample.to_datetime
                   (Sample.reads Variants.twin_file) (Sample.reads Variants.twin_file)
                   Sample.accept Sample.accept
                   shipped [] "report.csv" "karur_vysya" "booking" "csv"
                   Variants.twin_file karur_vysya_booking 40%Z
                   "IRCTC ORDER NO." "IRCTC_ORDER_NO"
                   ["TXN DATE"] [] ["BANK BOOKING REF.NO."; "BOOKING AMOUNT"; "CREDITED ON"]
                   _ _ (proj2 twin_file_checked) _ (proj1 twin_file_checked) _ _ _)).
  - right. split; reflexivity.
  - vm_compute. reflexivity.
  - vm_compute. reflexivity.
  - reflexivity.
  - vm_compute. reflexivity.
  - vm_compute. reflexivity.
Defined.
